(** * OmniLens: commit classifier, structural extractor and metric engines

    A shallow embedding of the analytical core of [omnilens/__main__.py]
    and the properties its specification states about it.

    Conventions of the embedding.
    - A Python [str] is a [string]; the text is taken to be ASCII, so the
      character tests below ([isspace], [isword]) are the ASCII part of
      Python's Unicode-aware ones.
    - A Python [int] is a [Z]; a Python [float] is an exact rational [Q]
      (no rounding is modelled).
    - Exceptions are explicit: a computation that can raise returns a
      [result]. *)

From Stdlib Require Import String Ascii List ZArith QArith Qminmax Bool Lia.
Import ListNotations.

Local Open Scope string_scope.
Local Open Scope list_scope.

(** ** Exceptions *)

Inductive exn : Type :=
| IndexError
| ValueError
| ZeroDivisionError.

Inductive result (A : Type) : Type :=
| Ok (a : A)
| Raise (e : exn).

Arguments Ok {A} a.
Arguments Raise {A} e.

Definition bind {A B : Type} (m : result A) (f : A -> result B) : result B :=
  match m with
  | Ok a => f a
  | Raise e => Raise e
  end.

Notation "x <- m ;; k" := (bind m (fun x => k))
  (at level 61, m at next level, right associativity).

(** [l[n]] of a Python list. *)
Definition getitem {A : Type} (l : list A) (n : nat) : result A :=
  match nth_error l n with
  | Some x => Ok x
  | None => Raise IndexError
  end.

(** ** Python string primitives *)

Module Py.

(** [str.isspace] on one ASCII character: TAB..CR, FS..US and space. *)
Definition isspace (c : ascii) : bool :=
  let n := nat_of_ascii c in
  ((9 <=? n) && (n <=? 13) || (28 <=? n) && (n <=? 32))%nat.

Definition isdigit (c : ascii) : bool :=
  let n := nat_of_ascii c in ((48 <=? n) && (n <=? 57))%nat.

Definition isupper (c : ascii) : bool :=
  let n := nat_of_ascii c in ((65 <=? n) && (n <=? 90))%nat.

Definition islower (c : ascii) : bool :=
  let n := nat_of_ascii c in ((97 <=? n) && (n <=? 122))%nat.

(** The regular-expression class [\w]. *)
Definition isword (c : ascii) : bool :=
  isdigit c || isupper c || islower c || Ascii.eqb c "_".

Definition lower (c : ascii) : ascii :=
  if isupper c then ascii_of_nat (nat_of_ascii c + 32) else c.

Fixpoint lstrip (s : string) : string :=
  match s with
  | EmptyString => EmptyString
  | String c s' => if isspace c then lstrip s' else s
  end.

Fixpoint rstrip (s : string) : string :=
  match s with
  | EmptyString => EmptyString
  | String c s' =>
      match rstrip s' with
      | EmptyString => if isspace c then EmptyString else String c EmptyString
      | r => String c r
      end
  end.

Definition strip (s : string) : string := rstrip (lstrip s).

(** Truth value of a string: [bool(s)]. *)
Definition truthy (s : string) : bool :=
  match s with
  | EmptyString => false
  | _ => true
  end.

Definition startswith (s p : string) : bool := String.prefix p s.

Definition endswith (s p : string) : bool :=
  (String.length p <=? String.length s)%nat &&
  String.eqb (substring (String.length s - String.length p) (String.length p) s) p.

(** [sub in s]. *)
Fixpoint contains (sub s : string) : bool :=
  String.prefix sub s ||
  match s with
  | EmptyString => false
  | String _ s' => contains sub s'
  end.

(** [s.split(sep)] for a non-empty separator: [skip] counts the separator
    characters still to be passed over, [cur] is the piece being built. *)
Fixpoint split_go (sep s : string) (skip : nat) (cur : string) : list string :=
  match s with
  | EmptyString => [cur]
  | String c s' =>
      match skip with
      | S n => split_go sep s' n cur
      | O =>
          if String.prefix sep s
          then cur :: split_go sep s' (String.length sep - 1) EmptyString
          else split_go sep s' 0 (cur ++ String c EmptyString)
      end
  end.

Definition split (s sep : string) : list string := split_go sep s 0 EmptyString.

Definition join (sep : string) (l : list string) : string := String.concat sep l.

(** [s[n:]] *)
Definition drop (n : nat) (s : string) : string := substring n (String.length s - n) s.

Definition digit_val (c : ascii) : option Z :=
  if isdigit c then Some (Z.of_nat (nat_of_ascii c) - 48)%Z else None.

(** The digit part of an [int()] literal: decimal digits, a single
    underscore allowed between two digits. *)
Fixpoint digits_val (s : string) (acc : Z) (after_digit : bool) : option Z :=
  match s with
  | EmptyString => if after_digit then Some acc else None
  | String c s' =>
      if Ascii.eqb c "_"
      then if after_digit
           then match s' with
                | EmptyString => None
                | _ => digits_val s' acc false
                end
           else None
      else match digit_val c with
           | Some d => digits_val s' (10 * acc + d)%Z true
           | None => None
           end
  end.

(** White space of the C locale ([Py_ISSPACE]): TAB..CR and space.  Around
    the literal of an ASCII string [int()] skips these, and not FS..US,
    which [str.strip] removes. *)
Definition isspace_c (c : ascii) : bool :=
  let n := nat_of_ascii c in ((9 <=? n) && (n <=? 13) || (n =? 32))%nat.

Fixpoint lskip (space : ascii -> bool) (s : string) : string :=
  match s with
  | EmptyString => EmptyString
  | String c s' => if space c then lskip space s' else s
  end.

Fixpoint rskip (space : ascii -> bool) (s : string) : string :=
  match s with
  | EmptyString => EmptyString
  | String c s' =>
      match rskip space s' with
      | EmptyString => if space c then EmptyString else String c EmptyString
      | r => String c r
      end
  end.

(** [sys.int_max_str_digits] at its default (CPython 3.11 and later, and
    the security releases of 3.8 to 3.10): a literal of more digits is
    refused with [ValueError]. *)
Definition MAX_STR_DIGITS : nat := 4300.

Fixpoint count_digits (s : string) : nat :=
  match s with
  | EmptyString => 0
  | String c s' => ((if isdigit c then 1 else 0) + count_digits s')%nat
  end.

(** [int(s)] in base 10: [None] stands for [ValueError]. *)
Definition int (s : string) : option Z :=
  let literal := rskip isspace_c (lskip isspace_c s) in
  let '(negative, digits) :=
    match literal with
    | String c r =>
        if Ascii.eqb c "+" then (false, r)
        else if Ascii.eqb c "-" then (true, r)
        else (false, literal)
    | EmptyString => (false, literal)
    end in
  match digits_val digits 0%Z false with
  | Some n =>
      if (count_digits digits <=? MAX_STR_DIGITS)%nat
      then Some (if negative then Z.opp n else n)
      else None
  | None => None
  end.

End Py.

(** ** A backtracking matcher for the [re] patterns of the program

    Greedy and lazy repetition, alternation tried left to right, numbered
    groups, [^], [$] and [\b]: the semantics of Python's [re] on the
    constructs the program's patterns use. *)

Module Re.

Record flags : Type := mkFlags {
  IGNORECASE : bool;
  MULTILINE : bool;
  DOTALL : bool
}.

Definition no_flags : flags := mkFlags false false false.

Inductive regex : Type :=
| Eps
| Chr (c : ascii)
| Cls (p : ascii -> bool)
| Dot
| Bol
| Eol
| WordB
| Seq (r1 r2 : regex)
| Alt (r1 r2 : regex)
| Star (greedy : bool) (r : regex)
| Group (n : nat) (r : regex).

(** Derived forms. *)
Definition Plus (greedy : bool) (r : regex) : regex := Seq r (Star greedy r).
Definition Opt (r : regex) : regex := Alt r Eps.
Definition cat (l : list regex) : regex := fold_right Seq Eps l.

Fixpoint Lit (s : string) : regex :=
  match s with
  | EmptyString => Eps
  | String c s' => Seq (Chr c) (Lit s')
  end.

Definition space : regex := Cls Py.isspace.   (* \s *)
Definition word : regex := Cls Py.isword.     (* \w *)
Definition none_of (c : ascii) : regex := Cls (fun a => negb (Ascii.eqb a c)).

(** A position in the subject: the character just before it, the text
    from it on, and the groups captured so far. *)
Record cursor : Type := mkCursor {
  before : option ascii;
  rest : string;
  caps : list (nat * string)
}.

Definition newline : ascii := ascii_of_nat 10.

Definition chr_eq (fl : flags) (c a : ascii) : bool :=
  if IGNORECASE fl then Ascii.eqb (Py.lower c) (Py.lower a) else Ascii.eqb c a.

Definition at_bol (fl : flags) (cu : cursor) : bool :=
  match before cu with
  | None => true
  | Some b => MULTILINE fl && Ascii.eqb b newline
  end.

Definition at_eol (fl : flags) (cu : cursor) : bool :=
  match rest cu with
  | EmptyString => true
  | String a EmptyString => Ascii.eqb a newline
  | String a _ => MULTILINE fl && Ascii.eqb a newline
  end.

Definition word_before (cu : cursor) : bool :=
  match before cu with
  | Some b => Py.isword b
  | None => false
  end.

Definition word_after (cu : cursor) : bool :=
  match rest cu with
  | String a _ => Py.isword a
  | EmptyString => false
  end.

Definition at_boundary (cu : cursor) : bool :=
  xorb (word_before cu) (word_after cu).

Definition step (a : ascii) (s : string) (cu : cursor) : cursor :=
  mkCursor (Some a) s (caps cu).

(** The text consumed between two positions of the same subject. *)
Definition taken (from to : string) : string :=
  substring 0 (String.length from - String.length to) from.

Definition record_group (n : nat) (txt : string) (cu : cursor) : cursor :=
  mkCursor (before cu) (rest cu) ((n, txt) :: caps cu).

Definition one (ok : ascii -> bool) (cu : cursor)
    (k : cursor -> option cursor) : option cursor :=
  match rest cu with
  | String a s => if ok a then k (step a s cu) else None
  | EmptyString => None
  end.

Definition guard (b : bool) (cu : cursor)
    (k : cursor -> option cursor) : option cursor :=
  if b then k cu else None.

Fixpoint run (fl : flags) (r : regex) (cu : cursor)
    (k : cursor -> option cursor) {struct r} : option cursor :=
  match r with
  | Eps => k cu
  | Chr c => one (chr_eq fl c) cu k
  | Cls p => one p cu k
  | Dot => one (fun a => DOTALL fl || negb (Ascii.eqb a newline)) cu k
  | Bol => guard (at_bol fl cu) cu k
  | Eol => guard (at_eol fl cu) cu k
  | WordB => guard (at_boundary cu) cu k
  | Seq r1 r2 => run fl r1 cu (fun cu' => run fl r2 cu' k)
  | Alt r1 r2 =>
      match run fl r1 cu k with
      | Some e => Some e
      | None => run fl r2 cu k
      end
  | Star greedy r1 =>
      (fix iter (fuel : nat) (cu : cursor) {struct fuel} : option cursor :=
         match fuel with
         | O => k cu
         | S fuel' =>
             if greedy
             then match run fl r1 cu (fun cu' =>
                          if (String.length (rest cu') <? String.length (rest cu))%nat
                          then iter fuel' cu' else None) with
                  | Some e => Some e
                  | None => k cu
                  end
             else match k cu with
                  | Some e => Some e
                  | None => run fl r1 cu (fun cu' =>
                          if (String.length (rest cu') <? String.length (rest cu))%nat
                          then iter fuel' cu' else None)
                  end
         end) (S (String.length (rest cu))) cu
  | Group n r1 =>
      run fl r1 cu (fun cu' => k (record_group n (taken (rest cu) (rest cu')) cu'))
  end.

(** Try the pattern at one position. *)
Definition match_at (fl : flags) (r : regex) (b : option ascii) (s : string)
  : option cursor :=
  run fl r (mkCursor b s []) Some.

(** [m.group(n)]: [None] when the group took no part in the match. *)
Fixpoint group (n : nat) (cs : list (nat * string)) : option string :=
  match cs with
  | [] => None
  | (m, txt) :: cs' => if (m =? n)%nat then Some txt else group n cs'
  end.

(** [re.match(r, s)]: the groups of a match anchored at the start. *)
Definition re_match (fl : flags) (r : regex) (s : string)
  : option (list (nat * string)) :=
  option_map caps (match_at fl r None s).

(** [re.search(r, s)]: the leftmost match. *)
Fixpoint search_from (fl : flags) (r : regex) (b : option ascii) (s : string)
  : option (list (nat * string)) :=
  match match_at fl r b s with
  | Some cu => Some (caps cu)
  | None =>
      match s with
      | EmptyString => None
      | String c s' => search_from fl r (Some c) s'
      end
  end.

Definition re_search (fl : flags) (r : regex) (s : string) :=
  search_from fl r None s.

(** [len(re.findall(r, s))]: matches are taken left to right and do not
    overlap; [skip] counts the characters of the last match still to be
    passed over.  (None of the program's patterns matches the empty
    string; the scan moves on by one character after an empty match.) *)
Fixpoint count_from (fl : flags) (r : regex) (b : option ascii) (s : string)
    (skip : nat) : nat :=
  match skip with
  | S n =>
      match s with
      | EmptyString => 0
      | String c s' => count_from fl r (Some c) s' n
      end
  | O =>
      match match_at fl r b s with
      | Some cu =>
          S (match s with
             | EmptyString => 0
             | String c s' =>
                 count_from fl r (Some c) s' (String.length s - String.length (rest cu) - 1)
             end)
      | None =>
          match s with
          | EmptyString => 0
          | String c s' => count_from fl r (Some c) s' 0
          end
      end
  end.

Definition findall_count (fl : flags) (r : regex) (s : string) : nat :=
  count_from fl r None s 0.

(** [re.sub(r, '', s)]: every match is removed. *)
Fixpoint delete_from (fl : flags) (r : regex) (b : option ascii) (s : string)
    (skip : nat) : string :=
  match s with
  | EmptyString => EmptyString
  | String c s' =>
      match skip with
      | S n => delete_from fl r (Some c) s' n
      | O =>
          match match_at fl r b s with
          | Some cu =>
              match (String.length s - String.length (rest cu))%nat with
              | O => String c (delete_from fl r (Some c) s' 0)
              | S n => delete_from fl r (Some c) s' n
              end
          | None => String c (delete_from fl r (Some c) s' 0)
          end
      end
  end.

Definition sub_empty (fl : flags) (r : regex) (s : string) : string :=
  delete_from fl r None s 0.

End Re.

(** ** Configuration (lines 79-90) *)

Definition nl : string := String Re.newline EmptyString.
Definition tab : string := String (ascii_of_nat 9) EmptyString.

Definition COMMIT_DELIMITER : string := "==COMMIT_BOUNDARY==".
Definition FIELD_DELIMITER : string := "==FIELD_BOUNDARY==".

(** The pattern [^(\w+)(?:\(([^)]+)\))?(!)?:\s*] followed by group 4,
    [.*] to the end of the line, and [$]. *)
Definition CONVENTIONAL_RE : Re.regex :=
  Re.cat [ Re.Bol;
           Re.Group 1 (Re.Plus true Re.word);
           Re.Opt (Re.cat [ Re.Chr "(";
                            Re.Group 2 (Re.Plus true (Re.none_of ")"));
                            Re.Chr ")" ]);
           Re.Opt (Re.Group 3 (Re.Chr "!"));
           Re.Chr ":";
           Re.Star true Re.space;
           Re.Group 4 (Re.Star true Re.Dot);
           Re.Eol ].

(** A [dict] with string keys, in insertion order. *)
Fixpoint dict_get {V : Type} (d : list (string * V)) (key : string) : option V :=
  match d with
  | [] => None
  | (k, v) :: d' => if String.eqb k key then Some v else dict_get d' key
  end.

(** [d.get(key, default)] *)
Definition get_default {V : Type} (d : list (string * V)) (key : string)
    (default : V) : V :=
  match dict_get d key with
  | Some v => v
  | None => default
  end.

Definition CAT_MAP : list (string * string) :=
  [ ("feat", "features"); ("fix", "bugfixes"); ("perf", "refactoring");
    ("refactor", "refactoring"); ("docs", "docs"); ("test", "test");
    ("chore", "chore"); ("ci", "ci"); ("style", "style"); ("build", "build");
    ("revert", "reverts"); ("merge", "merges") ].

(** [BREAKING CHANGE[:\s]*(.+?)(?:\n\n|\n*$)?] with
    [re.IGNORECASE | re.DOTALL]. *)
Definition BREAKING_FLAGS : Re.flags := Re.mkFlags true false true.

Definition BREAKING_RE : Re.regex :=
  Re.cat [ Re.Lit "BREAKING CHANGE";
           Re.Star true (Re.Cls (fun a => Ascii.eqb a ":" || Py.isspace a));
           Re.Group 1 (Re.Plus false Re.Dot);
           Re.Opt (Re.Alt (Re.Lit (nl ++ nl))
                          (Re.Seq (Re.Star true (Re.Chr Re.newline)) Re.Eol)) ].

(** ** The commit-history miner: [GitIntelligence.get_history]

    The model starts at line 671, from [raw_log], the text the [git log]
    invocation of lines 644-669 returned. *)

(** Lines 685-695: one numstat line folded into the running
    [(ins, outs, files)].  The two [+=] are inside one [try]: a
    [ValueError] at the first leaves both sums alone, at the second only
    the deletions. *)
Definition stat_field (p : string) : option Z :=
  if String.eqb p "-" then Some 0%Z else Py.int p.

Definition numstat_step (acc : Z * Z * Z) (stat_line : string)
  : result (Z * Z * Z) :=
  let '(ins, outs, files) := acc in
  if Py.contains tab stat_line then
    let parts := Py.split stat_line tab in
    if (3 <=? List.length parts)%nat then
      let files := (files + 1)%Z in
      p0 <- getitem parts 0 ;;
      match stat_field p0 with
      | None => Ok (ins, outs, files)
      | Some a =>
          p1 <- getitem parts 1 ;;
          match stat_field p1 with
          | None => Ok ((ins + a)%Z, outs, files)
          | Some b => Ok ((ins + a)%Z, (outs + b)%Z, files)
          end
      end
    else Ok acc
  else Ok acc.

Fixpoint numstat_loop (stat_lines : list string) (acc : Z * Z * Z)
  : result (Z * Z * Z) :=
  match stat_lines with
  | [] => Ok acc
  | stat_line :: more =>
      acc' <- numstat_step acc stat_line ;;
      numstat_loop more acc'
  end.

(** Lines 697-704: [(category, scope, is_breaking, msg)] of a subject.
    Groups 1 and 4 take part in every match of [CONVENTIONAL_RE]. *)
Definition classify (commit_message : string)
  : string * option string * bool * string :=
  match Re.re_match Re.no_flags CONVENTIONAL_RE commit_message with
  | Some groups =>
      let ctype := Re.group 1 groups in
      let scope := Re.group 2 groups in
      let breaking := Re.group 3 groups in
      let msg := Re.group 4 groups in
      let category :=
        match ctype with
        | Some t => get_default CAT_MAP t "other"
        | None => "other"
        end in
      let is_breaking :=
        match breaking with
        | Some b => Py.truthy b
        | None => false
        end in
      (category, scope, is_breaking,
       match msg with Some m => m | None => EmptyString end)
  | None => ("other", None, false, commit_message)
  end.

Section History.

(** [datetime] and [datetime.fromisoformat] of the Python library
    ([None] for [ValueError]). *)
Variable datetime : Type.
Variable fromisoformat : string -> option datetime.

Record CommitInfo : Type := mkCommitInfo {
  hash : string;
  author_name : string;
  author_email : string;
  date : datetime;
  message : string;
  full_message : string;
  category : string;
  scope : option string;
  is_breaking : bool;
  breaking_description : option string;
  insertions : Z;
  deletions : Z;
  files_changed : Z
}.

(** One iteration of the loop of lines 672-725: [Ok None] is [continue],
    [Ok (Some c)] is [commits.append(c)]. *)
Definition parse_chunk (chunk : string) : result (option CommitInfo) :=
  if negb (Py.truthy (Py.strip chunk)) then Ok None else
  let lines := Py.split (Py.strip chunk) nl in
  if (List.length lines <? 1)%nat then Ok None else
  line0 <- getitem lines 0 ;;
  if negb (Py.truthy (Py.strip line0)) then Ok None else
  let meta := Py.split line0 FIELD_DELIMITER in
  if (List.length meta <? 4)%nat then Ok None else
  stats <- numstat_loop (skipn 1 lines) (0, 0, 0)%Z ;;
  let '(ins, outs, files) := stats in
  commit_message <- getitem meta 3 ;;
  let '(category, scope, is_breaking, msg) := classify commit_message in
  date_field <- getitem meta 2 ;;
  match fromisoformat date_field with
  | None => Ok None
  | Some commit_date =>
      hash_field <- getitem meta 0 ;;
      author_field <- getitem meta 1 ;;
      Ok (Some (mkCommitInfo hash_field author_field EmptyString commit_date
                  msg commit_message category scope is_breaking None
                  ins outs files))
  end.

Fixpoint parse_chunks (chunks : list string) (commits : list CommitInfo)
  : result (list CommitInfo) :=
  match chunks with
  | [] => Ok commits
  | chunk :: more =>
      r <- parse_chunk chunk ;;
      match r with
      | Some c => parse_chunks more (commits ++ [c])
      | None => parse_chunks more commits
      end
  end.

Definition get_history (raw_log : string) : result (list CommitInfo) :=
  parse_chunks (Py.split raw_log COMMIT_DELIMITER) [].

(** The header line of a chunk, as lines 674-679 see it. *)
Definition header_fields (chunk : string) : list string :=
  match Py.split (Py.strip chunk) nl with
  | line0 :: _ => Py.split line0 FIELD_DELIMITER
  | [] => []
  end.

Definition malformed (chunk : string) : Prop :=
  (List.length (header_fields chunk) < 4)%nat.

End History.

Arguments hash {datetime} _.
Arguments author_name {datetime} _.
Arguments category {datetime} _.
Arguments scope {datetime} _.
Arguments is_breaking {datetime} _.
Arguments full_message {datetime} _.
Arguments message {datetime} _.
Arguments insertions {datetime} _.
Arguments deletions {datetime} _.
Arguments files_changed {datetime} _.

(** An instance for worked examples: the strict form
    [YYYY-MM-DDTHH:MM:SS+HH:MM] that [git log --format=%aI] prints, kept
    as text. *)
Definition iso_shape : list (ascii -> bool) :=
  let d := Py.isdigit in
  let c (x : ascii) := fun a => Ascii.eqb a x in
  [ d; d; d; d; c "-"; d; d; c "-"; d; d; c "T"; d; d; c ":"; d; d; c ":"; d; d;
    (fun a => Ascii.eqb a "+" || Ascii.eqb a "-"); d; d; c ":"; d; d ]%char.

Fixpoint has_shape (shape : list (ascii -> bool)) (s : string) : bool :=
  match shape, s with
  | [], EmptyString => true
  | p :: shape', String a s' => p a && has_shape shape' s'
  | _, _ => false
  end.

Definition git_iso (s : string) : option string :=
  if has_shape iso_shape s then Some s else None.

(** ** The complexity engine: [ComplexityAnalyzer] (lines 330-414) *)

Definition kw (w : string) : Re.regex := Re.cat [Re.WordB; Re.Lit w; Re.WordB].

(** [COMPLEXITY_PATTERNS], each with its weight.  The tenth pattern is
    [\b\?\s*.*\s*:], the next two are [\b&&] and [\b\|\|]. *)
Definition COMPLEXITY_PATTERNS : list (Re.regex * Z) :=
  [ (kw "if", 1%Z);
    (kw "elseif", 1%Z);
    (kw "else", 1%Z);
    (kw "for", 1%Z);
    (kw "while", 1%Z);
    (kw "do", 1%Z);
    (kw "switch", 1%Z);
    (kw "case", 1%Z);
    (kw "catch", 1%Z);
    (Re.cat [Re.WordB; Re.Chr "?"; Re.Star true Re.space; Re.Star true Re.Dot;
             Re.Star true Re.space; Re.Chr ":"], 1%Z);
    (Re.cat [Re.WordB; Re.Lit "&&"], 1%Z);
    (Re.cat [Re.WordB; Re.Lit "||"], 1%Z);
    (kw "and", 1%Z);
    (kw "or", 1%Z) ].

Definition IGNORECASE_ONLY : Re.flags := Re.mkFlags true false false.

Definition calculate_cyclomatic_complexity (code : string) : Z :=
  fold_left
    (fun complexity pw =>
       let count := Z.of_nat (Re.findall_count IGNORECASE_ONLY (fst pw) code) in
       (complexity + count * snd pw)%Z)
    COMPLEXITY_PATTERNS 1%Z.

Definition calculate_maintainability_index (loc complexity comments : Z) : Q :=
  if (loc =? 0)%Z then 100%Q
  else
    let sloc := (loc - comments)%Z in
    let mi :=
      Qmax 0 (171 - 5.2 * inject_Z complexity - 0.23 * inject_Z complexity
              - 16.2 * inject_Z (Z.max 1 sloc) / 100)%Q in
    Qmin 100 (mi * 100 / 171)%Q.

Record CodeMetrics : Type := mkCodeMetrics {
  cm_loc : Z;
  cm_sloc : Z;
  cm_comment_lines : Z;
  cm_functions : Z;
  cm_classes : Z;
  cm_complexity : Z;
  cm_complexity_per_function : Q;
  cm_maintainability_index : Q
}.

Definition any_of (ws : list string) : Re.regex :=
  fold_right (fun w r => Re.Alt (Re.Lit w) r) (Re.Cls (fun _ => false)) ws.

(** Line 390-393: the test that makes a line a comment line. *)
Definition is_comment_line (l : string) : bool :=
  let t := Py.strip l in
  Py.startswith t "#" || Py.startswith t "//" || Py.startswith t "*" ||
  (Py.startswith t "/*" && Py.endswith t "*/").

Definition strip_comments (code : string) : string :=
  let s1 := Re.sub_empty (Re.mkFlags false true false)
              (Re.cat [Re.Chr "#"; Re.Star true Re.Dot; Re.Eol]) code in
  let s2 := Re.sub_empty Re.no_flags
              (Re.cat [Re.Lit "//"; Re.Star true Re.Dot; Re.Eol]) s1 in
  let s3 := Re.sub_empty (Re.mkFlags false false true)
              (Re.cat [Re.Lit "/*"; Re.Star false Re.Dot; Re.Lit "*/"]) s2 in
  Re.sub_empty (Re.mkFlags false false true)
    (Re.cat [Re.Lit "<!--"; Re.Star false Re.Dot; Re.Lit "-->"]) s3.

Definition calculate_code_metrics (file_path : string) (lines : list string)
  : CodeMetrics :=
  let code := Py.join EmptyString lines in
  let stripped_code := strip_comments code in
  let total_lines := Z.of_nat (List.length lines) in
  let comment_lines := Z.of_nat (List.length (filter is_comment_line lines)) in
  let code_lines := (total_lines - comment_lines)%Z in
  let functions :=
    Z.of_nat (Re.findall_count Re.no_flags
      (Re.cat [ any_of ["function"; "def"; "func"; "fn"; "method"; "void";
                        "public"; "private"; "protected"];
                Re.Plus true Re.space; Re.Plus true Re.word ]) code) in
  let classes :=
    Z.of_nat (Re.findall_count Re.no_flags
      (Re.cat [ any_of ["class"; "interface"; "struct"; "enum"];
                Re.Plus true Re.space; Re.Plus true Re.word ]) code) in
  let complexity := calculate_cyclomatic_complexity stripped_code in
  let maintainability :=
    calculate_maintainability_index code_lines complexity comment_lines in
  mkCodeMetrics total_lines code_lines comment_lines functions classes
    complexity
    (if (0 <? functions)%Z then (inject_Z complexity / inject_Z functions)%Q
     else 0%Q)
    maintainability.

(** The spec's reading of the index of a file, for comparison: [sloc] is
    the total line count minus the comment line count. *)
Definition spec_maintainability (total_lines comment_lines complexity : Z) : Q :=
  if (total_lines =? 0)%Z then 100%Q
  else
    let sloc := (total_lines - comment_lines)%Z in
    let mi :=
      Qmax 0 (171 - 5.2 * inject_Z complexity - 0.23 * inject_Z complexity
              - 16.2 * inject_Z (Z.max 1 sloc) / 100)%Q in
    Qmin 100 (mi * 100 / 171)%Q.

(** ** The tech-debt scorer: [TechDebtCalculator] (lines 548-597) *)

Definition DEBT_CATEGORIES : list string := ["chore"; "refactor"; "style"; "ci"].
Definition FEATURE_CATEGORIES : list string :=
  ["feat"; "bugfix"; "features"; "bugfixes"].
Definition MAINTENANCE_CATEGORIES : list string := ["docs"; "test"; "docs"; "test"].

Record TechDebtMetrics : Type := mkTechDebtMetrics {
  total_commits : Z;
  debt_commits : Z;
  feature_commits : Z;
  maintenance_commits : Z;
  debt_percentage : Q;
  feature_percentage : Q;
  maintenance_percentage : Q;
  health_score : Q;
  complexity_score : Q;
  maintainability_index : Q
}.

(** [x in l] for a list of strings. *)
Definition str_in (x : string) (l : list string) : bool := existsb (String.eqb x) l.

(** True division [a / b]. *)
Definition truediv (a b : Q) : result Q :=
  if Qeq_bool b 0 then Raise ZeroDivisionError else Ok (a / b)%Q.

Definition Qgtb (a b : Q) : bool := negb (Qle_bool a b).

Section TechDebt.

Variable datetime : Type.

(** [sum(1 for c in commits if c.category in cats)] *)
Definition count_in (cats : list string) (commits : list (CommitInfo datetime)) : Z :=
  Z.of_nat (List.length (filter (fun c => str_in (category c) cats) commits)).

(** [share] is [(n / total) * 100 if total > 0 else 0]. *)
Definition share (n total : Z) : result Q :=
  if (0 <? total)%Z
  then q <- truediv (inject_Z n) (inject_Z total) ;; Ok (q * 100)%Q
  else Ok 0%Q.

(** [code_metrics] is [None] or a [dict] of numbers; an empty [dict] is
    false like [None]. *)
Definition dict_truthy (code_metrics : option (list (string * Q))) : bool :=
  match code_metrics with
  | Some (_ :: _) => true
  | _ => false
  end.

(** [code_metrics.get(key, default)], reached only behind [dict_truthy]. *)
Definition metrics_get (code_metrics : option (list (string * Q)))
    (key : string) (default : Q) : Q :=
  match code_metrics with
  | Some d => get_default d key default
  | None => default
  end.

Definition calculate_metrics (commits : list (CommitInfo datetime))
    (code_metrics : option (list (string * Q))) : result TechDebtMetrics :=
  let total := Z.of_nat (List.length commits) in
  if (total =? 0)%Z then Ok (mkTechDebtMetrics 0 0 0 0 0 0 0 0 0 0) else
  let debt := count_in DEBT_CATEGORIES commits in
  let features := count_in FEATURE_CATEGORIES commits in
  let maintenance := count_in MAINTENANCE_CATEGORIES commits in
  debt_pct <- share debt total ;;
  feature_pct <- share features total ;;
  maintenance_pct <- share maintenance total ;;
  health_score <-
    (if Qgtb debt_pct 0
     then q <- truediv feature_pct debt_pct ;; Ok (Qmin 100 (q * 50 + 50))%Q
     else Ok 100%Q) ;;
  let avg_complexity :=
    if dict_truthy code_metrics then metrics_get code_metrics "complexity" 0 else 0%Q in
  let complexity_score := Qmax 0 (100 - avg_complexity)%Q in
  let maintainability :=
    if dict_truthy code_metrics
    then metrics_get code_metrics "maintainability_index" 75 else 75%Q in
  Ok (mkTechDebtMetrics total debt features maintenance debt_pct feature_pct
        maintenance_pct health_score complexity_score maintainability).

End TechDebt.

(** ** The structural extractor: [CodebaseAnalyzer._parse_code_file]
    and its helpers (lines 940-1170) *)

Record ClassInfo : Type := mkClassInfo {
  name : string;
  file_path : string;
  line_number : nat;
  class_type : string;
  language : string;
  is_test : bool;
  docstring : option string;
  methods : list string;
  bases : list string;
  code_snippet : option string;
  complexity : Z
}.

(** [range(a, b)] *)
Definition range (a b : nat) : list nat := seq a (b - a).

(** [len(line) - len(line.lstrip())] *)
Definition indent_of (line : string) : nat :=
  String.length line - String.length (Py.lstrip line).

(** The text of a group that takes part in every match of its pattern. *)
Definition group_text (n : nat) (groups : list (nat * string)) : string :=
  match Re.group n groups with
  | Some t => t
  | None => EmptyString
  end.

Definition dquote : ascii := ascii_of_nat 34.
Definition triple_dquote : string :=
  String dquote (String dquote (String dquote EmptyString)).
Definition triple_quote : string := "'''".

(** [_get_docstring] (lines 1093-1105); [lines[start_line - 1]] is the
    declaration line itself. *)
Definition _get_docstring (lines : list string) (start_line : nat)
  : result (option string) :=
  if (List.length lines <? start_line)%nat then Ok None else
  next_line <-
    (if (start_line <=? List.length lines)%nat
     then l <- getitem lines (start_line - 1) ;; Ok (Py.strip l)
     else Ok EmptyString) ;;
  if Py.startswith next_line triple_dquote || Py.startswith next_line triple_quote
  then
    let end_marker := Py.drop 3 next_line in
    if Py.contains triple_dquote end_marker || Py.contains triple_quote end_marker
    then
      let marker :=
        if Py.contains triple_dquote end_marker then triple_dquote else triple_quote in
      if Py.endswith next_line marker
      then Ok (Some (Py.strip
                 (substring 3 (String.length next_line - 3 - 3) next_line)))
      else Ok None
    else Ok None
  else Ok None.

(** The loop of [_get_code_snippet] (lines 1125-1132); the result is
    [snippet_lines] when the loop ends or breaks. *)
Fixpoint snippet_loop (lines : list string) (start_line : nat) (idxs : list nat)
    (snippet_lines : list string) : result (list string) :=
  match idxs with
  | [] => Ok snippet_lines
  | i :: more =>
      l <- getitem lines i ;;
      let snippet_lines := snippet_lines ++ [Py.rstrip l] in
      if (start_line - 1 <? i)%nat then
        let stripped := Py.strip l in
        if negb (Py.truthy stripped) ||
           (negb (Py.startswith stripped "#") &&
            negb (Py.startswith stripped "//") &&
            negb (Py.startswith stripped "*") &&
            negb (Py.startswith l "    ") &&
            negb (Py.startswith l tab))
        then if negb (Py.startswith stripped "@")
             then Ok snippet_lines
             else snippet_loop lines start_line more snippet_lines
        else snippet_loop lines start_line more snippet_lines
      else snippet_loop lines start_line more snippet_lines
  end.

(** [_get_code_snippet] with the default [snip_format = 'short']. *)
Definition _get_code_snippet (lines : list string) (start_line : nat)
  : result (option string) :=
  if (List.length lines <? start_line)%nat then Ok None else
  let max_lines := 20%nat in
  snippet_lines <-
    snippet_loop lines start_line
      (range (start_line - 1)
             (Nat.min (start_line - 1 + max_lines) (List.length lines))) [] ;;
  match snippet_lines with
  | [] => Ok None
  | _ => Ok (Some (Py.join nl snippet_lines))
  end.

(** [_get_js_docstring] (lines 1138-1147): the text between the opening
    of a one-line documentation comment and its close, stars removed. *)
Definition remove_stars (s : string) : string :=
  Re.sub_empty Re.no_flags (Re.Chr "*") s.

Definition _get_js_docstring (lines : list string) (start_line : nat)
  : result (option string) :=
  if (List.length lines <? start_line)%nat then Ok None else
  line <- getitem lines (start_line - 1) ;;
  if Py.contains "/**" line && Py.contains "*/" line then
    match Re.re_search (Re.mkFlags false false true)
            (Re.cat [Re.Lit "/**"; Re.Group 1 (Re.Star false Re.Dot); Re.Lit "*/"])
            line with
    | Some groups => Ok (Some (Py.strip (remove_stars (group_text 1 groups))))
    | None => Ok None
    end
  else Ok None.

(** The pattern [^    def\s+(\w+)] of [_get_python_methods]. *)
Definition METHOD_RE : Re.regex :=
  Re.cat [Re.Bol; Re.Lit "    def"; Re.Plus true Re.space;
          Re.Group 1 (Re.Plus true Re.word)].

(** The loop of [_get_python_methods] (lines 1156-1168). *)
Fixpoint methods_loop (lines : list string) (base_indent : nat)
    (idxs : list nat) (methods : list string) : result (list string) :=
  match idxs with
  | [] => Ok methods
  | i :: more =>
      line <- getitem lines i ;;
      let stripped := Py.strip line in
      if negb (Py.truthy stripped) then methods_loop lines base_indent more methods
      else
        let current_indent := indent_of line in
        if (current_indent <=? base_indent)%nat && Py.truthy stripped &&
           negb (Py.startswith stripped "#")
        then Ok methods
        else
          match Re.re_match Re.no_flags METHOD_RE line with
          | Some groups =>
              methods_loop lines base_indent more (methods ++ [group_text 1 groups])
          | None => methods_loop lines base_indent more methods
          end
  end.

Definition _get_python_methods (lines : list string) (start_line : nat)
  : result (list string) :=
  if (List.length lines <? start_line)%nat then Ok [] else
  decl <- getitem lines (start_line - 1) ;;
  let base_indent := indent_of decl in
  methods_loop lines base_indent
    (range start_line (Nat.min (start_line + 100) (List.length lines))) [].

(** The pattern [^class\s+(\w+)(?:\(([^)]+)\))?\s*:] (line 952). *)
Definition PY_CLASS_RE : Re.regex :=
  Re.cat [ Re.Bol; Re.Lit "class"; Re.Plus true Re.space;
           Re.Group 1 (Re.Plus true Re.word);
           Re.Opt (Re.cat [ Re.Chr "(";
                            Re.Group 2 (Re.Plus true (Re.none_of ")"));
                            Re.Chr ")" ]);
           Re.Star true Re.space; Re.Chr ":" ].

(** The pattern [^def\s+(\w+)\s*\(] (line 971). *)
Definition PY_DEF_RE : Re.regex :=
  Re.cat [ Re.Bol; Re.Lit "def"; Re.Plus true Re.space;
           Re.Group 1 (Re.Plus true Re.word);
           Re.Star true Re.space; Re.Chr "(" ].

(** The loop of lines 975-982: does one of the lines after the [def]
    look like a body? *)
Fixpoint is_method_loop (lines : list string) (idxs : list nat) : result bool :=
  match idxs with
  | [] => Ok false
  | j :: more =>
      if (j <? List.length lines)%nat then
        next_line <- getitem lines j ;;
        if Py.truthy (Py.strip next_line) &&
           negb (Py.startswith (Py.strip next_line) "#")
        then
          let indent := indent_of next_line in
          if (0 <? indent)%nat && negb (Py.startswith (Py.strip next_line) "def")
          then Ok true
          else is_method_loop lines more
        else is_method_loop lines more
      else is_method_loop lines more
  end.

(** [[b.strip() for b in group2.split(',')] if group2 else []] *)
Definition bases_of (group2 : option string) : list string :=
  match group2 with
  | Some g => if Py.truthy g then map Py.strip (Py.split g ",") else []
  | None => []
  end.

(** The Python block of the loop body (lines 951-996): [Some l] when the
    block ends in [continue] having appended [l], [None] when control
    falls through to the next block. *)
Definition python_block (path : string) (lines : list string) (i : nat)
    (stripped : string) : result (option (list ClassInfo)) :=
  match Re.re_match Re.no_flags PY_CLASS_RE stripped with
  | Some class_match =>
      doc <- _get_docstring lines i ;;
      meths <- _get_python_methods lines i ;;
      snippet <- _get_code_snippet lines i ;;
      Ok (Some [ mkClassInfo (group_text 1 class_match) path i "class" "python"
                   false doc meths (bases_of (Re.group 2 class_match))
                   snippet 0%Z ])
  | None =>
      match Re.re_match Re.no_flags PY_DEF_RE stripped with
      | Some func_match =>
          if (i <=? List.length lines)%nat then
            is_method <-
              is_method_loop lines
                (range i (Nat.min (i + 5) (List.length lines + 1))) ;;
            if negb is_method then
              doc <- _get_docstring lines i ;;
              snippet <- _get_code_snippet lines i ;;
              Ok (Some [ mkClassInfo (group_text 1 func_match) path i "function"
                           "python" false doc [] [] snippet 0%Z ])
            else Ok (Some [])
          else Ok None
      | None => Ok None
      end
  end.

(** The JavaScript/TypeScript block (lines 999-1048). *)
Definition ws1 : Re.regex := Re.Plus true Re.space.
Definition ws0 : Re.regex := Re.Star true Re.space.
Definition ident : Re.regex := Re.Group 1 (Re.Plus true Re.word).

Definition JS_CLASS_RE : Re.regex :=
  Re.cat [ Re.Bol; Re.Opt (Re.Seq (Re.Lit "export") ws1);
           Re.Opt (Re.Seq (Re.Lit "abstract") ws1);
           Re.Lit "class"; ws1; ident ].

Definition JS_ARROW_RE : Re.regex :=
  Re.cat [ Re.Bol;
           Re.Opt (Re.Alt (Re.Lit "const")
                  (Re.Alt (Re.Lit "let")
                  (Re.Alt (Re.Lit "var")
                          (Re.cat [Re.Lit "export"; ws1;
                                   Re.Alt (Re.Lit "const")
                                     (Re.Alt (Re.Lit "let") (Re.Lit "var"))]))));
           ws0; ident; ws0; Re.Chr "="; ws0;
           Re.Opt (Re.Seq (Re.Lit "async") ws0);
           Re.Chr "("; Re.Star true (Re.none_of ")"); Re.Chr ")"; ws0;
           Re.Lit "=>" ].

Definition JS_FUNCTION_RE : Re.regex :=
  Re.cat [ Re.Bol; Re.Opt (Re.Seq (Re.Lit "export") ws1);
           Re.Opt (Re.Seq (Re.Lit "async") ws1);
           Re.Lit "function"; ws1; ident ].

Definition js_block (path lang : string) (lines : list string) (i : nat)
    (stripped : string) : result (option (list ClassInfo)) :=
  match Re.re_match Re.no_flags JS_CLASS_RE stripped with
  | Some class_match =>
      doc <- _get_js_docstring lines i ;;
      snippet <- _get_code_snippet lines i ;;
      Ok (Some [ mkClassInfo (group_text 1 class_match) path i "class" lang
                   false doc [] [] snippet 0%Z ])
  | None =>
      match Re.re_match Re.no_flags JS_ARROW_RE stripped with
      | Some arrow_match =>
          snippet <- _get_code_snippet lines i ;;
          Ok (Some [ mkClassInfo (group_text 1 arrow_match) path i
                       "arrow_function" lang false None [] [] snippet 0%Z ])
      | None =>
          match Re.re_match Re.no_flags JS_FUNCTION_RE stripped with
          | Some func_match =>
              snippet <- _get_code_snippet lines i ;;
              Ok (Some [ mkClassInfo (group_text 1 func_match) path i "function"
                           lang false None [] [] snippet 0%Z ])
          | None => Ok None
          end
      end
  end.

(** The brace-delimited block (lines 1051-1089). *)
Definition BRACE_CLASS_RE : Re.regex :=
  Re.cat [ Re.Bol; Re.Opt (Re.Seq (Re.Lit "public") ws1);
           Re.Opt (Re.Seq (Re.Lit "static") ws1);
           Re.Opt (Re.Seq (Re.Lit "abstract") ws1);
           Re.Alt (Re.Lit "class")
             (Re.Alt (Re.Lit "interface") (Re.Alt (Re.Lit "struct") (Re.Lit "enum")));
           ws1; ident ].

Definition func_patterns : list Re.regex :=
  [ Re.cat [ Re.Bol;
             Re.Alt (Re.Lit "public")
               (Re.Alt (Re.Lit "private")
               (Re.Alt (Re.Lit "protected")
               (Re.Alt (Re.Lit "static") (Re.Lit "async"))));
             ws1; Re.Star false Re.Dot; ws1; ident; ws0; Re.Chr "(" ];
    Re.cat [ Re.Bol; Re.Lit "fn"; ws1; ident ];
    Re.cat [ Re.Bol; Re.Lit "func"; ws1; ident ] ].

Fixpoint func_loop (path lang : string) (lines : list string) (i : nat)
    (stripped : string) (patterns : list Re.regex) : result (list ClassInfo) :=
  match patterns with
  | [] => Ok []
  | pattern :: more =>
      match Re.re_match Re.no_flags pattern stripped with
      | Some func_match =>
          snippet <- _get_code_snippet lines i ;;
          Ok [ mkClassInfo (group_text 1 func_match) path i "method" lang
                 false None [] [] snippet 0%Z ]
      | None => func_loop path lang lines i stripped more
      end
  end.

Definition brace_block (path lang : string) (lines : list string) (i : nat)
    (stripped : string) : result (list ClassInfo) :=
  match Re.re_match Re.no_flags BRACE_CLASS_RE stripped with
  | Some class_match =>
      doc <- _get_js_docstring lines i ;;
      snippet <- _get_code_snippet lines i ;;
      Ok [ mkClassInfo (group_text 1 class_match) path i "class" lang
             false doc [] [] snippet 0%Z ]
  | None => func_loop path lang lines i stripped func_patterns
  end.

(** One iteration of the loop of line 943: the entities it appends. *)
Definition parse_line (path lang : string) (lines : list string) (i : nat)
    (line : string) : result (list ClassInfo) :=
  let stripped := Py.strip line in
  if negb (Py.truthy stripped) || Py.startswith stripped "#" ||
     Py.startswith stripped "//" || Py.startswith stripped "*"
  then Ok []
  else
    py <- (if String.eqb lang "python"
           then python_block path lines i stripped else Ok None) ;;
    match py with
    | Some appended => Ok appended
    | None =>
        js <- (if str_in lang ["javascript"; "typescript"]
               then js_block path lang lines i stripped else Ok None) ;;
        match js with
        | Some appended => Ok appended
        | None =>
            if str_in lang
                 ["java"; "cpp"; "csharp"; "go"; "rust"; "kotlin"; "scala"]
            then brace_block path lang lines i stripped
            else Ok []
        end
    end.

(** [for i, line in enumerate(lines, 1)]: [todo] is what is left of
    [lines], [i] the number of its first line. *)
Fixpoint parse_loop (path lang : string) (lines : list string) (i : nat)
    (todo : list string) (classes : list ClassInfo) : result (list ClassInfo) :=
  match todo with
  | [] => Ok classes
  | line :: more =>
      appended <- parse_line path lang lines i line ;;
      parse_loop path lang lines (S i) more (classes ++ appended)
  end.

Definition _parse_code_file (path : string) (lines : list string)
    (lang : string) : result (list ClassInfo) :=
  parse_loop path lang lines 1 lines [].

(** The records a list of chunks contributes, chunk by chunk. *)
Definition record_of (datetime : Type) (fromisoformat : string -> option datetime)
    (chunk : string) : list (CommitInfo datetime) :=
  match parse_chunk datetime fromisoformat chunk with
  | Ok (Some c) => [c]
  | _ => []
  end.

Definition records (datetime : Type) (fromisoformat : string -> option datetime)
    (chunks : list string) : list (CommitInfo datetime) :=
  flat_map (record_of datetime fromisoformat) chunks.

(** A chunk whose header has at least four fields, the third a date
    that parses to [d]. *)
Definition well_formed (datetime : Type) (fromisoformat : string -> option datetime)
    (chunk : string) (d : datetime) : Prop :=
  exists m0 m1 m2 m3 more,
    header_fields chunk = m0 :: m1 :: m2 :: m3 :: more /\
    fromisoformat m2 = Some d.

(** What a line after the header counts for.  [NotStat]: no tab, or fewer
    than three tab-separated parts.  [Stat i d]: a numstat line whose first
    two parts read as [i] and [d].  [StatIns i]: the second part does not
    read as a number, the [ValueError] leaves the deletions alone.
    [StatUnread]: the first part does not read, the [ValueError] leaves both
    sums alone.  The last three count as one file. *)
Inductive stat : Type :=
| NotStat
| Stat (ins dels : Z)
| StatIns (ins : Z)
| StatUnread.

Definition stat_of (stat_line : string) : stat :=
  if Py.contains tab stat_line then
    match Py.split stat_line tab with
    | p0 :: p1 :: _ :: _ =>
        match stat_field p0, stat_field p1 with
        | Some i, Some d => Stat i d
        | Some i, None => StatIns i
        | None, _ => StatUnread
        end
    | _ => NotStat
    end
  else NotStat.

Definition stat_ins (e : stat) : Z :=
  match e with Stat i _ | StatIns i => i | NotStat | StatUnread => 0%Z end.
Definition stat_dels (e : stat) : Z :=
  match e with Stat _ d => d | NotStat | StatIns _ | StatUnread => 0%Z end.
Definition stat_files (e : stat) : Z :=
  match e with NotStat => 0%Z | Stat _ _ | StatIns _ | StatUnread => 1%Z end.

Definition total (f : stat -> Z) (entries : list stat) : Z :=
  fold_right (fun e acc => (f e + acc)%Z) 0%Z entries.

(** The entries git writes in a numstat line: [-] for a binary file, or a
    number in plain decimal notation. *)
Fixpoint all_digits (p : string) : bool :=
  match p with
  | EmptyString => true
  | String c p' => Py.isdigit c && all_digits p'
  end.

Definition numeral (p : string) : Prop :=
  p = "-" \/
  (p <> EmptyString /\ all_digits p = true /\
   (String.length p <= Py.MAX_STR_DIGITS)%nat).

(** The number a string of decimal digits denotes: each digit times the
    power of ten of its place. *)
Fixpoint positional (p : string) : Z :=
  match p with
  | EmptyString => 0%Z
  | String c p' =>
      ((Z.of_nat (nat_of_ascii c) - 48) * 10 ^ Z.of_nat (String.length p')
       + positional p')%Z
  end.

Definition entry_value (p : string) : Z :=
  if String.eqb p "-" then 0%Z else positional p.

(** Worked inputs. *)
Definition header (h a d s : string) : string :=
  (h ++ FIELD_DELIMITER ++ a ++ FIELD_DELIMITER ++ d ++ FIELD_DELIMITER ++ s)%string.

Definition stat_text (i d p : string) : string := (i ++ tab ++ d ++ tab ++ p)%string.

Definition chunk_two_files : string :=
  (nl ++ header "a1" "Ann" "2024-01-02T03:04:05+00:00" "feat(core)!: add X" ++ nl ++
   nl ++ stat_text "10" "2" "a.py" ++ nl ++ stat_text "5" "0" "b.py" ++ nl)%string.

Definition chunk_broken : string := (nl ++ "broken header" ++ nl)%string.

Definition chunk_binary : string :=
  (nl ++ header "b2" "Bob" "2024-01-01T00:00:00+00:00" "tidy up" ++ nl ++
   nl ++ stat_text "-" "-" "logo.png")%string.

Definition chunk_unreadable : string :=
  (nl ++ header "d4" "Di" "2024-01-01T00:00:00+00:00" "wip" ++ nl ++
   stat_text (String (ascii_of_nat 28) "7") "2" "a.py" ++ nl ++
   stat_text "3" "x" "b.py" ++ nl ++ stat_text "-" "4" "c.py" ++ nl ++
   stat_text "x" "5" "d.py")%string.

Definition three_chunk_log : string :=
  (COMMIT_DELIMITER ++ chunk_two_files ++ COMMIT_DELIMITER ++ chunk_broken ++
   COMMIT_DELIMITER ++ chunk_binary)%string.

Definition trailer_subject : string := "feat: drop api BREAKING CHANGE: removed".

Definition trailer_log : string :=
  (COMMIT_DELIMITER ++ nl ++
   header "c3" "Cy" "2024-03-04T05:06:07+00:00" trailer_subject ++ nl)%string.

Definition commit_of (cat : string) : CommitInfo string :=
  mkCommitInfo string "h" "Ann" EmptyString "2024-01-02T03:04:05+00:00"
    "msg" "msg" cat None false None 0%Z 0%Z 0%Z.

Definition two_chores_one_feature : list (CommitInfo string) :=
  [commit_of "chore"; commit_of "features"; commit_of "chore"].

Definition record_two_files : CommitInfo string :=
  mkCommitInfo string "a1" "Ann" EmptyString "2024-01-02T03:04:05+00:00"
    "add X" "feat(core)!: add X" "features" (Some "core") true None
    15%Z 2%Z 2%Z.

(** A source line with its line end. *)
Definition ln (s : string) : string := (s ++ nl)%string.

Definition three_lines : list string := [ln "x = 1"; ln "y = 2"; ln "# note"].

Definition def_with_body : list string := [ln "def f():"; ln "    return 1"].



Definition class_one_line_method : list string :=
  [ln "class A:"; ln "    def m(self): pass"].

Definition class_far_method : list string :=
  ln "class A:" :: repeat (ln "    x = 1") 100 ++
  [ln "    def m(self):"; ln "        pass"].






(** A string of white space only. *)
Fixpoint all_space (s : string) : bool :=
  match s with
  | EmptyString => true
  | String c s' => Py.isspace c && all_space s'
  end.

From Stdlib Require Import Sorted.

(** ** Dictionaries that are written (insertion order kept) *)

(** [d[key] = v] *)
Fixpoint dict_set {V : Type} (d : list (string * V)) (key : string) (v : V)
  : list (string * V) :=
  match d with
  | [] => [(key, v)]
  | (k, w) :: d' =>
      if String.eqb k key then (k, v) :: d' else (k, w) :: dict_set d' key v
  end.

(** [key in d] *)
Definition dict_has {V : Type} (d : list (string * V)) (key : string) : bool :=
  match dict_get d key with
  | Some _ => true
  | None => false
  end.

Definition dict_keys {V : Type} (d : list (string * V)) : list string := map fst d.
Definition dict_values {V : Type} (d : list (string * V)) : list V := map snd d.

Definition sumZ (l : list Z) : Z := fold_right Z.add 0%Z l.

(** ** Aggregates over the commit list (lines 728-748) *)

Record AuthorStats : Type := mkAuthorStats {
  a_commits : Z;
  a_insertions : Z;
  a_deletions : Z;
  a_files_changed : Z
}.

Section Aggregates.

Variable datetime : Type.

Definition get_category_breakdown (commits : list (CommitInfo datetime))
  : list (string * Z) :=
  fold_left
    (fun breakdown commit =>
       dict_set breakdown (category commit)
         (get_default breakdown (category commit) 0%Z + 1)%Z)
    commits [].

(** One iteration of the loop of [get_author_stats]; [None] stands for a
    [KeyError] at [author_stats[commit.author_name]].  The four [+=] of
    lines 744-747 are one write of the entry. *)
Definition author_step (author_stats : list (string * AuthorStats))
    (commit : CommitInfo datetime) : option (list (string * AuthorStats)) :=
  let author_stats :=
    if negb (dict_has author_stats (author_name commit))
    then dict_set author_stats (author_name commit) (mkAuthorStats 0 0 0 0)
    else author_stats in
  match dict_get author_stats (author_name commit) with
  | Some s =>
      Some (dict_set author_stats (author_name commit)
              (mkAuthorStats (a_commits s + 1)%Z
                 (a_insertions s + insertions commit)%Z
                 (a_deletions s + deletions commit)%Z
                 (a_files_changed s + files_changed commit)%Z))
  | None => None
  end.

Fixpoint author_loop (commits : list (CommitInfo datetime))
    (author_stats : list (string * AuthorStats))
  : option (list (string * AuthorStats)) :=
  match commits with
  | [] => Some author_stats
  | commit :: more =>
      match author_step author_stats commit with
      | Some author_stats' => author_loop more author_stats'
      | None => None
      end
  end.

Definition get_author_stats (commits : list (CommitInfo datetime))
  : option (list (string * AuthorStats)) :=
  author_loop commits [].

(** The commits of one author, and of one category. *)
Definition by_author (a : string) (commits : list (CommitInfo datetime))
  : list (CommitInfo datetime) :=
  filter (fun c => String.eqb (author_name c) a) commits.

Definition by_category (cat : string) (commits : list (CommitInfo datetime))
  : list (CommitInfo datetime) :=
  filter (fun c => String.eqb (category c) cat) commits.

End Aggregates.

(** ** File churn: the loop of [get_file_churn] (lines 770-802)

    The model starts from [lines], the lines of the output of the
    [git log] invocation of lines 757-768. *)

Record ChurnStats : Type := mkChurnStats {
  ch_changes : Z;
  ch_insertions : Z;
  ch_deletions : Z;
  ch_commits : Z
}.

(** The [try] block of lines 782-799 for a line of at least two parts
    under a current file: a [ValueError] of [int] leaves [file_stats] as
    it is; [None] stands for a [KeyError]. *)
Definition churn_record (file_stats : list (string * ChurnStats))
    (current_file p0 p1 : string) : option (list (string * ChurnStats)) :=
  match stat_field p0 with
  | None => Some file_stats
  | Some insertions =>
      match stat_field p1 with
      | None => Some file_stats
      | Some deletions =>
          let changes := (insertions + deletions)%Z in
          let file_stats :=
            if negb (dict_has file_stats current_file)
            then dict_set file_stats current_file (mkChurnStats 0 0 0 0)
            else file_stats in
          match dict_get file_stats current_file with
          | Some s =>
              Some (dict_set file_stats current_file
                      (mkChurnStats (ch_changes s + changes)%Z
                         (ch_insertions s + insertions)%Z
                         (ch_deletions s + deletions)%Z
                         (ch_commits s + 1)%Z))
          | None => None
          end
      end
  end.

(** [current_file] is [None] or the last file name line seen. *)
Definition churn_step (state : option string * list (string * ChurnStats))
    (raw_line : string) : option (option string * list (string * ChurnStats)) :=
  let '(current_file, file_stats) := state in
  let line := Py.strip raw_line in
  if negb (Py.truthy line) then Some state
  else if Py.contains tab line then
    match Py.split line tab, current_file with
    | p0 :: p1 :: _, Some f =>
        if Py.truthy f
        then match churn_record file_stats f p0 p1 with
             | Some file_stats' => Some (current_file, file_stats')
             | None => None
             end
        else Some state
    | _, _ => Some state
    end
  else Some (Some line, file_stats).

Fixpoint churn_loop (lines : list string)
    (state : option string * list (string * ChurnStats))
  : option (option string * list (string * ChurnStats)) :=
  match lines with
  | [] => Some state
  | line :: more =>
      match churn_step state line with
      | Some state' => churn_loop more state'
      | None => None
      end
  end.

Definition get_file_churn (lines : list string)
  : option (list (string * ChurnStats)) :=
  option_map snd (churn_loop lines (None, [])).

(** A line the loop passes over while no file name has been seen: blank,
    or holding a tab. *)
Definition not_a_name (raw_line : string) : bool :=
  negb (Py.truthy (Py.strip raw_line)) || Py.contains tab (Py.strip raw_line).

(** What every entry of the churn table satisfies. *)
Definition churn_entry_ok (s : ChurnStats) : Prop :=
  ch_changes s = (ch_insertions s + ch_deletions s)%Z /\ (1 <= ch_commits s)%Z.

(** ** What the structural extractor emits, per language family *)

Definition JS_LANGUAGES : list string := ["javascript"; "typescript"].
Definition BRACE_LANGUAGES : list string :=
  ["java"; "cpp"; "csharp"; "go"; "rust"; "kotlin"; "scala"].

(** The entity kinds the blocks of [_parse_code_file] write for a
    language (lines 961, 990, 1009, 1026, 1042, 1060, 1083). *)
Definition kinds (lang : string) : list string :=
  if String.eqb lang "python" then ["class"; "function"]
  else if str_in lang JS_LANGUAGES then ["class"; "arrow_function"; "function"]
  else if str_in lang BRACE_LANGUAGES then ["class"; "method"]
  else [].

(** Facts about an entity appended at line [i] of [lines]. *)
Definition entity_facts (path lang : string) (lines : list string) (i : nat)
    (e : ClassInfo) : Prop :=
  line_number e = i /\
  file_path e = path /\ language e = lang /\
  is_test e = false /\ complexity e = 0%Z /\
  In (class_type e) (kinds lang) /\
  (methods e <> [] \/ bases e <> [] -> lang = "python" /\ class_type e = "class") /\
  (lang = "python" -> docstring e = None) /\
  exists l more,
    nth_error lines (i - 1) = Some l /\
    code_snippet e = Some (Py.join nl (Py.rstrip l :: more)) /\
    (List.length more <= 19)%nat.

(** A numstat line as line 687-689 see it: it holds a tab and splits into
    at least three parts. *)
Definition is_stat_line (stat_line : string) : bool :=
  Py.contains tab stat_line &&
  (3 <=? List.length (Py.split stat_line tab))%nat.

(** The records of a list of per-chunk outcomes. *)
Definition kept {A : Type} (outcomes : list (option A)) : list A :=
  flat_map (fun r => match r with Some c => [c] | None => [] end) outcomes.

(** The categories the classifier can assign. *)
Definition CATEGORIES : list string := "other" :: map snd CAT_MAP.

(** More worked inputs. *)
Definition chunk_odd_numbers : string :=
  (nl ++ header "d4" "Dee" "2024-05-06T07:08:09+00:00" "fix: y" ++ nl ++
   nl ++ stat_text "many" "few" "a.py" ++ nl ++ stat_text "4" "1" "b.py")%string.

Definition record_odd_numbers : CommitInfo string :=
  mkCommitInfo string "d4" "Dee" EmptyString "2024-05-06T07:08:09+00:00"
    "y" "fix: y" "bugfixes" None false None 4%Z 1%Z 2%Z.

Definition chunk_long_header : string :=
  (nl ++ header "e5" "Eve" "2024-05-06T07:08:09+00:00"
           ("docs: explain " ++ FIELD_DELIMITER ++ " in the log") ++ nl)%string.

Definition chunk_bad_date : string :=
  (nl ++ header "f6" "Flo" "yesterday" "feat: z" ++ nl)%string.

(** ** The dependency analyzer: [DependencyAnalyzer] (lines 417-545) *)

(** [re.findall(r, s)], one entry of captured groups per match; the scan
    is that of [Re.count_from]. *)
Fixpoint findall_from (fl : Re.flags) (r : Re.regex) (b : option ascii)
    (s : string) (skip : nat) : list (list (nat * string)) :=
  match skip with
  | S n =>
      match s with
      | EmptyString => []
      | String c s' => findall_from fl r (Some c) s' n
      end
  | O =>
      match Re.match_at fl r b s with
      | Some cu =>
          Re.caps cu ::
          match s with
          | EmptyString => []
          | String c s' =>
              findall_from fl r (Some c) s'
                (String.length s - String.length (Re.rest cu) - 1)
          end
      | None =>
          match s with
          | EmptyString => []
          | String c s' => findall_from fl r (Some c) s' 0
          end
      end
  end.

Definition findall (fl : Re.flags) (r : Re.regex) (s : string)
  : list (list (nat * string)) :=
  findall_from fl r None s 0.

Definition nonspace : Re.regex := Re.Cls (fun a => negb (Py.isspace a)).  (* \S *)
Definition quote : Re.regex :=
  Re.Cls (fun a => Ascii.eqb a "'" || Ascii.eqb a dquote).
Definition not_quote : Re.regex :=
  Re.Cls (fun a => negb (Ascii.eqb a "'" || Ascii.eqb a dquote)).
Definition quoted : Re.regex :=
  Re.cat [quote; Re.Group 1 (Re.Plus true nonspace); quote].
Definition quoted2 : Re.regex :=
  Re.cat [quote; Re.Group 2 (Re.Plus true nonspace); quote].
(** [\w+(?:\.\w+)*] *)
Definition dotted : Re.regex :=
  Re.Seq (Re.Plus true Re.word)
         (Re.Star true (Re.Seq (Re.Chr ".") (Re.Plus true Re.word))).
Definition words : Re.regex := Re.Plus true Re.word.

(** [TEST_PATTERNS] (lines 93-99), used with [re.search]. *)
Definition TEST_PATTERNS : list Re.regex :=
  let any := Re.Star true Re.Dot in
  let web := any_of ["js"; "ts"; "jsx"; "tsx"] in
  let src := any_of ["js"; "ts"; "jsx"; "tsx"; "py"; "java"] in
  [ Re.cat [Re.Lit "test_"; any; Re.Lit ".py"; Re.Eol];
    Re.cat [any; Re.Lit "_test.py"; Re.Eol];
    Re.cat [any; Re.Lit ".spec."; Re.Group 1 web; Re.Eol];
    Re.cat [any; Re.Lit ".test."; Re.Group 1 web; Re.Eol];
    Re.cat [Re.Lit "__tests__/"; any; Re.Chr "."; Re.Group 1 src; Re.Eol];
    Re.cat [Re.Lit "tests/"; any; Re.Chr "."; Re.Group 1 src; Re.Eol];
    Re.cat [any; Re.Lit "_spec."; Re.Group 1 (any_of ["rb"; "js"; "ts"]); Re.Eol];
    Re.cat [any; Re.Lit "_tests."; Re.Group 1 (any_of ["php"; "rb"]); Re.Eol];
    Re.cat [Re.Lit "test.js"; Re.Eol];
    Re.cat [Re.Lit "test.ts"; Re.Eol];
    Re.cat [any; Re.Lit ".test.py"; Re.Eol];
    Re.cat [any; Re.Lit ".spec.py"; Re.Eol] ].

(** [any(re.search(p, file_path) for p in TEST_PATTERNS)] *)
Definition is_test_path (path : string) : bool :=
  existsb (fun p => match Re.re_search Re.no_flags p path with
                    | Some _ => true
                    | None => false
                    end) TEST_PATTERNS.

(** [IMPORT_PATTERNS] (lines 420-472): per language, each pattern with the
    number of its groups and its import kind. *)
Definition IMPORT_PATTERNS : list (string * list (Re.regex * nat * string)) :=
  let js1 := (Re.cat [Re.Bol; Re.Lit "import"; ws1; Re.Star false Re.Dot; ws1;
                      Re.Lit "from"; ws1; quoted], 1%nat, "import") in
  let js2 := (Re.cat [Re.Bol; Re.Lit "import"; ws1; quoted], 1%nat, "import") in
  let js4 := (Re.cat [Re.Bol; Re.Lit "require("; quoted], 1%nat, "require") in
  let js5 := (Re.cat [Re.Bol; Re.Lit "import"; ws1; Re.Chr "{";
                      Re.Star true (Re.none_of "}"); Re.Chr "}"; ws1;
                      Re.Lit "from"; ws1; quoted], 1%nat, "import") in
  let imp := (Re.cat [Re.Bol; Re.Lit "import"; ws1;
                      Re.Group 1 (Re.Plus true nonspace)], 1%nat, "import") in
  [ ("python",
     [ (Re.cat [Re.Bol; Re.Lit "import"; ws1; Re.Group 1 dotted], 1%nat, "import");
       (Re.cat [Re.Bol; Re.Lit "from"; ws1; Re.Group 1 dotted; ws1;
                Re.Lit "import"], 1%nat, "from");
       (Re.cat [Re.Bol; Re.Lit "import"; ws1; Re.Group 1 words; ws1;
                Re.Lit "as"; ws1; Re.Group 2 words], 2%nat, "import");
       (Re.cat [Re.Bol; Re.Lit "from"; ws1; Re.Group 1 dotted; ws1;
                Re.Lit "import"; ws1; Re.Star true Re.Dot; ws1; Re.Lit "as"; ws1;
                Re.Group 2 words], 2%nat, "from") ]);
    ("javascript",
     [ js1; js2;
       (Re.cat [Re.Bol; Re.Lit "const"; ws1; Re.Group 1 words; ws0; Re.Chr "=";
                ws0; Re.Lit "require("; quoted2], 2%nat, "require");
       js4; js5 ]);
    ("typescript", [ js1; js2; js4; js5 ]);
    ("ruby",
     [ (Re.cat [Re.Bol; ws0;
                Re.Group 1 (Re.Alt (Re.Lit "require") (Re.Lit "require_relative"));
                ws1; quoted2], 2%nat, "require");
       (Re.cat [Re.Bol; ws0; Re.Lit "include"; ws1; Re.Group 1 words],
        1%nat, "include");
       (Re.cat [Re.Bol; ws0; Re.Lit "extend"; ws1; Re.Group 1 words],
        1%nat, "extend") ]);
    ("php",
     [ (Re.cat [Re.Bol; ws0; Re.Lit "require"; Re.Opt (Re.Lit "_once"); ws0;
                quoted], 1%nat, "require");
       (Re.cat [Re.Bol; ws0; Re.Lit "include"; Re.Opt (Re.Lit "_once"); ws0;
                quoted], 1%nat, "include");
       (Re.cat [Re.Bol; Re.Lit "use"; ws1; Re.Group 1 (Re.Plus true nonspace);
                Re.Opt (Re.cat [ws1; Re.Lit "as"; ws1;
                                Re.Group 2 (Re.Plus true nonspace)]);
                Re.Chr ";"], 2%nat, "use") ]);
    ("csharp",
     [ (Re.cat [Re.Bol; Re.Lit "using"; ws1; Re.Group 1 (Re.Plus true nonspace);
                Re.Chr ";"], 1%nat, "using");
       (Re.cat [Re.Bol; Re.Lit "using"; ws1; Re.Plus true nonspace; ws0;
                Re.Chr "="; ws0; Re.Lit "require("; quoted], 1%nat, "using") ]);
    ("java",
     [ (Re.cat [Re.Bol; Re.Lit "import"; ws1; Re.Group 1 (Re.Plus true nonspace);
                Re.Chr ";"], 1%nat, "import");
       (Re.cat [Re.Bol; Re.Lit "import"; ws1; Re.Lit "static"; ws1;
                Re.Group 1 (Re.Plus true nonspace); Re.Chr ";"], 1%nat, "import") ]);
    ("go",
     [ (Re.cat [Re.Bol; ws0; Re.Lit "import"; ws0;
                Re.Opt (Re.Seq (Re.Chr "(") ws0);
                quote; Re.Group 1 (Re.Plus true not_quote); quote],
        1%nat, "import");
       (Re.cat [Re.Bol; ws0; Re.Lit "import"; ws1; Re.Chr dquote;
                Re.Group 1 (Re.Plus true (Re.none_of dquote)); Re.Chr dquote],
        1%nat, "import") ]);
    ("rust",
     [ (Re.cat [Re.Bol; Re.Lit "use"; ws1; Re.Group 1 (Re.Plus true nonspace);
                Re.Opt (Re.cat [ws1; Re.Lit "as"; ws1; Re.Plus true nonspace]);
                Re.Chr ";"], 1%nat, "use");
       (Re.cat [Re.Bol; Re.Lit "extern"; ws1; Re.Lit "crate"; ws1;
                Re.Group 1 (Re.Plus true nonspace)], 1%nat, "extern") ]);
    ("kotlin", [ imp ]);
    ("scala", [ imp ]) ].

Record ImportInfo : Type := mkImportInfo {
  imp_module : string;
  imp_alias : option string;
  imp_line_number : nat;
  imp_type : string;
  imp_is_test : bool
}.

(** Lines 486-505 for one line of the file: every match of every
    pattern, in the order of the patterns.  With two groups a match is a
    tuple, module first and alias second; a group that took no part is the
    empty string. *)
Definition imports_of_line (path : string)
    (patterns : list (Re.regex * nat * string)) (i : nat) (line : string)
  : list ImportInfo :=
  flat_map
    (fun entry =>
       let '(pattern, groups, import_type) := entry in
       map (fun m =>
              mkImportInfo (group_text 1 m)
                (if (2 <=? groups)%nat then Some (group_text 2 m) else None)
                i import_type (is_test_path path))
           (findall Re.no_flags pattern line))
    patterns.

(** The loop of line 481, [todo] being what is left of [lines] and [i] the
    number of its first line. *)
Fixpoint imports_from (path : string) (patterns : list (Re.regex * nat * string))
    (i : nat) (todo : list string) : list ImportInfo :=
  match todo with
  | [] => []
  | line :: more =>
      let stripped := Py.strip line in
      (if negb (Py.truthy stripped) || Py.startswith stripped "#" ||
          Py.startswith stripped "//"
       then []
       else imports_of_line path patterns i line) ++
      imports_from path patterns (S i) more
  end.

Definition extract_imports (path : string) (lines : list string)
    (lang : string) : list ImportInfo :=
  imports_from path (get_default IMPORT_PATTERNS lang []) 1 lines.

Record Node : Type := mkNode {
  node_id : string;
  node_label : string;
  node_language : string;
  node_import_count : Z
}.

Record Edge : Type := mkEdge {
  edge_from : string;
  edge_to : string;
  edge_type : string
}.

Record Graph : Type := mkGraph {
  nodes : list Node;
  edges : list Edge;
  external_modules : list string
}.

(** [file_path.split('/')[-1]] *)
Definition basename (path : string) : string :=
  List.last (Py.split path "/") EmptyString.

(** The inner loop of lines 533-539. *)
Definition add_imports (path : string) (imports : list ImportInfo)
    (state : list Edge * list (string * bool)) : list Edge * list (string * bool) :=
  fold_left
    (fun st imp =>
       (fst st ++ [mkEdge path (imp_module imp) (imp_type imp)],
        dict_set (snd st) (imp_module imp) true))
    imports state.

Definition build_dependency_graph
    (files : list (string * list string * string)) : Graph :=
  let '(nodes, (edges, modules)) :=
    fold_left
      (fun st file =>
         let '(path, lines, lang) := file in
         let imports := extract_imports path lines lang in
         (fst st ++ [mkNode path (basename path) lang
                       (Z.of_nat (List.length imports))],
          add_imports path imports (snd st)))
      files ([], ([], [])) in
  mkGraph nodes edges (dict_keys modules).

(** A line [extract_imports] passes over: blank, or a [#] or [//]
    comment. *)
Definition skipped_line (line : string) : bool :=
  negb (Py.truthy (Py.strip line)) || Py.startswith (Py.strip line) "#" ||
  Py.startswith (Py.strip line) "//".

(** The edges one file contributes, and the node it becomes. *)
Definition edges_of (file : string * list string * string) : list Edge :=
  let '(path, lines, lang) := file in
  map (fun imp => mkEdge path (imp_module imp) (imp_type imp))
      (extract_imports path lines lang).

Definition node_of (file : string * list string * string) : Node :=
  let '(path, lines, lang) := file in
  mkNode path (basename path) lang
    (Z.of_nat (List.length (extract_imports path lines lang))).

(** What is known of an import found at line [i]. *)
Definition import_facts (path : string)
    (patterns : list (Re.regex * nat * string)) (lines : list string)
    (imp : ImportInfo) : Prop :=
  imp_is_test imp = is_test_path path /\
  (exists pattern groups,
     In (pattern, groups, imp_type imp) patterns /\
     (imp_alias imp = None <-> (groups < 2)%nat)) /\
  exists line,
    nth_error lines (imp_line_number imp - 1) = Some line /\
    skipped_line line = false.

(** [modules[k] = True] for each name of a list, in turn. *)
Definition set_all (modules : list (string * bool)) (names : list string)
  : list (string * bool) :=
  fold_left (fun m k => dict_set m k true) names modules.

Definition path_of (file : string * list string * string) : string :=
  fst (fst file).

(** * Properties *)

(** ** Tech-debt scorer *)

Lemma Qgtb_pos (x : Q) : Qgtb x 0 = true -> (0 < x)%Q.
Proof.
  unfold Qgtb. intros H. apply Qnot_le_lt. intros Hle.
  apply Qle_bool_iff in Hle. rewrite Hle in H. discriminate.
Qed.

Lemma Qgtb_nonpos (x : Q) : Qgtb x 0 = false -> (x <= 0)%Q.
Proof.
  unfold Qgtb. intros H. apply Qle_bool_iff.
  destruct (Qle_bool x 0); [reflexivity | discriminate].
Qed.

Lemma truediv_ok (a b : Q) : ~ (b == 0)%Q -> truediv a b = Ok (a / b)%Q.
Proof.
  intros Hb. unfold truediv. destruct (Qeq_bool b 0) eqn:E; [|reflexivity].
  apply Qeq_bool_iff in E. contradiction.
Qed.

Lemma share_ok (n total : Z) :
  (0 < total)%Z -> share n total = Ok (inject_Z n / inject_Z total * 100)%Q.
Proof.
  intros Ht. unfold share. apply Z.ltb_lt in Ht. rewrite Ht.
  rewrite truediv_ok; [reflexivity|].
  apply Z.ltb_lt in Ht. unfold Qeq, inject_Z. simpl. lia.
Qed.

Lemma share_value_nonneg (n total : Z) :
  (0 <= n)%Z -> (0 < total)%Z -> (0 <= inject_Z n / inject_Z total * 100)%Q.
Proof.
  intros Hn Ht. apply Qmult_le_0_compat; [|discriminate].
  apply Qle_shift_div_l.
  - unfold Qlt, inject_Z. simpl. lia.
  - unfold Qle, inject_Z. simpl. lia.
Qed.

Lemma share_value_pos (n total : Z) :
  (0 < n)%Z -> (0 < total)%Z -> (0 < inject_Z n / inject_Z total * 100)%Q.
Proof.
  intros Hn Ht. apply Qmult_lt_0_compat; [|reflexivity].
  apply Qlt_shift_div_l.
  - unfold Qlt, inject_Z. simpl. lia.
  - unfold Qlt, inject_Z. simpl. lia.
Qed.

Lemma share_value_zero (total : Z) :
  (inject_Z 0 / inject_Z total * 100 == 0)%Q.
Proof. unfold Qdiv. rewrite Qmult_0_l, Qmult_0_l. reflexivity. Qed.

(** The ratio of two shares of the same total is the ratio of the counts. *)
Lemma share_ratio (f d total : Z) :
  (0 < d)%Z -> (0 < total)%Z ->
  (inject_Z f / inject_Z total * 100 / (inject_Z d / inject_Z total * 100) ==
   inject_Z f / inject_Z d)%Q.
Proof.
  intros Hd Ht.
  assert (Hd' : ~ (inject_Z d == 0)%Q) by (unfold Qeq, inject_Z; simpl; lia).
  assert (Ht' : ~ (inject_Z total == 0)%Q) by (unfold Qeq, inject_Z; simpl; lia).
  field. split; assumption.
Qed.

Section TechDebtFacts.

Variable datetime : Type.
Implicit Types (commits : list (CommitInfo datetime)).

Lemma count_in_nonneg cats commits : (0 <= count_in datetime cats commits)%Z.
Proof. unfold count_in. lia. Qed.

Lemma count_in_zero cats commits :
  (forall c, In c commits -> str_in (category c) cats = false) ->
  count_in datetime cats commits = 0%Z.
Proof.
  intros H. unfold count_in.
  induction commits as [|c cs IH]; [reflexivity|].
  simpl. rewrite (H c (or_introl eq_refl)).
  apply IH. intros c' Hc'. apply H. right. exact Hc'.
Qed.

Lemma count_in_pos cats commits :
  (exists c, In c commits /\ str_in (category c) cats = true) ->
  (0 < count_in datetime cats commits)%Z.
Proof.
  intros [c [Hin Hc]]. unfold count_in.
  induction commits as [|c' cs IH]; [contradiction|].
  simpl. destruct Hin as [->|Hin].
  - rewrite Hc. simpl. lia.
  - specialize (IH Hin). destruct (str_in (category c') cats); simpl; lia.
Qed.

Lemma total_pos commits : commits <> [] -> (0 < Z.of_nat (List.length commits))%Z.
Proof. destruct commits; [congruence | simpl; lia]. Qed.

(** For a non-empty list the scorer returns, with the fields below. *)
Lemma calculate_metrics_nonempty commits code_metrics :
  commits <> [] ->
  let total := Z.of_nat (List.length commits) in
  let pct := fun cats =>
    (inject_Z (count_in datetime cats commits) / inject_Z total * 100)%Q in
  exists health,
    calculate_metrics datetime commits code_metrics =
      Ok (mkTechDebtMetrics total
            (count_in datetime DEBT_CATEGORIES commits)
            (count_in datetime FEATURE_CATEGORIES commits)
            (count_in datetime MAINTENANCE_CATEGORIES commits)
            (pct DEBT_CATEGORIES) (pct FEATURE_CATEGORIES)
            (pct MAINTENANCE_CATEGORIES) health
            (Qmax 0 (100 - (if dict_truthy code_metrics
                            then metrics_get code_metrics "complexity" 0
                            else 0)))
            (if dict_truthy code_metrics
             then metrics_get code_metrics "maintainability_index" 75
             else 75)) /\
    ((0 < pct DEBT_CATEGORIES)%Q ->
       health = Qmin 100 (pct FEATURE_CATEGORIES / pct DEBT_CATEGORIES * 50 + 50)) /\
    ((pct DEBT_CATEGORIES <= 0)%Q -> health = 100%Q).
Proof.
  intros Hne total pct.
  pose proof (total_pos commits Hne) as Htot. fold total in Htot.
  unfold calculate_metrics. fold total.
  replace (total =? 0)%Z with false by (symmetry; apply Z.eqb_neq; lia).
  rewrite !share_ok by exact Htot. cbn [bind].
  fold (pct DEBT_CATEGORIES) (pct FEATURE_CATEGORIES) (pct MAINTENANCE_CATEGORIES).
  destruct (Qgtb (pct DEBT_CATEGORIES) 0) eqn:E.
  - apply Qgtb_pos in E.
    rewrite truediv_ok.
    + cbn [bind]. eexists. split; [reflexivity|]. split; [reflexivity|].
      intros Hle. exfalso. apply (Qlt_irrefl 0).
      apply Qlt_le_trans with (pct DEBT_CATEGORIES); assumption.
    + intros Hz. rewrite Hz in E. apply (Qlt_irrefl 0 E).
  - apply Qgtb_nonpos in E. cbn [bind].
    eexists. split; [reflexivity|]. split; [|reflexivity].
    intros Hlt. exfalso. apply (Qlt_irrefl 0).
    apply Qlt_le_trans with (pct DEBT_CATEGORIES); assumption.
Qed.

End TechDebtFacts.

(** C6: for the empty commit list the scorer returns, without raising, a
    [TechDebtMetrics] whose ten fields (the four counts, the three
    percentages, health score, complexity score and maintainability index)
    are all 0, whatever code metrics are passed. *)
Theorem calculate_metrics_empty :
  forall (datetime : Type) (code_metrics : option (list (string * Q))),
  exists m,
    calculate_metrics datetime [] code_metrics = Ok m /\
    total_commits m = 0%Z /\ debt_commits m = 0%Z /\
    feature_commits m = 0%Z /\ maintenance_commits m = 0%Z /\
    debt_percentage m = 0%Q /\ feature_percentage m = 0%Q /\
    maintenance_percentage m = 0%Q /\ health_score m = 0%Q /\
    complexity_score m = 0%Q /\ maintainability_index m = 0%Q.
Proof.
  intros datetime code_metrics.
  exists (mkTechDebtMetrics 0 0 0 0 0 0 0 0 0 0).
  repeat split.
Qed.

(** C4, as stated, fails: one commit and no complexity metrics give a
    complexity score of 100, not 0. *)
Lemma complexity_score_without_metrics :
  exists m,
    calculate_metrics string [commit_of "features"] None = Ok m /\
    (complexity_score m == 100)%Q /\ ~ (complexity_score m == 0)%Q.
Proof.
  eexists. split; [reflexivity|]. split.
  - vm_compute. reflexivity.
  - vm_compute. discriminate.
Qed.

(** C4, amended: for every non-empty commit list the complexity score is
    [max(0, 100 - c)], where [c] is the [complexity] entry of the metrics
    supplied (0 when they have no such entry), and it is 100 when no
    metrics, or an empty dict, are supplied. *)
Theorem complexity_score_amended :
  forall (datetime : Type) (commits : list (CommitInfo datetime))
         (code_metrics : option (list (string * Q))),
    commits <> [] ->
    exists m,
      calculate_metrics datetime commits code_metrics = Ok m /\
      (dict_truthy code_metrics = true ->
         complexity_score m = Qmax 0 (100 - metrics_get code_metrics "complexity" 0)) /\
      (dict_truthy code_metrics = false -> (complexity_score m == 100)%Q).
Proof.
  intros datetime commits code_metrics Hne.
  destruct (calculate_metrics_nonempty datetime commits code_metrics Hne)
    as [health [Hrun _]].
  eexists. split; [exact Hrun|]. cbn [complexity_score].
  split; intros Ht; rewrite Ht; [reflexivity|].
  vm_compute. reflexivity.
Qed.

Lemma complexity_score_amended_witness :
  [commit_of "chore"] <> [] /\
  exists m,
    calculate_metrics string [commit_of "chore"] (Some [("complexity", 30%Q)]) = Ok m /\
    (dict_truthy (Some [("complexity", 30%Q)]) = true ->
       complexity_score m =
       Qmax 0 (100 - metrics_get (Some [("complexity", 30%Q)]) "complexity" 0)) /\
    (dict_truthy (Some [("complexity", 30%Q)]) = false -> (complexity_score m == 100)%Q).
Proof.
  split; [discriminate|].
  apply (complexity_score_amended string [commit_of "chore"]
           (Some [("complexity", 30%Q)])).
  discriminate.
Defined.

(** C10: for every non-empty commit list the scorer returns; the debt and
    feature percentages of the result are the shares of the commits whose
    category is in the debt and in the feature list; the health score is
    between 50 and 100: exactly 100 when no commit's category is in the
    debt list, and [min(100, (feature_percentage / debt_percentage) * 50
    + 50)] otherwise, which is [min(100, features / debt * 50 + 50)] in
    the two counts; so a score below 50 never comes from a non-empty
    list. *)
Theorem health_score_range :
  forall (datetime : Type) (commits : list (CommitInfo datetime))
         (code_metrics : option (list (string * Q))),
    commits <> [] ->
    let n := fun cats =>
      Z.of_nat (List.length
                  (filter (fun c => str_in (category c) cats) commits)) in
    let total := Z.of_nat (List.length commits) in
    exists m,
      calculate_metrics datetime commits code_metrics = Ok m /\
      debt_percentage m =
        (inject_Z (n DEBT_CATEGORIES) / inject_Z total * 100)%Q /\
      feature_percentage m =
        (inject_Z (n FEATURE_CATEGORIES) / inject_Z total * 100)%Q /\
      (50 <= health_score m)%Q /\ (health_score m <= 100)%Q /\
      ((forall c, In c commits -> str_in (category c) DEBT_CATEGORIES = false) ->
         health_score m = 100%Q) /\
      ((exists c, In c commits /\ str_in (category c) DEBT_CATEGORIES = true) ->
         health_score m =
           Qmin 100 (feature_percentage m / debt_percentage m * 50 + 50) /\
         (health_score m ==
            Qmin 100 (inject_Z (n FEATURE_CATEGORIES) /
                      inject_Z (n DEBT_CATEGORIES) * 50 + 50))%Q) /\
      ~ (health_score m < 50)%Q.
Proof.
  intros datetime commits code_metrics Hne n total.
  pose proof (total_pos datetime commits Hne) as Htot.
  destruct (calculate_metrics_nonempty datetime commits code_metrics Hne)
    as [health [Hrun [Hdebt Hclean]]].
  cbv zeta in Hrun, Hdebt, Hclean.
  eexists. split; [exact Hrun|].
  cbn [health_score feature_percentage debt_percentage].
  change (count_in datetime DEBT_CATEGORIES commits) with (n DEBT_CATEGORIES) in *.
  change (count_in datetime FEATURE_CATEGORIES commits)
    with (n FEATURE_CATEGORIES) in *.
  fold total in Htot, Hdebt, Hclean |- *.
  set (d := n DEBT_CATEGORIES) in *.
  set (f := n FEATURE_CATEGORIES) in *.
  assert (Hd0 : (0 <= d)%Z) by (unfold d, n; lia).
  assert (Hf0 : (0 <= f)%Z) by (unfold f, n; lia).
  split; [reflexivity|]. split; [reflexivity|].
  assert (Hcases : (d = 0%Z /\ health = 100%Q) \/
                   ((0 < d)%Z /\
                    health = Qmin 100 (inject_Z f / inject_Z total * 100 /
                                       (inject_Z d / inject_Z total * 100) * 50 + 50))).
  { destruct (Z.eq_dec d 0%Z) as [Hz|Hnz].
    - left. split; [exact Hz|]. apply Hclean. rewrite Hz.
      rewrite share_value_zero. apply Qle_refl.
    - right. assert (Hpos : (0 < d)%Z) by lia. split; [exact Hpos|].
      apply Hdebt. apply share_value_pos; assumption. }
  assert (Hlow : (50 <= health)%Q /\ (health <= 100)%Q).
  { destruct Hcases as [[_ ->]|[Hpos ->]].
    - split; discriminate.
    - split; [|apply Q.le_min_l].
      apply Q.min_glb; [discriminate|].
      rewrite <- (Qplus_0_l 50) at 1. apply Qplus_le_l.
      apply Qmult_le_0_compat; [|discriminate].
      apply Qle_shift_div_l.
      + apply share_value_pos; assumption.
      + rewrite Qmult_0_l. apply share_value_nonneg; assumption. }
  destruct Hlow as [Hlo Hhi].
  split; [exact Hlo|]. split; [exact Hhi|]. split; [|split].
  - intros Hnone. destruct Hcases as [[_ H]|[Hpos _]]; [exact H|].
    exfalso. unfold d, n in Hpos.
    pose proof (count_in_zero datetime _ _ Hnone) as Hz.
    unfold count_in in Hz. lia.
  - intros Hsome. destruct Hcases as [[Hz _]|[Hpos H]].
    + exfalso. pose proof (count_in_pos datetime _ _ Hsome) as Hp.
      unfold count_in in Hp. unfold d, n in Hz. lia.
    + split; [exact H|]. rewrite H.
      apply Q.min_compat; [reflexivity|].
      apply Qplus_comp; [|reflexivity].
      apply Qmult_comp; [|reflexivity].
      apply share_ratio; assumption.
  - intros Hlt. apply (Qlt_irrefl 50).
    apply Qle_lt_trans with health; assumption.
Qed.

Lemma health_score_range_witness :
  two_chores_one_feature <> [] /\
  (exists m,
     calculate_metrics string two_chores_one_feature None = Ok m /\
     (debt_percentage m == 200 # 3)%Q /\ (feature_percentage m == 100 # 3)%Q /\
     (health_score m == 75)%Q) /\
  exists m,
    calculate_metrics string two_chores_one_feature None = Ok m /\
    debt_percentage m = (inject_Z 2 / inject_Z 3 * 100)%Q /\
    feature_percentage m = (inject_Z 1 / inject_Z 3 * 100)%Q /\
    (50 <= health_score m)%Q /\ (health_score m <= 100)%Q /\
    ((forall c, In c two_chores_one_feature ->
        str_in (category c) DEBT_CATEGORIES = false) ->
       health_score m = 100%Q) /\
    ((exists c, In c two_chores_one_feature /\
                str_in (category c) DEBT_CATEGORIES = true) ->
       health_score m =
         Qmin 100 (feature_percentage m / debt_percentage m * 50 + 50) /\
       (health_score m == Qmin 100 (inject_Z 1 / inject_Z 2 * 50 + 50))%Q) /\
    ~ (health_score m < 50)%Q.
Proof.
  split; [discriminate|]. split.
  - eexists. split; [reflexivity|]. repeat split; vm_compute; reflexivity.
  - apply (health_score_range string two_chores_one_feature None).
    discriminate.
Defined.

(** ** Python string primitives: basic facts *)

Lemma getitem_nth {A : Type} (l : list A) (n : nat) (x : A) :
  nth_error l n = Some x -> getitem l n = Ok x.
Proof. unfold getitem. intros ->. reflexivity. Qed.

Lemma getitem_lt {A : Type} (l : list A) (n : nat) :
  (n < List.length l)%nat -> exists x, getitem l n = Ok x /\ nth_error l n = Some x.
Proof.
  intros H. unfold getitem.
  destruct (nth_error l n) as [x|] eqn:E.
  - exists x. split; reflexivity.
  - apply nth_error_None in E. lia.
Qed.

Lemma split_go_cons (sep s : string) (skip : nat) (cur : string) :
  exists x l, Py.split_go sep s skip cur = x :: l.
Proof.
  revert skip cur. induction s as [|c s IH]; intros skip cur; cbn [Py.split_go].
  - eauto.
  - destruct skip as [|n]; [|apply IH].
    destruct (String.prefix sep (String c s)); [eauto | apply IH].
Qed.

Lemma split_cons (s sep : string) : exists x l, Py.split s sep = x :: l.
Proof. apply split_go_cons. Qed.

Lemma rstrip_keeps_nonspace (c : ascii) (t : string) :
  Py.isspace c = false -> Py.rstrip (String c t) <> EmptyString.
Proof.
  intros Hc. simpl. destruct (Py.rstrip t); [rewrite Hc|]; discriminate.
Qed.

Lemma lstrip_head (s : string) :
  Py.lstrip s = EmptyString \/
  exists c t, Py.lstrip s = String c t /\ Py.isspace c = false.
Proof.
  induction s as [|c s IH]; simpl; [left; reflexivity|].
  destruct (Py.isspace c) eqn:E; [exact IH|].
  right. exists c, s. split; [reflexivity | exact E].
Qed.

Lemma lstrip_empty_all_space (s : string) :
  Py.lstrip s = EmptyString -> all_space s = true.
Proof.
  induction s as [|c s IH]; simpl; [reflexivity|].
  destruct (Py.isspace c); [exact IH | discriminate].
Qed.

Lemma strip_blank_all_space (s : string) :
  Py.truthy (Py.strip s) = false -> all_space s = true.
Proof.
  unfold Py.strip. intros H.
  destruct (lstrip_head s) as [E|[c [t [E Hc]]]].
  - apply lstrip_empty_all_space. exact E.
  - rewrite E in H. pose proof (rstrip_keeps_nonspace c t Hc) as Hne.
    destruct (Py.rstrip (String c t)); [congruence | discriminate].
Qed.

Lemma append_empty_r (s : string) : (s ++ EmptyString)%string = s.
Proof. induction s as [|a s IH]; simpl; congruence. Qed.

Lemma append_snoc (cur s : string) (c : ascii) :
  ((cur ++ String c EmptyString) ++ s)%string = (cur ++ String c s)%string.
Proof. induction cur as [|a cur IH]; simpl; congruence. Qed.

(** A blank line holds no field delimiter. *)
Lemma split_go_all_space (s cur : string) :
  all_space s = true ->
  Py.split_go FIELD_DELIMITER s 0 cur = [(cur ++ s)%string].
Proof.
  revert cur. induction s as [|c s IH]; intros cur H.
  - simpl. rewrite append_empty_r. reflexivity.
  - simpl in H. apply andb_prop in H. destruct H as [Hc Hs].
    cbn [Py.split_go]. unfold FIELD_DELIMITER at 1. cbn [String.prefix].
    destruct (ascii_dec "=" c) as [<-|_]; [discriminate Hc|].
    fold FIELD_DELIMITER. rewrite (IH _ Hs). rewrite append_snoc. reflexivity.
Qed.

Lemma blank_single_field (s : string) :
  Py.truthy (Py.strip s) = false -> Py.split s FIELD_DELIMITER = [s].
Proof.
  intros H. unfold Py.split.
  rewrite split_go_all_space by (apply strip_blank_all_space; exact H).
  reflexivity.
Qed.

(** ** Commit-history miner *)

Lemma numstat_step_total (acc : Z * Z * Z) (stat_line : string) :
  exists acc', numstat_step acc stat_line = Ok acc'.
Proof.
  destruct acc as [[ins outs] files]. unfold numstat_step.
  destruct (Py.contains tab stat_line); [|eauto].
  destruct (Py.split stat_line tab) as [|p0 [|p1 [|p2 parts]]]; simpl; eauto.
  destruct (stat_field p0); [|eauto].
  destruct (stat_field p1); eauto.
Qed.

Lemma numstat_loop_total (stat_lines : list string) (acc : Z * Z * Z) :
  exists acc', numstat_loop stat_lines acc = Ok acc'.
Proof.
  revert acc. induction stat_lines as [|l ls IH]; intros acc; simpl; [eauto|].
  destruct (numstat_step_total acc l) as [acc' ->]. simpl. apply IH.
Qed.

Section HistoryFacts.

Variable datetime : Type.
Variable fromisoformat : string -> option datetime.

(** No chunk makes the loop body raise. *)
Lemma parse_chunk_total (chunk : string) :
  exists r, parse_chunk datetime fromisoformat chunk = Ok r.
Proof.
  unfold parse_chunk.
  destruct (negb (Py.truthy (Py.strip chunk))); [eauto|].
  destruct (Py.split (Py.strip chunk) nl) as [|line0 rest]; [simpl; eauto|].
  cbn [List.length Nat.ltb Nat.leb getitem nth_error bind skipn].
  destruct (negb (Py.truthy (Py.strip line0))); [eauto|].
  destruct (Py.split line0 FIELD_DELIMITER) as [|m0 [|m1 [|m2 [|m3 more]]]];
    try (simpl; eauto; fail).
  cbn [List.length Nat.ltb Nat.leb].
  destruct (numstat_loop_total rest (0, 0, 0)%Z) as [[[ins outs] files] ->].
  cbn [bind getitem nth_error].
  destruct (classify m3) as [[[cat sc] br] msg].
  destruct (fromisoformat m2); eauto.
Qed.

(** What a chunk with at least four header fields and a date that parses
    turns into. *)
Lemma parse_chunk_fields (chunk line0 m0 m1 m2 m3 : string)
    (rest more : list string) (d : datetime) :
  Py.split (Py.strip chunk) nl = line0 :: rest ->
  Py.split line0 FIELD_DELIMITER = m0 :: m1 :: m2 :: m3 :: more ->
  fromisoformat m2 = Some d ->
  exists ins outs files,
    numstat_loop rest (0, 0, 0)%Z = Ok (ins, outs, files) /\
    parse_chunk datetime fromisoformat chunk =
      Ok (Some (mkCommitInfo datetime m0 m1 EmptyString d
                  (snd (classify m3)) m3
                  (fst (fst (fst (classify m3))))
                  (snd (fst (fst (classify m3))))
                  (snd (fst (classify m3)))
                  None ins outs files)).
Proof.
  intros Hlines Hmeta Hdate.
  destruct (numstat_loop_total rest (0, 0, 0)%Z) as [[[ins outs] files] Hstat].
  exists ins, outs, files. split; [exact Hstat|].
  unfold parse_chunk.
  destruct (Py.truthy (Py.strip chunk)) eqn:Echunk.
  - cbn [negb]. rewrite Hlines.
    cbn [List.length Nat.ltb Nat.leb getitem nth_error bind skipn].
    destruct (Py.truthy (Py.strip line0)) eqn:Eline.
    + cbn [negb]. rewrite Hmeta. cbn [List.length Nat.ltb Nat.leb].
      rewrite Hstat. cbn [bind getitem nth_error].
      destruct (classify m3) as [[[cat sc] br] msg].
      rewrite Hdate. reflexivity.
    + rewrite (blank_single_field line0 Eline) in Hmeta. discriminate.
  - destruct (Py.strip chunk); [|discriminate].
    vm_compute in Hlines. injection Hlines as <- <-.
    vm_compute in Hmeta. discriminate.
Qed.

(** What is known of a record the loop body produced. *)
Lemma parse_chunk_record (chunk : string) (r : CommitInfo datetime) :
  parse_chunk datetime fromisoformat chunk = Ok (Some r) ->
  numstat_loop (skipn 1 (Py.split (Py.strip chunk) nl)) (0, 0, 0)%Z =
    Ok (insertions r, deletions r, files_changed r) /\
  classify (full_message r) = (category r, scope r, is_breaking r, message r) /\
  nth_error (header_fields chunk) 3 = Some (full_message r).
Proof.
  unfold parse_chunk, header_fields.
  destruct (negb (Py.truthy (Py.strip chunk))); [discriminate|].
  destruct (Py.split (Py.strip chunk) nl) as [|line0 rest]; [discriminate|].
  cbn [List.length Nat.ltb Nat.leb getitem nth_error bind skipn].
  destruct (negb (Py.truthy (Py.strip line0))); [discriminate|].
  destruct (Py.split line0 FIELD_DELIMITER) as [|m0 [|m1 [|m2 [|m3 more]]]];
    try discriminate.
  cbn [List.length Nat.ltb Nat.leb].
  destruct (numstat_loop rest (0, 0, 0)%Z) as [[[ins outs] files]|e];
    [|discriminate].
  cbn [bind getitem nth_error].
  destruct (classify m3) as [[[cat sc] br] msg] eqn:Ecl.
  destruct (fromisoformat m2); [|discriminate].
  intros H. injection H as <-. cbn. rewrite Ecl. repeat split.
Qed.

Lemma malformed_skipped (chunk : string) :
  malformed chunk -> parse_chunk datetime fromisoformat chunk = Ok None.
Proof.
  unfold malformed, header_fields, parse_chunk. intros H.
  destruct (negb (Py.truthy (Py.strip chunk))); [reflexivity|].
  destruct (Py.split (Py.strip chunk) nl) as [|line0 rest]; [reflexivity|].
  cbn [List.length Nat.ltb Nat.leb getitem nth_error bind].
  destruct (negb (Py.truthy (Py.strip line0))); [reflexivity|].
  assert (E : (List.length (Py.split line0 FIELD_DELIMITER) <=? 3)%nat = true)
    by (apply Nat.leb_le; lia).
  rewrite E. reflexivity.
Qed.

Lemma parse_chunks_records (chunks : list string) (acc : list (CommitInfo datetime)) :
  parse_chunks datetime fromisoformat chunks acc =
  Ok (acc ++ records datetime fromisoformat chunks).
Proof.
  revert acc. induction chunks as [|c cs IH]; intros acc; simpl.
  - rewrite app_nil_r. reflexivity.
  - unfold record_of. destruct (parse_chunk_total c) as [[r|] ->]; simpl.
    + rewrite IH, <- app_assoc. reflexivity.
    + apply IH.
Qed.

End HistoryFacts.

(** C7: a chunk whose first line splits into fewer than four fields is
    skipped by the loop body; the run does not raise, its output is the
    records of the chunks before it followed by the records of the chunks
    after it, and every other chunk with a four-field header and a date
    that parses still has its record in the output. *)
Theorem malformed_chunk_dropped :
  forall (datetime : Type) (fromisoformat : string -> option datetime)
         (raw_log : string) (before : list string) (chunk : string)
         (after : list string),
    Py.split raw_log COMMIT_DELIMITER = before ++ chunk :: after ->
    malformed chunk ->
    parse_chunk datetime fromisoformat chunk = Ok None /\
    exists commits_before commits_after,
      parse_chunks datetime fromisoformat before [] = Ok commits_before /\
      parse_chunks datetime fromisoformat after [] = Ok commits_after /\
      get_history datetime fromisoformat raw_log =
        Ok (commits_before ++ commits_after) /\
      forall c d,
        In c (before ++ after) ->
        well_formed datetime fromisoformat c d ->
        exists r,
          parse_chunk datetime fromisoformat c = Ok (Some r) /\
          date datetime r = d /\
          In r (commits_before ++ commits_after).
Proof.
  intros datetime fromisoformat raw_log before chunk after Hsplit Hbad.
  pose proof (malformed_skipped datetime fromisoformat chunk Hbad) as Hskip.
  split; [exact Hskip|].
  exists (records datetime fromisoformat before),
         (records datetime fromisoformat after).
  split; [apply parse_chunks_records|]. split; [apply parse_chunks_records|].
  split.
  - unfold get_history. rewrite Hsplit, parse_chunks_records.
    unfold records. rewrite flat_map_app. simpl.
    unfold record_of at 2. rewrite Hskip. reflexivity.
  - intros c d Hin [m0 [m1 [m2 [m3 [more [Hhead Hdate]]]]]].
    unfold header_fields in Hhead.
    destruct (Py.split (Py.strip c) nl) as [|line0 rest] eqn:Hlines;
      [discriminate|].
    destruct (parse_chunk_fields datetime fromisoformat c line0 m0 m1 m2 m3
                rest more d Hlines Hhead Hdate)
      as [ins [outs [files [_ Hrun]]]].
    eexists. split; [exact Hrun|]. split; [reflexivity|].
    unfold records. rewrite <- flat_map_app. apply in_flat_map.
    exists c. split; [exact Hin|].
    unfold record_of. rewrite Hrun. left. reflexivity.
Qed.

Lemma malformed_chunk_dropped_witness :
  Py.split three_chunk_log COMMIT_DELIMITER =
    [EmptyString; chunk_two_files] ++ chunk_broken :: [chunk_binary] /\
  malformed chunk_broken /\
  parse_chunk string git_iso chunk_broken = Ok None /\
  exists commits_before commits_after,
    parse_chunks string git_iso [EmptyString; chunk_two_files] [] = Ok commits_before /\
    parse_chunks string git_iso [chunk_binary] [] = Ok commits_after /\
    get_history string git_iso three_chunk_log =
      Ok (commits_before ++ commits_after) /\
    forall c d,
      In c ([EmptyString; chunk_two_files] ++ [chunk_binary]) ->
      well_formed string git_iso c d ->
      exists r,
        parse_chunk string git_iso c = Ok (Some r) /\
        date string r = d /\
        In r (commits_before ++ commits_after).
Proof.
  assert (Hsplit : Py.split three_chunk_log COMMIT_DELIMITER =
                   [EmptyString; chunk_two_files] ++ chunk_broken :: [chunk_binary])
    by (vm_compute; reflexivity).
  assert (Hbad : malformed chunk_broken)
    by (unfold malformed; vm_compute; repeat constructor).
  split; [exact Hsplit|]. split; [exact Hbad|].
  exact (malformed_chunk_dropped string git_iso three_chunk_log
           [EmptyString; chunk_two_files] chunk_broken [chunk_binary] Hsplit Hbad).
Defined.

(** *** What [int()] reads *)

Lemma int_examples :
  Py.int "10" = Some 10%Z /\ Py.int " 7 " = Some 7%Z /\
  Py.int "-3" = Some (-3)%Z /\ Py.int "1_0" = Some 10%Z /\
  Py.int (String (ascii_of_nat 28) "7") = None /\
  Py.int "-" = None /\ Py.int "+ 7" = None /\ Py.int "7_" = None /\
  Py.int (String.concat "" (repeat "1" Py.MAX_STR_DIGITS)) <> None /\
  Py.int (String.concat "" (repeat "1" (S Py.MAX_STR_DIGITS))) = None.
Proof.
  repeat split; try (vm_compute; reflexivity).
  vm_compute. discriminate.
Qed.

Lemma digit_facts (c : ascii) :
  Py.isdigit c = true ->
  Py.isspace_c c = false /\ Ascii.eqb c "_" = false /\
  Ascii.eqb c "+" = false /\ Ascii.eqb c "-" = false /\
  c <> ascii_of_nat 9.
Proof.
  destruct c as [[] [] [] [] [] [] [] []]; intros H;
    try discriminate H; repeat split; discriminate.
Qed.

Lemma all_digits_no_space (p : string) :
  all_digits p = true ->
  Py.rskip Py.isspace_c p = p /\ Py.lskip Py.isspace_c p = p /\
  Py.count_digits p = String.length p /\ Py.contains tab p = false.
Proof.
  induction p as [|c p IH]; [intros _; repeat split|].
  cbn [all_digits]. intros H. apply andb_prop in H. destruct H as [Hc Hp].
  destruct (digit_facts c Hc) as [Hsp [_ [_ [_ Htab]]]].
  destruct (IH Hp) as [Hr [_ [Hn Hno]]].
  repeat split.
  - cbn [Py.rskip]. rewrite Hr. destruct p; [rewrite Hsp|]; reflexivity.
  - cbn [Py.lskip]. rewrite Hsp. reflexivity.
  - cbn [Py.count_digits String.length]. rewrite Hc, Hn. reflexivity.
  - cbn [Py.contains]. rewrite Hno. unfold tab. cbn [String.prefix].
    destruct (ascii_dec (ascii_of_nat 9) c) as [E|_]; [|reflexivity].
    exfalso. apply Htab. symmetry. exact E.
Qed.

(** A string of digits reads as the number it denotes, place by place. *)
Lemma digits_val_positional (p : string) :
  all_digits p = true ->
  forall (acc : Z) (after_digit : bool),
    p <> EmptyString \/ after_digit = true ->
    Py.digits_val p acc after_digit =
    Some (acc * 10 ^ Z.of_nat (String.length p) + positional p)%Z.
Proof.
  induction p as [|c p IH]; intros Hall acc after_digit Hne.
  - destruct Hne as [Hne| ->]; [congruence|].
    cbn. f_equal. lia.
  - cbn [all_digits] in Hall. apply andb_prop in Hall.
    destruct Hall as [Hc Hp].
    destruct (digit_facts c Hc) as [_ [Hu _]].
    cbn [Py.digits_val]. rewrite Hu. unfold Py.digit_val. rewrite Hc.
    rewrite (IH Hp) by (right; reflexivity).
    cbn [positional String.length]. rewrite Nat2Z.inj_succ, Z.pow_succ_r by lia.
    f_equal. ring.
Qed.

Lemma int_decimal (p : string) :
  p <> EmptyString -> all_digits p = true ->
  (String.length p <= Py.MAX_STR_DIGITS)%nat ->
  Py.int p = Some (positional p).
Proof.
  intros Hne Hall Hlen.
  destruct (all_digits_no_space p Hall) as [Hr [Hl [Hn _]]].
  unfold Py.int. rewrite Hl, Hr.
  destruct p as [|c p']; [congruence|].
  assert (Hc : Py.isdigit c = true)
    by (cbn [all_digits] in Hall; apply andb_prop in Hall; tauto).
  destruct (digit_facts c Hc) as [_ [_ [Hplus [Hminus _]]]].
  rewrite Hplus, Hminus.
  rewrite (digits_val_positional _ Hall) by (left; discriminate).
  rewrite Hn. apply Nat.leb_le in Hlen. rewrite Hlen.
  reflexivity.
Qed.

(** An entry as git writes it reads as its value, [-] as zero. *)
Lemma stat_field_numeral (p : string) :
  numeral p -> stat_field p = Some (entry_value p).
Proof.
  intros [->|[Hne [Hall Hlen]]]; [reflexivity|].
  unfold stat_field, entry_value.
  destruct p as [|c p']; [congruence|].
  assert (Hc : Py.isdigit c = true)
    by (cbn [all_digits] in Hall; apply andb_prop in Hall; tauto).
  destruct (digit_facts c Hc) as [_ [_ [_ [Hminus _]]]].
  cbn [String.eqb]. rewrite Hminus.
  apply int_decimal; assumption.
Qed.

Lemma numeral_no_tab (p : string) : numeral p -> Py.contains tab p = false.
Proof.
  intros [->|[_ [Hall _]]]; [reflexivity|].
  apply all_digits_no_space. exact Hall.
Qed.

(** *** Splitting a numstat line at its tabs *)

Lemma contains_tab_app (a rest : string) :
  Py.contains tab (a ++ tab ++ rest) = true.
Proof.
  induction a as [|c a IH].
  - unfold tab. cbn [append Py.contains String.prefix].
    destruct (ascii_dec (ascii_of_nat 9) (ascii_of_nat 9)) as [_|E];
      [destruct rest; reflexivity | congruence].
  - cbn [append Py.contains]. fold (append a (tab ++ rest)).
    rewrite IH. apply orb_true_r.
Qed.

Lemma split_go_tab_app (a rest cur : string) :
  Py.contains tab a = false ->
  Py.split_go tab (a ++ tab ++ rest) 0 cur =
  (cur ++ a)%string :: Py.split_go tab rest 0 EmptyString.
Proof.
  revert cur. induction a as [|c a IH]; intros cur Hno.
  - rewrite append_empty_r. destruct rest; reflexivity.
  - cbn [Py.contains] in Hno. apply orb_false_elim in Hno.
    destruct Hno as [Hpre Hno].
    cbn [append]. fold (append a (tab ++ rest)).
    cbn [Py.split_go].
    assert (Hpre' : String.prefix tab (String c (a ++ tab ++ rest)) = false).
    { unfold tab in *. cbn [String.prefix] in *.
      match type of Hpre with
      | context [ascii_dec ?x ?y] => destruct (ascii_dec x y)
      end; [destruct a; discriminate Hpre | reflexivity]. }
    rewrite Hpre', (IH _ Hno), append_snoc. reflexivity.
Qed.

Lemma split_stat_text (i d path : string) :
  Py.contains tab i = false -> Py.contains tab d = false ->
  exists p2 more, Py.split (stat_text i d path) tab = i :: d :: p2 :: more.
Proof.
  intros Hi Hd. unfold Py.split, stat_text.
  rewrite (split_go_tab_app i _ EmptyString Hi).
  rewrite (split_go_tab_app d _ EmptyString Hd).
  destruct (split_cons path tab) as [p2 [more Hp]]. unfold Py.split in Hp.
  rewrite Hp. exists p2, more. reflexivity.
Qed.

(** A line written as git writes it counts for its two numbers. *)
Lemma stat_of_stat_text (i d path : string) :
  numeral i -> numeral d ->
  stat_of (stat_text i d path) = Stat (entry_value i) (entry_value d).
Proof.
  intros Hi Hd. unfold stat_of.
  destruct (split_stat_text i d path (numeral_no_tab i Hi) (numeral_no_tab d Hd))
    as [p2 [more Hparts]].
  rewrite Hparts. unfold stat_text at 1. rewrite contains_tab_app.
  rewrite (stat_field_numeral i Hi), (stat_field_numeral d Hd). reflexivity.
Qed.

(** *** The sums of a chunk *)

Lemma numstat_step_stat_of (stat_line : string) (ins outs files : Z) :
  numstat_step (ins, outs, files) stat_line =
  Ok ((ins + stat_ins (stat_of stat_line))%Z,
      (outs + stat_dels (stat_of stat_line))%Z,
      (files + stat_files (stat_of stat_line))%Z).
Proof.
  unfold numstat_step, stat_of.
  destruct (Py.contains tab stat_line);
    [|cbn [stat_ins stat_dels stat_files]; rewrite !Z.add_0_r; reflexivity].
  destruct (Py.split stat_line tab) as [|p0 [|p1 [|p2 more]]];
    try (cbn [List.length Nat.leb stat_ins stat_dels stat_files];
         rewrite !Z.add_0_r; reflexivity).
  cbn [List.length Nat.leb getitem nth_error bind].
  destruct (stat_field p0) as [i|]; [destruct (stat_field p1) as [d|]|];
    cbn [stat_ins stat_dels stat_files]; rewrite ?Z.add_0_r; reflexivity.
Qed.

Lemma numstat_loop_stat_of (stat_lines : list string) :
  forall ins outs files,
    numstat_loop stat_lines (ins, outs, files) =
    Ok ((ins + total stat_ins (map stat_of stat_lines))%Z,
        (outs + total stat_dels (map stat_of stat_lines))%Z,
        (files + total stat_files (map stat_of stat_lines))%Z).
Proof.
  induction stat_lines as [|l ls IH]; intros ins outs files.
  - cbn. rewrite !Z.add_0_r. reflexivity.
  - cbn [numstat_loop]. rewrite numstat_step_stat_of. cbn [bind].
    rewrite IH. cbn [map total fold_right].
    fold (total stat_ins (map stat_of ls)).
    fold (total stat_dels (map stat_of ls)).
    fold (total stat_files (map stat_of ls)).
    rewrite !Z.add_assoc. reflexivity.
Qed.

(** C8: the insertions, deletions and files_changed of a chunk's record
    are the sums, over the lines after the header, of what each line counts
    for: nothing when it has no tab or fewer than three tab-separated
    parts, and otherwise one file, its first part to the insertions and its
    second to the deletions, a part that does not read as a number ending
    the line's contribution there.  A line written as git writes it, two
    entries that are [-] or a plain decimal number and then the path,
    counts for the two numbers the entries denote, [-] for zero. *)
Theorem numstat_totals :
  forall (datetime : Type) (fromisoformat : string -> option datetime)
         (chunk : string) (r : CommitInfo datetime),
    parse_chunk datetime fromisoformat chunk = Ok (Some r) ->
    let stat_lines := skipn 1 (Py.split (Py.strip chunk) nl) in
    insertions r = total stat_ins (map stat_of stat_lines) /\
    deletions r = total stat_dels (map stat_of stat_lines) /\
    files_changed r = total stat_files (map stat_of stat_lines) /\
    forall i d path,
      numeral i -> numeral d ->
      stat_of (stat_text i d path) = Stat (entry_value i) (entry_value d).
Proof.
  intros datetime fromisoformat chunk r Hrun stat_lines.
  destruct (parse_chunk_record datetime fromisoformat chunk r Hrun) as [Hstat _].
  fold stat_lines in Hstat. rewrite numstat_loop_stat_of in Hstat.
  injection Hstat as Hi Hd Hf. cbn [Z.add] in Hi, Hd, Hf.
  repeat split; try congruence.
  intros i d path. apply stat_of_stat_text.
Qed.

Lemma numstat_totals_witness :
  parse_chunk string git_iso chunk_two_files = Ok (Some record_two_files) /\
  skipn 1 (Py.split (Py.strip chunk_two_files) nl) =
    [EmptyString; stat_text "10" "2" "a.py"; stat_text "5" "0" "b.py"] /\
  map stat_of [EmptyString; stat_text "10" "2" "a.py"; stat_text "5" "0" "b.py"] =
    [NotStat; Stat 10 2; Stat 5 0] /\
  insertions record_two_files = 15%Z /\
  deletions record_two_files = 2%Z /\
  files_changed record_two_files = 2%Z /\
  forall i d path,
    numeral i -> numeral d ->
    stat_of (stat_text i d path) = Stat (entry_value i) (entry_value d).
Proof.
  assert (Hrun : parse_chunk string git_iso chunk_two_files = Ok (Some record_two_files))
    by (vm_compute; reflexivity).
  split; [exact Hrun|]. split; [vm_compute; reflexivity|].
  split; [vm_compute; reflexivity|].
  exact (numstat_totals string git_iso chunk_two_files record_two_files Hrun).
Defined.

(** Entries that do not read as numbers: a first entry that [int()]
    refuses (here one behind the character FS, which [int()] does not
    skip) leaves both sums alone, a second one only the deletions; each
    of the lines still counts as a file. *)
Lemma unreadable_entries_end_the_line :
  map stat_of (skipn 1 (Py.split (Py.strip chunk_unreadable) nl)) =
    [StatUnread; StatIns 3; Stat 0 4; StatUnread] /\
  exists r,
    parse_chunk string git_iso chunk_unreadable = Ok (Some r) /\
    insertions r = 3%Z /\ deletions r = 4%Z /\ files_changed r = 4%Z.
Proof.
  split; [vm_compute; reflexivity|].
  eexists. split; [vm_compute; reflexivity|]. repeat split.
Qed.

(** The breaking flag of a record is read off the subject alone: it is
    set exactly when group 3 of [CONVENTIONAL_RE], the [!], took part in
    the match; the category is the [CAT_MAP] entry of group 1. *)
Lemma classify_from_subject (commit_message : string) (groups : list (nat * string)) :
  Re.re_match Re.no_flags CONVENTIONAL_RE commit_message = Some groups ->
  forall t, Re.group 1 groups = Some t ->
  fst (fst (fst (classify commit_message))) = get_default CAT_MAP t "other" /\
  (snd (fst (classify commit_message)) = true <->
   exists b, Re.group 3 groups = Some b /\ Py.truthy b = true).
Proof.
  intros Hm t Ht. unfold classify. rewrite Hm, Ht. cbn [fst snd]. split.
  - reflexivity.
  - destruct (Re.group 3 groups) as [b|]; split.
    + intros Hb. exists b. split; [reflexivity | exact Hb].
    + intros [b' [Hb' Htr]]. injection Hb' as ->. exact Htr.
    + discriminate.
    + intros [b' [Hb' _]]. discriminate.
Qed.

(** C1 at a failing input: the subject carries a [BREAKING CHANGE:]
    trailer that [BREAKING_RE] finds in the record's full message, there
    is no [!], and the record's breaking flag is false. *)
Theorem breaking_trailer_not_consulted :
  Re.re_search BREAKING_FLAGS BREAKING_RE trailer_subject = Some [(1%nat, "r")] /\
  get_history string git_iso trailer_log =
    Ok [ mkCommitInfo string "c3" "Cy" EmptyString "2024-03-04T05:06:07+00:00"
           "drop api BREAKING CHANGE: removed" trailer_subject "features"
           None false None 0%Z 0%Z 0%Z ].
Proof. split; vm_compute; reflexivity. Qed.

(** ** Complexity engine *)

(** The pattern [\b&&] does not match after a character that is not a
    word character: there is no word boundary between two such. *)
Lemma and_needs_word_before (b : ascii) (s : string) :
  Py.isword b = false ->
  Re.match_at IGNORECASE_ONLY (Re.cat [Re.WordB; Re.Lit "&&"]) (Some b)
    (String "&" (String "&" s)) = None.
Proof.
  intros Hb. unfold Re.match_at. cbn [Re.cat fold_right Re.run].
  unfold Re.guard, Re.at_boundary, Re.word_before, Re.word_after.
  cbn [Re.before Re.rest]. rewrite Hb. reflexivity.
Qed.

(** C5 at a failing input: an [&&] or [||] that follows a space adds
    nothing to the complexity, one that follows a word character adds 1. *)
Theorem operator_after_space_not_counted :
  calculate_cyclomatic_complexity "a && b" = 1%Z /\
  calculate_cyclomatic_complexity "a || b" = 1%Z /\
  calculate_cyclomatic_complexity "a&&b" = 2%Z /\
  calculate_cyclomatic_complexity "a||b" = 2%Z.
Proof. repeat split; vm_compute; reflexivity. Qed.

(** The index of a file is computed from [total - comments] as [loc], so
    the comment lines are taken off a second time inside. *)
Lemma code_metrics_sloc (path : string) (lines : list string) :
  let total := Z.of_nat (List.length lines) in
  let comments := Z.of_nat (List.length (filter is_comment_line lines)) in
  let c := cm_complexity (calculate_code_metrics path lines) in
  (total - comments <> 0)%Z ->
  cm_maintainability_index (calculate_code_metrics path lines) =
  Qmin 100
    (Qmax 0 (171 - 5.2 * inject_Z c - 0.23 * inject_Z c
             - 16.2 * inject_Z (Z.max 1 (total - comments - comments)) / 100)
     * 100 / 171).
Proof.
  intros total comments c Hne.
  unfold c, calculate_code_metrics. cbn [cm_maintainability_index cm_complexity].
  fold total comments. unfold calculate_maintainability_index.
  apply Z.eqb_neq in Hne. rewrite Hne. reflexivity.
Qed.

(** C2 at a failing input: three lines, one of them a comment.  The
    index is computed with [sloc = 3 - 1 - 1 = 1], the spec's formula has
    [sloc = 3 - 1 = 2], and the two values differ.  A file with no line
    has index 100. *)
Theorem maintainability_counts_comments_twice :
  let m := calculate_code_metrics "f.py" three_lines in
  cm_loc m = 3%Z /\ cm_comment_lines m = 1%Z /\ cm_complexity m = 1%Z /\
  Qred (cm_maintainability_index m) = (27568 # 285)%Q /\
  Qred (spec_maintainability 3 1 1) = (27541 # 285)%Q /\
  ~ (cm_maintainability_index m == spec_maintainability 3 1 1)%Q /\
  cm_maintainability_index (calculate_code_metrics "f.py" []) = 100%Q.
Proof.
  repeat split; try (vm_compute; reflexivity).
  vm_compute. discriminate.
Qed.

(** ** Structural extractor *)

(** C3 at a failing input: a [def] at column 0 followed by its indented
    body is taken for a method and no entity is emitted for it. *)
Theorem top_level_def_with_body_not_emitted :
  _parse_code_file "m.py" def_with_body "python" = Ok [] /\
  indent_of (ln "def f():") = 0%nat /\
  exists g, Re.re_match Re.no_flags PY_DEF_RE (Py.strip (ln "def f():")) = Some g /\
            group_text 1 g = "f".
Proof.
  split; [vm_compute; reflexivity|]. split; [vm_compute; reflexivity|].
  eexists. split; vm_compute; reflexivity.
Qed.


(** The two other guards of the code on the way to C9's conclusion.  A
    method with its body on its own line has no body line after it: it is
    listed in the class entity and also emitted as a function. *)
Lemma one_line_method_also_emitted :
  exists e f,
    _parse_code_file "m.py" class_one_line_method "python" = Ok [e; f] /\
    class_type e = "class" /\ methods e = ["m"] /\
    class_type f = "function" /\ name f = "m" /\ line_number f = 2%nat.
Proof.
  eexists. eexists. split; [vm_compute; reflexivity|]. repeat split.
Qed.

(** A method line more than 100 lines below its class line is outside the
    scan of [_get_python_methods] and is not listed. *)
Lemma far_method_not_listed :
  nth_error class_far_method 101 = Some (ln "    def m(self):") /\
  exists e,
    _parse_code_file "m.py" class_far_method "python" = Ok [e] /\
    name e = "A" /\ methods e = [].
Proof.
  split; [reflexivity|].
  eexists. split; [vm_compute; reflexivity|]. repeat split.
Qed.

(** *** Heads of the lines the Python patterns accept *)

Lemma class_re_head (s : string) (g : list (nat * string)) :
  Re.re_match Re.no_flags PY_CLASS_RE s = Some g -> exists t, s = String "c" t.
Proof.
  unfold Re.re_match, Re.match_at. intros H.
  destruct s as [|a t]; [discriminate H|].
  cbn -[Ascii.eqb Py.isspace Py.isword] in H.
  destruct (Ascii.eqb "c" a) eqn:E; [|discriminate H].
  apply Ascii.eqb_eq in E. subst a. exists t. reflexivity.
Qed.


Ltac eat_char H s :=
  destruct s as [|? s]; [cbn in H; discriminate H|];
  cbn -[Ascii.eqb Py.isspace Py.isword] in H;
  match type of H with
  | context [if Ascii.eqb ?c ?a then _ else _] =>
      let E := fresh "E" in
      destruct (Ascii.eqb c a) eqn:E;
      [apply Ascii.eqb_eq in E; subst a | discriminate H]
  end.





(** *** The helpers return *)

Lemma range_bound (a b n : nat) :
  (b <= n)%nat -> Forall (fun j => (j < n)%nat) (range a b).
Proof.
  intros Hb. apply Forall_forall. intros j Hj.
  unfold range in Hj. apply in_seq in Hj. lia.
Qed.

Lemma range_cons (a b : nat) : (a < b)%nat -> range a b = a :: range (S a) b.
Proof.
  intros H. unfold range.
  replace (b - a)%nat with (S (b - S a)) by lia. reflexivity.
Qed.




Lemma methods_loop_total (lines : list string) (base_indent : nat)
    (idxs : list nat) (acc : list string) :
  Forall (fun j => (j < List.length lines)%nat) idxs ->
  exists out,
    methods_loop lines base_indent idxs acc = Ok out /\
    forall x, In x acc -> In x out.
Proof.
  intros H. revert acc. induction H as [|j idxs Hj _ IH]; intros acc.
  - simpl. eauto.
  - cbn [methods_loop]. destruct (getitem_lt lines j Hj) as [l [-> _]].
    cbn [bind].
    destruct (negb (Py.truthy (Py.strip l))); [apply IH|].
    match goal with |- context [if ?c then _ else _] => destruct c end;
      [eauto|].
    destruct (Re.re_match Re.no_flags METHOD_RE l) as [g|]; [|apply IH].
    destruct (IH (acc ++ [group_text 1 g])) as [out [Hout Hin]].
    exists out. split; [exact Hout|].
    intros x Hx. apply Hin. apply in_or_app. left. exact Hx.
Qed.

Lemma is_method_loop_total (lines : list string) (idxs : list nat) :
  exists b, is_method_loop lines idxs = Ok b.
Proof.
  induction idxs as [|j idxs IH]; [simpl; eauto|].
  cbn [is_method_loop].
  destruct (j <? List.length lines)%nat eqn:E; [|exact IH].
  apply Nat.ltb_lt in E. destruct (getitem_lt lines j E) as [l [-> _]].
  cbn [bind].
  repeat match goal with
         | |- context [if ?c then _ else _] => destruct c
         end; eauto.
Qed.

Lemma get_python_methods_total (lines : list string) (start_line : nat) :
  (1 <= start_line)%nat -> exists r, _get_python_methods lines start_line = Ok r.
Proof.
  intros H1. unfold _get_python_methods.
  destruct (List.length lines <? start_line)%nat eqn:E; [eauto|].
  apply Nat.ltb_ge in E.
  destruct (getitem_lt lines (start_line - 1)) as [l [-> _]]; [lia|].
  cbn [bind].
  destruct (methods_loop_total lines (indent_of l)
              (range start_line (Nat.min (start_line + 100) (List.length lines))) [])
    as [out [-> _]]; [apply range_bound; lia|].
  eauto.
Qed.





(** *** A method line and the lines after it *)



(** *** The methods of a class *)







(** * Further properties of the code *)

(** ** Written dictionaries *)

Lemma dict_get_set_same {V : Type} (d : list (string * V)) (k : string) (v : V) :
  dict_get (dict_set d k v) k = Some v.
Proof.
  induction d as [|[k' w] d IH]; simpl.
  - rewrite String.eqb_refl. reflexivity.
  - destruct (String.eqb k' k) eqn:E; simpl; rewrite E; [reflexivity | exact IH].
Qed.

Lemma dict_get_set_other {V : Type} (d : list (string * V)) (k k' : string) (v : V) :
  k <> k' -> dict_get (dict_set d k v) k' = dict_get d k'.
Proof.
  intros Hne. induction d as [|[k0 w] d IH]; simpl.
  - destruct (String.eqb k k') eqn:E; [|reflexivity].
    apply String.eqb_eq in E. contradiction.
  - destruct (String.eqb k0 k) eqn:E; simpl.
    + apply String.eqb_eq in E. subst k0.
      destruct (String.eqb k k') eqn:E'; [|reflexivity].
      apply String.eqb_eq in E'. contradiction.
    + destruct (String.eqb k0 k'); [reflexivity | exact IH].
Qed.

Lemma dict_get_in_keys {V : Type} (d : list (string * V)) (k : string) :
  dict_get d k <> None <-> In k (dict_keys d).
Proof.
  induction d as [|[k0 w] d IH]; simpl.
  - split; [congruence | contradiction].
  - destruct (String.eqb k0 k) eqn:E.
    + apply String.eqb_eq in E. split; [auto | discriminate].
    + apply String.eqb_neq in E. rewrite IH. split; [auto|].
      intros [H|H]; [contradiction | exact H].
Qed.

Lemma dict_keys_set {V : Type} (d : list (string * V)) (k : string) (v : V) :
  dict_keys (dict_set d k v) =
  if dict_has d k then dict_keys d else dict_keys d ++ [k].
Proof.
  unfold dict_has. induction d as [|[k0 w] d IH]; simpl; [reflexivity|].
  destruct (String.eqb k0 k) eqn:E; simpl.
  - reflexivity.
  - rewrite IH. destruct (dict_get d k); reflexivity.
Qed.

Lemma dict_keys_set_nodup {V : Type} (d : list (string * V)) (k : string) (v : V) :
  NoDup (dict_keys d) -> NoDup (dict_keys (dict_set d k v)).
Proof.
  intros Hnd. rewrite dict_keys_set. unfold dict_has.
  destruct (dict_get d k) eqn:E; [exact Hnd|].
  apply NoDup_app; [exact Hnd | repeat constructor; intros [] |].
  intros x Hx [<-|[]]. apply dict_get_in_keys in Hx. congruence.
Qed.

Lemma dict_in_get {V : Type} (d : list (string * V)) (k : string) (v : V) :
  NoDup (dict_keys d) -> In (k, v) d -> dict_get d k = Some v.
Proof.
  induction d as [|[k0 w] d IH]; simpl; [contradiction|].
  intros Hnd [H|H].
  - injection H as -> ->. rewrite String.eqb_refl. reflexivity.
  - inversion Hnd as [|? ? Hnot Hnd']; subst.
    destruct (String.eqb k0 k) eqn:E.
    + apply String.eqb_eq in E. subst k0. exfalso. apply Hnot.
      apply in_map_iff. exists (k, v). split; [reflexivity | exact H].
    + apply IH; assumption.
Qed.

Lemma sumZ_set (d : list (string * Z)) (k : string) (v : Z) :
  sumZ (dict_values (dict_set d k v)) =
  (sumZ (dict_values d) - get_default d k 0 + v)%Z.
Proof.
  unfold get_default. induction d as [|[k0 w] d IH]; simpl; [lia|].
  destruct (String.eqb k0 k) eqn:E; simpl; [lia|]. rewrite IH. lia.
Qed.

(** ** Category breakdown and author statistics *)

Section AggregateFacts.

Variable datetime : Type.
Implicit Types (commits : list (CommitInfo datetime)).

Let tally := fun (breakdown : list (string * Z)) (commit : CommitInfo datetime) =>
  dict_set breakdown (category commit)
    (get_default breakdown (category commit) 0%Z + 1)%Z.

Lemma tally_get (breakdown : list (string * Z)) (commit : CommitInfo datetime)
    (cat : string) :
  dict_get (tally breakdown commit) cat =
  if String.eqb (category commit) cat
  then Some (get_default breakdown cat 0 + 1)%Z
  else dict_get breakdown cat.
Proof.
  unfold tally. destruct (String.eqb (category commit) cat) eqn:E.
  - apply String.eqb_eq in E. rewrite E. apply dict_get_set_same.
  - apply String.eqb_neq in E. apply dict_get_set_other. exact E.
Qed.

Lemma breakdown_fold commits :
  forall (breakdown : list (string * Z)),
    NoDup (dict_keys breakdown) ->
    let out := fold_left tally commits breakdown in
    NoDup (dict_keys out) /\
    sumZ (dict_values out) =
      (sumZ (dict_values breakdown) + Z.of_nat (List.length commits))%Z /\
    forall cat,
      get_default out cat 0%Z =
        (get_default breakdown cat 0 +
         Z.of_nat (List.length (by_category datetime cat commits)))%Z /\
      (dict_get out cat = None <->
       dict_get breakdown cat = None /\ by_category datetime cat commits = []).
Proof.
  induction commits as [|c cs IH]; intros breakdown Hnd.
  - simpl. split; [exact Hnd|]. split; [lia|]. intros cat. split; [lia|].
    split; [auto | intros [H _]; exact H].
  - cbn [fold_left].
    assert (Hnd' : NoDup (dict_keys (tally breakdown c)))
      by (apply dict_keys_set_nodup; exact Hnd).
    destruct (IH (tally breakdown c) Hnd') as [Hk [Hsum Hcat]].
    split; [exact Hk|]. split.
    + rewrite Hsum. unfold tally at 1. rewrite sumZ_set.
      cbn [List.length]. lia.
    + intros cat. destruct (Hcat cat) as [Hval Hnone].
      unfold get_default in Hval at 2. rewrite tally_get in Hval, Hnone.
      cbn [by_category filter]. fold (by_category datetime cat cs).
      destruct (String.eqb (category c) cat) eqn:E.
      * split; [rewrite Hval; cbn [List.length]; lia|].
        split; [intros H; apply Hnone in H; destruct H; discriminate|].
        intros [_ H]. discriminate.
      * split; [rewrite Hval; unfold get_default; reflexivity | exact Hnone].
Qed.

End AggregateFacts.

(** X1: for every category, the breakdown holds the number of commits of
    that category; a category is a key exactly when some commit has it,
    so every count listed is at least 1; no key is listed twice. *)
Theorem category_breakdown_counts :
  forall (datetime : Type) (commits : list (CommitInfo datetime)) (cat : string),
    NoDup (dict_keys (get_category_breakdown datetime commits)) /\
    get_default (get_category_breakdown datetime commits) cat 0%Z =
      Z.of_nat (List.length (by_category datetime cat commits)) /\
    (dict_get (get_category_breakdown datetime commits) cat = None <->
     by_category datetime cat commits = []) /\
    (forall n, In (cat, n) (get_category_breakdown datetime commits) -> (1 <= n)%Z).
Proof.
  intros datetime commits cat.
  destruct (breakdown_fold datetime commits [] (NoDup_nil _)) as [Hnd [_ Hcat]].
  fold (get_category_breakdown datetime commits) in Hnd, Hcat.
  destruct (Hcat cat) as [Hval Hnone]. simpl in Hval.
  split; [exact Hnd|]. split; [exact Hval|]. split.
  - rewrite Hnone. split; [intros [_ H]; exact H | auto].
  - intros n Hin. pose proof (dict_in_get _ _ _ Hnd Hin) as Hget.
    unfold get_default in Hval. rewrite Hget in Hval.
    destruct (by_category datetime cat commits) eqn:E.
    + assert (Hn : dict_get (get_category_breakdown datetime commits) cat = None)
        by (apply Hnone; auto). congruence.
    + rewrite Hval. cbn [List.length]. lia.
Qed.

(** X2: the counts of the breakdown add up to the number of commits. *)
Theorem category_breakdown_total :
  forall (datetime : Type) (commits : list (CommitInfo datetime)),
    sumZ (dict_values (get_category_breakdown datetime commits)) =
    Z.of_nat (List.length commits).
Proof.
  intros datetime commits.
  destruct (breakdown_fold datetime commits [] (NoDup_nil _)) as [_ [Hsum _]].
  exact Hsum.
Qed.

Lemma sum_field_set {V : Type} (f : V -> Z) (z : V) (d : list (string * V))
    (k : string) (v : V) :
  f z = 0%Z ->
  sumZ (map f (dict_values (dict_set d k v))) =
  (sumZ (map f (dict_values d)) - f (get_default d k z) + f v)%Z.
Proof.
  intros Hz. unfold get_default.
  induction d as [|[k0 w] d IH]; simpl; [lia|].
  destruct (String.eqb k0 k) eqn:E; simpl; [lia|]. rewrite IH. lia.
Qed.

Section AuthorFacts.

Variable datetime : Type.
Implicit Types (commits : list (CommitInfo datetime)).

Let zeros := mkAuthorStats 0 0 0 0.

Let bump := fun (s : AuthorStats) (c : CommitInfo datetime) =>
  mkAuthorStats (a_commits s + 1)%Z (a_insertions s + insertions c)%Z
    (a_deletions s + deletions c)%Z (a_files_changed s + files_changed c)%Z.

(** One iteration never meets a missing key. *)
Lemma author_step_some (stats : list (string * AuthorStats))
    (c : CommitInfo datetime) :
  NoDup (dict_keys stats) ->
  exists out,
    author_step datetime stats c = Some out /\
    NoDup (dict_keys out) /\
    (forall a, dict_get out a =
               if String.eqb (author_name c) a
               then Some (bump (get_default stats a zeros) c)
               else dict_get stats a) /\
    (forall f : AuthorStats -> Z, f zeros = 0%Z ->
       sumZ (map f (dict_values out)) =
       (sumZ (map f (dict_values stats))
        - f (get_default stats (author_name c) zeros)
        + f (bump (get_default stats (author_name c) zeros) c))%Z).
Proof.
  intros Hnd. unfold author_step, dict_has.
  destruct (dict_get stats (author_name c)) as [s|] eqn:E; cbn [negb].
  - rewrite E. eexists. split; [reflexivity|].
    split; [apply dict_keys_set_nodup; exact Hnd|]. split.
    + intros a. destruct (String.eqb (author_name c) a) eqn:Ea.
      * apply String.eqb_eq in Ea. subst a. rewrite dict_get_set_same.
        unfold get_default. rewrite E. reflexivity.
      * apply String.eqb_neq in Ea. apply dict_get_set_other. exact Ea.
    + intros f Hz. rewrite (sum_field_set f zeros) by exact Hz.
      unfold get_default. rewrite E. reflexivity.
  - rewrite dict_get_set_same. eexists. split; [reflexivity|].
    split; [do 2 apply dict_keys_set_nodup; exact Hnd|]. split.
    + intros a. destruct (String.eqb (author_name c) a) eqn:Ea.
      * apply String.eqb_eq in Ea. subst a. rewrite dict_get_set_same.
        unfold get_default. rewrite E. reflexivity.
      * apply String.eqb_neq in Ea.
        rewrite !dict_get_set_other by exact Ea. reflexivity.
    + intros f Hz. rewrite !(sum_field_set f zeros) by exact Hz.
      unfold get_default. rewrite dict_get_set_same, E.
      subst zeros bump. cbv beta in *. lia.
Qed.

Lemma author_fold commits :
  forall (stats : list (string * AuthorStats)),
    NoDup (dict_keys stats) ->
    exists out,
      author_loop datetime commits stats = Some out /\
      NoDup (dict_keys out) /\
      (forall a,
         let mine := by_author datetime a commits in
         let s0 := get_default stats a zeros in
         let s := get_default out a zeros in
         a_commits s = (a_commits s0 + Z.of_nat (List.length mine))%Z /\
         a_insertions s =
           (a_insertions s0 + sumZ (map (fun c => insertions c) mine))%Z /\
         a_deletions s =
           (a_deletions s0 + sumZ (map (fun c => deletions c) mine))%Z /\
         a_files_changed s =
           (a_files_changed s0 + sumZ (map (fun c => files_changed c) mine))%Z /\
         (dict_get out a = None <-> dict_get stats a = None /\ mine = [])) /\
      sumZ (map a_commits (dict_values out)) =
        (sumZ (map a_commits (dict_values stats)) +
         Z.of_nat (List.length commits))%Z /\
      sumZ (map a_insertions (dict_values out)) =
        (sumZ (map a_insertions (dict_values stats)) +
         sumZ (map (fun c => insertions c) commits))%Z /\
      sumZ (map a_deletions (dict_values out)) =
        (sumZ (map a_deletions (dict_values stats)) +
         sumZ (map (fun c => deletions c) commits))%Z /\
      sumZ (map a_files_changed (dict_values out)) =
        (sumZ (map a_files_changed (dict_values stats)) +
         sumZ (map (fun c => files_changed c) commits))%Z.
Proof.
  induction commits as [|c cs IH]; intros stats Hnd.
  - exists stats. cbn. split; [reflexivity|]. split; [exact Hnd|].
    split; [|repeat split; lia].
    intros a. repeat split; try lia; tauto.
  - destruct (author_step_some stats c Hnd) as [mid [Hstep [Hnd' [Hget Hsum]]]].
    destruct (IH mid Hnd') as [out [Hloop [Hk [Hper [Hc [Hi [Hd Hf]]]]]]].
    exists out. cbn [author_loop]. rewrite Hstep.
    split; [exact Hloop|]. split; [exact Hk|]. split.
    + intros a. specialize (Hper a). cbv zeta in Hper |- *.
      destruct Hper as [H1 [H2 [H3 [H4 H5]]]].
      assert (Hgd : get_default mid a zeros =
                    if String.eqb (author_name c) a
                    then bump (get_default stats a zeros) c
                    else get_default stats a zeros).
      { unfold get_default. rewrite Hget.
        destruct (String.eqb (author_name c) a); reflexivity. }
      rewrite Hgd in H1, H2, H3, H4. rewrite Hget in H5.
      cbn [by_author filter]. fold (by_author datetime a cs).
      destruct (String.eqb (author_name c) a) eqn:Ea.
      * subst bump.
        cbn [a_commits a_insertions a_deletions a_files_changed] in H1, H2, H3, H4.
        cbn [List.length map sumZ fold_right].
        fold (sumZ (map (fun c => insertions c) (by_author datetime a cs))).
        fold (sumZ (map (fun c => deletions c) (by_author datetime a cs))).
        fold (sumZ (map (fun c => files_changed c) (by_author datetime a cs))).
        split; [lia|]. split; [lia|]. split; [lia|]. split; [lia|]. split.
        -- intros H. apply H5 in H. destruct H. discriminate.
        -- intros [_ H]. discriminate.
      * split; [exact H1|]. split; [exact H2|]. split; [exact H3|].
        split; [exact H4 | exact H5].
    + rewrite Hc, Hi, Hd, Hf.
      rewrite (Hsum a_commits), (Hsum a_insertions), (Hsum a_deletions),
        (Hsum a_files_changed) by reflexivity.
      subst bump.
      cbn [a_commits a_insertions a_deletions a_files_changed
           List.length map sumZ fold_right].
      fold (sumZ (map (fun c => insertions c) cs)).
      fold (sumZ (map (fun c => deletions c) cs)).
      fold (sumZ (map (fun c => files_changed c) cs)).
      repeat split; lia.
Qed.

End AuthorFacts.

(** X3: [get_author_stats] returns (no missing key is met), lists no
    author twice, and for every author the entry holds the number of that
    author's commits and the sums of their insertions, deletions and
    files changed; an author is a key exactly when the list has a commit
    of that author. *)
Theorem author_stats_per_author :
  forall (datetime : Type) (commits : list (CommitInfo datetime)) (a : string),
  exists stats,
    get_author_stats datetime commits = Some stats /\
    NoDup (dict_keys stats) /\
    (dict_get stats a = None <-> by_author datetime a commits = []) /\
    forall s, dict_get stats a = Some s ->
      a_commits s = Z.of_nat (List.length (by_author datetime a commits)) /\
      a_insertions s =
        sumZ (map (fun c => insertions c) (by_author datetime a commits)) /\
      a_deletions s =
        sumZ (map (fun c => deletions c) (by_author datetime a commits)) /\
      a_files_changed s =
        sumZ (map (fun c => files_changed c) (by_author datetime a commits)).
Proof.
  intros datetime commits a.
  destruct (author_fold datetime commits [] (NoDup_nil _))
    as [out [Hrun [Hnd [Hper _]]]].
  exists out. split; [exact Hrun|]. split; [exact Hnd|].
  specialize (Hper a). cbv zeta in Hper.
  destruct Hper as [H1 [H2 [H3 [H4 H5]]]]. split.
  - rewrite H5. cbn. split; [intros [_ H]; exact H | auto].
  - intros s Hs. unfold get_default in H1, H2, H3, H4.
    rewrite Hs in H1, H2, H3, H4. cbn in H1, H2, H3, H4.
    repeat split; assumption.
Qed.

(** X4: over all authors, the entries of [get_author_stats] add up to
    the number of commits and to the total insertions, deletions and
    files changed of the commit list. *)
Theorem author_stats_totals :
  forall (datetime : Type) (commits : list (CommitInfo datetime)),
  exists stats,
    get_author_stats datetime commits = Some stats /\
    sumZ (map a_commits (dict_values stats)) = Z.of_nat (List.length commits) /\
    sumZ (map a_insertions (dict_values stats)) =
      sumZ (map (fun c => insertions c) commits) /\
    sumZ (map a_deletions (dict_values stats)) =
      sumZ (map (fun c => deletions c) commits) /\
    sumZ (map a_files_changed (dict_values stats)) =
      sumZ (map (fun c => files_changed c) commits).
Proof.
  intros datetime commits.
  destruct (author_fold datetime commits [] (NoDup_nil _))
    as [out [Hrun [_ [_ [Hc [Hi [Hd Hf]]]]]]].
  exists out. split; [exact Hrun|]. cbn in Hc, Hi, Hd, Hf.
  repeat split; assumption.
Qed.

(** ** File churn *)

Lemma dict_set_twice {V : Type} (d : list (string * V)) (k : string) (v w : V) :
  dict_set (dict_set d k v) k w = dict_set d k w.
Proof.
  induction d as [|[k0 u] d IH]; simpl.
  - rewrite String.eqb_refl. reflexivity.
  - destruct (String.eqb k0 k) eqn:E; simpl; rewrite E; [reflexivity|].
    rewrite IH. reflexivity.
Qed.

Lemma dict_set_forall {V : Type} (P : V -> Prop) (d : list (string * V))
    (k : string) (v : V) :
  Forall (fun kv => P (snd kv)) d -> P v ->
  Forall (fun kv => P (snd kv)) (dict_set d k v).
Proof.
  intros Hd Hv. induction Hd as [|[k0 u] d Hu Hd' IH]; simpl.
  - repeat constructor. exact Hv.
  - destruct (String.eqb k0 k); constructor; cbn [snd] in *; assumption.
Qed.

Lemma dict_get_forall {V : Type} (P : V -> Prop) (d : list (string * V))
    (k : string) (v : V) :
  Forall (fun kv => P (snd kv)) d -> dict_get d k = Some v -> P v.
Proof.
  intros Hd. induction Hd as [|[k0 u] d Hu _ IH]; simpl; [discriminate|].
  destruct (String.eqb k0 k); [|exact IH].
  intros H. injection H as <-. exact Hu.
Qed.

Lemma churn_record_ok (file_stats : list (string * ChurnStats))
    (f p0 p1 : string) :
  Forall (fun kv => churn_entry_ok (snd kv)) file_stats ->
  exists out,
    churn_record file_stats f p0 p1 = Some out /\
    Forall (fun kv => churn_entry_ok (snd kv)) out.
Proof.
  intros Hok. unfold churn_record.
  destruct (stat_field p0) as [i|]; [|eauto].
  destruct (stat_field p1) as [d|]; [|eauto].
  unfold dict_has. destruct (dict_get file_stats f) as [s|] eqn:E; cbn [negb].
  - rewrite E. eexists. split; [reflexivity|].
    apply dict_set_forall; [exact Hok|].
    destruct (dict_get_forall _ _ _ _ Hok E) as [Hc Hn].
    unfold churn_entry_ok. cbn. lia.
  - rewrite dict_get_set_same, dict_set_twice. eexists. split; [reflexivity|].
    apply dict_set_forall; [exact Hok|]. unfold churn_entry_ok. cbn. lia.
Qed.

Lemma churn_step_ok (state : option string * list (string * ChurnStats))
    (raw_line : string) :
  Forall (fun kv => churn_entry_ok (snd kv)) (snd state) ->
  exists state',
    churn_step state raw_line = Some state' /\
    Forall (fun kv => churn_entry_ok (snd kv)) (snd state').
Proof.
  destruct state as [current_file file_stats]. cbn [snd]. intros Hok.
  unfold churn_step.
  destruct (negb (Py.truthy (Py.strip raw_line))); [eauto|].
  destruct (Py.contains tab (Py.strip raw_line)); [|eauto].
  destruct (Py.split (Py.strip raw_line) tab) as [|p0 [|p1 parts]]; [eauto | eauto |].
  destruct current_file as [f|]; [|eauto].
  destruct (Py.truthy f); [|eauto].
  destruct (churn_record_ok file_stats f p0 p1 Hok) as [out [-> Hout]].
  eauto.
Qed.

Lemma churn_loop_ok (lines : list string) :
  forall state,
    Forall (fun kv => churn_entry_ok (snd kv)) (snd state) ->
    exists state',
      churn_loop lines state = Some state' /\
      Forall (fun kv => churn_entry_ok (snd kv)) (snd state').
Proof.
  induction lines as [|l ls IH]; intros state Hok; cbn [churn_loop]; [eauto|].
  destruct (churn_step_ok state l Hok) as [mid [-> Hmid]]. apply IH. exact Hmid.
Qed.

(** X5: the churn loop returns a table (no missing key is met), and in
    every entry of the table the changes are the insertions plus the
    deletions and at least one stat line was booked. *)
Theorem file_churn_entries :
  forall (lines : list string),
  exists file_stats,
    get_file_churn lines = Some file_stats /\
    forall path s, In (path, s) file_stats ->
      ch_changes s = (ch_insertions s + ch_deletions s)%Z /\
      (1 <= ch_commits s)%Z.
Proof.
  intros lines. unfold get_file_churn.
  destruct (churn_loop_ok lines (None, [])) as [[cf out] [-> Hout]];
    [constructor|].
  exists out. split; [reflexivity|]. intros path s Hin.
  rewrite Forall_forall in Hout. exact (Hout (path, s) Hin).
Qed.

Lemma churn_step_no_name (file_stats : list (string * ChurnStats))
    (raw_line : string) :
  not_a_name raw_line = true ->
  churn_step (None, file_stats) raw_line = Some (None, file_stats).
Proof.
  unfold not_a_name, churn_step. intros H.
  destruct (negb (Py.truthy (Py.strip raw_line))); [reflexivity|].
  cbn [orb] in H. rewrite H.
  destruct (Py.split (Py.strip raw_line) tab) as [|p0 [|p1 parts]]; reflexivity.
Qed.

(** X6: stat lines that come before the first file name line are
    ignored: leading lines that are blank or hold a tab do not change what
    the churn loop returns. *)
Theorem file_churn_leading_stats_ignored :
  forall (leading rest : list string),
    Forall (fun l => not_a_name l = true) leading ->
    get_file_churn (leading ++ rest) = get_file_churn rest.
Proof.
  intros leading rest H. unfold get_file_churn. f_equal.
  induction H as [|l ls Hl _ IH]; [reflexivity|].
  cbn [app churn_loop]. rewrite (churn_step_no_name [] l Hl). exact IH.
Qed.

Lemma file_churn_leading_stats_ignored_witness :
  Forall (fun l => not_a_name l = true) [EmptyString; stat_text "3" "1" "x.py"] /\
  get_file_churn ([EmptyString; stat_text "3" "1" "x.py"] ++
                  ["a.py"; stat_text "3" "1" "a.py"]) =
  get_file_churn ["a.py"; stat_text "3" "1" "a.py"].
Proof.
  assert (H : Forall (fun l => not_a_name l = true)
                [EmptyString; stat_text "3" "1" "x.py"]).
  { apply Forall_cons; [vm_compute; reflexivity|].
    apply Forall_cons; [vm_compute; reflexivity | apply Forall_nil]. }
  split; [exact H|].
  exact (file_churn_leading_stats_ignored
           [EmptyString; stat_text "3" "1" "x.py"]
           ["a.py"; stat_text "3" "1" "a.py"] H).
Defined.

(** ** Complexity engine: bounds *)

Lemma weighted_fold_lower (count : Re.regex -> Z) (pats : list (Re.regex * Z)) :
  (forall r, 0 <= count r)%Z ->
  Forall (fun pw => (0 <= snd pw)%Z) pats ->
  forall acc,
    (acc <= fold_left (fun complexity pw => complexity + count (fst pw) * snd pw)
              pats acc)%Z.
Proof.
  intros Hc Hw. induction Hw as [|pw pats Hpw _ IH]; intros acc; simpl; [lia|].
  specialize (IH (acc + count (fst pw) * snd pw)%Z).
  specialize (Hc (fst pw)). nia.
Qed.

Lemma cyclomatic_complexity_lower_bound (code : string) :
  (1 <= calculate_cyclomatic_complexity code)%Z.
Proof.
  unfold calculate_cyclomatic_complexity.
  apply (weighted_fold_lower
           (fun r => Z.of_nat (Re.findall_count IGNORECASE_ONLY r code))).
  - intros r. lia.
  - unfold COMPLEXITY_PATTERNS. repeat constructor; cbn; lia.
Qed.

(** X7: the cyclomatic complexity of any text is at least 1, the base
    value: no pattern takes anything off. *)
Theorem cyclomatic_complexity_at_least_one :
  forall (code : string), (1 <= calculate_cyclomatic_complexity code)%Z.
Proof.
  intros code. apply cyclomatic_complexity_lower_bound.
Qed.

Lemma maintainability_index_bounds (loc complexity comments : Z) :
  (0 <= calculate_maintainability_index loc complexity comments)%Q /\
  (calculate_maintainability_index loc complexity comments <= 100)%Q.
Proof.
  unfold calculate_maintainability_index.
  destruct (loc =? 0)%Z; [split; discriminate|].
  split; [|apply Q.le_min_l].
  apply Q.min_glb; [discriminate|].
  unfold Qdiv. apply Qmult_le_0_compat; [|discriminate].
  apply Qmult_le_0_compat; [apply Q.le_max_l | discriminate].
Qed.

(** X8: the maintainability index lies between 0 and 100 for every line
    count, complexity and comment count, negative ones included. *)
Theorem maintainability_index_range :
  forall (loc complexity comments : Z),
    (0 <= calculate_maintainability_index loc complexity comments)%Q /\
    (calculate_maintainability_index loc complexity comments <= 100)%Q.
Proof.
  intros loc c com. apply maintainability_index_bounds.
Qed.

(** X9: with the line and comment counts fixed, a higher complexity never
    gives a higher maintainability index. *)
Theorem maintainability_index_antitone :
  forall (loc comments c1 c2 : Z),
    (c1 <= c2)%Z ->
    (calculate_maintainability_index loc c2 comments <=
     calculate_maintainability_index loc c1 comments)%Q.
Proof.
  intros loc com c1 c2 Hc. unfold calculate_maintainability_index.
  destruct (loc =? 0)%Z; [apply Qle_refl|].
  rewrite Zle_Qle in Hc.
  apply Q.min_le_compat_l. unfold Qdiv.
  apply Qmult_le_compat_r; [|discriminate].
  apply Qmult_le_compat_r; [|discriminate].
  apply Q.max_le_compat_l. unfold Qminus.
  apply Qplus_le_compat; [|apply Qle_refl].
  apply Qplus_le_compat.
  - apply Qplus_le_compat; [apply Qle_refl|].
    apply Qopp_le_compat. apply Qmult_le_l; [reflexivity | exact Hc].
  - apply Qopp_le_compat. apply Qmult_le_l; [reflexivity | exact Hc].
Qed.

Lemma maintainability_index_antitone_witness :
  (3 <= 40)%Z /\
  (calculate_maintainability_index 120 40 10 <=
   calculate_maintainability_index 120 3 10)%Q.
Proof.
  split; [lia|].
  exact (maintainability_index_antitone 120 10 3 40 ltac:(lia)).
Defined.

Lemma filter_length_le {A : Type} (f : A -> bool) (l : list A) :
  (List.length (filter f l) <= List.length l)%nat.
Proof.
  induction l as [|a l IH]; simpl; [lia|]. destruct (f a); simpl; lia.
Qed.

Lemma filter_all {A : Type} (f : A -> bool) (l : list A) :
  Forall (fun a => f a = true) l -> filter f l = l.
Proof.
  induction 1 as [|a l Ha _ IH]; simpl; [reflexivity|].
  rewrite Ha, IH. reflexivity.
Qed.

(** X10: in the metrics of a file the code lines and the comment lines add
    up to the line count, the comment lines are between 0 and the line
    count, the function and class counts are not negative, the complexity
    is at least 1 and the maintainability index is between 0 and 100. *)
Theorem code_metrics_accounting :
  forall (path : string) (lines : list string),
    let m := calculate_code_metrics path lines in
    cm_loc m = Z.of_nat (List.length lines) /\
    (cm_sloc m + cm_comment_lines m)%Z = cm_loc m /\
    (0 <= cm_comment_lines m <= cm_loc m)%Z /\
    (0 <= cm_functions m)%Z /\ (0 <= cm_classes m)%Z /\
    (1 <= cm_complexity m)%Z /\
    (0 <= cm_maintainability_index m)%Q /\
    (cm_maintainability_index m <= 100)%Q.
Proof.
  intros path lines m. unfold m, calculate_code_metrics.
  cbn [cm_loc cm_sloc cm_comment_lines cm_functions cm_classes cm_complexity
       cm_maintainability_index].
  pose proof (filter_length_le is_comment_line lines) as Hle.
  split; [reflexivity|]. split; [lia|]. split; [lia|].
  split; [lia|]. split; [lia|].
  split; [apply cyclomatic_complexity_lower_bound|].
  apply maintainability_index_bounds.
Qed.

(** X11: a file all of whose lines are comment lines has maintainability
    index 100, whatever its length and its complexity. *)
Theorem comment_only_file_index :
  forall (path : string) (lines : list string),
    Forall (fun l => is_comment_line l = true) lines ->
    cm_sloc (calculate_code_metrics path lines) = 0%Z /\
    cm_maintainability_index (calculate_code_metrics path lines) = 100%Q.
Proof.
  intros path lines H. unfold calculate_code_metrics.
  cbn [cm_sloc cm_maintainability_index].
  rewrite (filter_all is_comment_line lines H).
  rewrite Z.sub_diag. split; reflexivity.
Qed.

Lemma comment_only_file_index_witness :
  Forall (fun l => is_comment_line l = true)
    [ln "# if a and b or c:"; ln "// while (x && y)"] /\
  cm_sloc (calculate_code_metrics "f.py"
             [ln "# if a and b or c:"; ln "// while (x && y)"]) = 0%Z /\
  cm_maintainability_index
    (calculate_code_metrics "f.py"
       [ln "# if a and b or c:"; ln "// while (x && y)"]) = 100%Q.
Proof.
  assert (H : Forall (fun l => is_comment_line l = true)
                [ln "# if a and b or c:"; ln "// while (x && y)"]).
  { apply Forall_cons; [vm_compute; reflexivity|].
    apply Forall_cons; [vm_compute; reflexivity | apply Forall_nil]. }
  split; [exact H|].
  exact (comment_only_file_index "f.py"
           [ln "# if a and b or c:"; ln "// while (x && y)"] H).
Defined.

(** ** Structural extractor: every language *)

Lemma def_re_head (s : string) (g : list (nat * string)) :
  Re.re_match Re.no_flags PY_DEF_RE s = Some g -> exists t, s = String "d" t.
Proof.
  unfold Re.re_match, Re.match_at. intros H.
  eat_char H s. exists s. reflexivity.
Qed.

Lemma get_js_docstring_total (lines : list string) (start_line : nat) :
  (1 <= start_line)%nat -> exists r, _get_js_docstring lines start_line = Ok r.
Proof.
  intros H1. unfold _get_js_docstring.
  destruct (List.length lines <? start_line)%nat eqn:E; [eauto|].
  apply Nat.ltb_ge in E.
  destruct (getitem_lt lines (start_line - 1)) as [l [-> _]]; [lia|].
  cbn [bind].
  destruct (Py.contains "/**" l && Py.contains "*/" l); [|eauto].
  match goal with |- context [match ?m with _ => _ end] => destruct m end; eauto.
Qed.

Lemma snippet_loop_shape (lines : list string) (start_line : nat)
    (idxs : list nat) :
  Forall (fun j => (j < List.length lines)%nat) idxs ->
  forall acc, exists extra,
    snippet_loop lines start_line idxs acc = Ok (acc ++ extra) /\
    (List.length extra <= List.length idxs)%nat.
Proof.
  induction 1 as [|j idxs Hj _ IH]; intros acc.
  - exists []. rewrite app_nil_r. split; [reflexivity | simpl; lia].
  - cbn [snippet_loop]. destruct (getitem_lt lines j Hj) as [l [-> _]].
    cbn [bind].
    destruct (IH (acc ++ [Py.rstrip l])) as [extra [Hrun Hlen]].
    assert (Hstop : exists extra0,
              Ok (acc ++ [Py.rstrip l]) = Ok (acc ++ extra0) /\
              (List.length extra0 <= List.length (j :: idxs))%nat).
    { exists [Py.rstrip l]. split; [reflexivity | simpl; lia]. }
    assert (Hgo : exists extra0,
              snippet_loop lines start_line idxs (acc ++ [Py.rstrip l]) =
                Ok (acc ++ extra0) /\
              (List.length extra0 <= List.length (j :: idxs))%nat).
    { exists (Py.rstrip l :: extra). rewrite Hrun, <- app_assoc.
      split; [reflexivity | simpl; lia]. }
    destruct (start_line - 1 <? j)%nat; [|exact Hgo].
    match goal with |- context [if ?c then _ else _] => destruct c end;
      [|exact Hgo].
    destruct (negb (Py.startswith (Py.strip l) "@")); [exact Hstop | exact Hgo].
Qed.

Lemma range_length (a b : nat) : List.length (range a b) = (b - a)%nat.
Proof. unfold range. apply length_seq. Qed.

(** The snippet of a declaration line: it starts with the line itself,
    trailing white space removed, and has at most 19 lines more. *)
Lemma get_code_snippet_shape (lines : list string) (i : nat) (line : string) :
  (1 <= i)%nat ->
  nth_error lines (i - 1) = Some line ->
  exists more,
    _get_code_snippet lines i = Ok (Some (Py.join nl (Py.rstrip line :: more))) /\
    (List.length more <= 19)%nat.
Proof.
  intros H1 Hnth.
  assert (Hlen : (i - 1 < List.length lines)%nat)
    by (apply nth_error_Some; rewrite Hnth; discriminate).
  unfold _get_code_snippet.
  replace (List.length lines <? i)%nat with false
    by (symmetry; apply Nat.ltb_ge; lia).
  rewrite (range_cons (i - 1)) by lia.
  cbn [snippet_loop]. rewrite (getitem_nth lines (i - 1) line Hnth).
  cbn [bind app]. rewrite Nat.ltb_irrefl.
  destruct (snippet_loop_shape lines i
              (range (S (i - 1)) (Nat.min (i - 1 + 20) (List.length lines))))
    with (acc := [Py.rstrip line]) as [extra [-> Hextra]];
    [apply range_bound; lia|].
  rewrite range_length in Hextra.
  cbn [bind app]. exists extra. split; [reflexivity | lia].
Qed.

Lemma get_docstring_of_declaration (lines : list string) (i : nat)
    (line : string) (c : ascii) (t : string) :
  (1 <= i)%nat ->
  nth_error lines (i - 1) = Some line ->
  Py.strip line = String c t ->
  c <> dquote -> c <> "'"%char ->
  _get_docstring lines i = Ok None.
Proof.
  intros H1 Hnth Hs Hq Hq'.
  assert (Hlen : (i - 1 < List.length lines)%nat)
    by (apply nth_error_Some; rewrite Hnth; discriminate).
  unfold _get_docstring.
  replace (List.length lines <? i)%nat with false
    by (symmetry; apply Nat.ltb_ge; lia).
  replace (i <=? List.length lines)%nat with true
    by (symmetry; apply Nat.leb_le; lia).
  rewrite (getitem_nth lines (i - 1) line Hnth). cbn [bind]. rewrite Hs.
  unfold Py.startswith, triple_dquote, triple_quote. cbn [String.prefix].
  destruct (ascii_dec dquote c) as [E|_]; [congruence|].
  destruct (ascii_dec "'" c) as [E|_]; [congruence|].
  reflexivity.
Qed.

Ltac facts_of_record :=
  unfold entity_facts;
  cbn [line_number file_path language is_test complexity class_type methods
       bases docstring code_snippet];
  do 5 (split; [reflexivity|]).

Lemma python_block_facts (path : string) (lines : list string) (i : nat)
    (line : string) :
  (1 <= i)%nat ->
  nth_error lines (i - 1) = Some line ->
  exists r,
    python_block path lines i (Py.strip line) = Ok r /\
    forall l, r = Some l ->
      l = [] \/ exists e, l = [e] /\ entity_facts path "python" lines i e.
Proof.
  intros H1 Hnth. unfold python_block.
  destruct (get_code_snippet_shape lines i line H1 Hnth) as [more [Hsn Hmore]].
  destruct (Re.re_match Re.no_flags PY_CLASS_RE (Py.strip line)) as [cm|] eqn:Ec.
  - destruct (class_re_head _ _ Ec) as [t Ht].
    rewrite (get_docstring_of_declaration lines i line "c" t H1 Hnth Ht)
      by discriminate.
    destruct (get_python_methods_total lines i H1) as [ms ->].
    rewrite Hsn. cbn [bind]. eexists. split; [reflexivity|].
    intros l Hl. injection Hl as <-. right. eexists. split; [reflexivity|].
    facts_of_record.
    split; [left; reflexivity|]. split; [intros _; split; reflexivity|].
    split; [reflexivity|].
    exists line, more. repeat split; assumption.
  - destruct (Re.re_match Re.no_flags PY_DEF_RE (Py.strip line)) as [fm|] eqn:Ed.
    + destruct (i <=? List.length lines)%nat.
      * destruct (is_method_loop_total lines
                    (range i (Nat.min (i + 5) (List.length lines + 1))))
          as [b ->].
        cbn [bind]. destruct b; cbn [negb].
        -- eexists. split; [reflexivity|]. intros l Hl. injection Hl as <-.
           left. reflexivity.
        -- destruct (def_re_head _ _ Ed) as [t Ht].
           rewrite (get_docstring_of_declaration lines i line "d" t H1 Hnth Ht)
             by discriminate.
           rewrite Hsn. cbn [bind]. eexists. split; [reflexivity|].
           intros l Hl. injection Hl as <-. right. eexists.
           split; [reflexivity|].
           facts_of_record.
           split; [right; left; reflexivity|].
           split; [intros [H|H]; contradiction|].
           split; [reflexivity|].
           exists line, more. repeat split; assumption.
      * eexists. split; [reflexivity|]. discriminate.
    + eexists. split; [reflexivity|]. discriminate.
Qed.

Lemma js_block_facts (path lang : string) (lines : list string) (i : nat)
    (line : string) :
  (1 <= i)%nat ->
  nth_error lines (i - 1) = Some line ->
  String.eqb lang "python" = false ->
  str_in lang JS_LANGUAGES = true ->
  exists r,
    js_block path lang lines i (Py.strip line) = Ok r /\
    forall l, r = Some l ->
      exists e, l = [e] /\ entity_facts path lang lines i e.
Proof.
  intros H1 Hnth Hpy Hjs. unfold js_block.
  destruct (get_code_snippet_shape lines i line H1 Hnth) as [more [Hsn Hmore]].
  destruct (get_js_docstring_total lines i H1) as [doc Hdoc].
  assert (Hk : kinds lang = ["class"; "arrow_function"; "function"])
    by (unfold kinds; rewrite Hpy, Hjs; reflexivity).
  assert (Hnp : lang <> "python") by (apply String.eqb_neq; exact Hpy).
  assert (Hfacts : forall n ct d,
            In ct ["class"; "arrow_function"; "function"] ->
            entity_facts path lang lines i
              (mkClassInfo n path i ct lang false d [] []
                 (Some (Py.join nl (Py.rstrip line :: more))) 0%Z)).
  { intros n ct d Hct. facts_of_record. rewrite Hk.
    split; [exact Hct|]. split; [intros [H|H]; contradiction|].
    split; [intros H; contradiction|].
    exists line, more. repeat split; assumption. }
  destruct (Re.re_match Re.no_flags JS_CLASS_RE (Py.strip line)) as [cm|].
  - rewrite Hdoc, Hsn. cbn [bind]. eexists. split; [reflexivity|].
    intros l Hl. injection Hl as <-. eexists. split; [reflexivity|].
    apply Hfacts. simpl. auto.
  - destruct (Re.re_match Re.no_flags JS_ARROW_RE (Py.strip line)) as [am|].
    + rewrite Hsn. cbn [bind]. eexists. split; [reflexivity|].
      intros l Hl. injection Hl as <-. eexists. split; [reflexivity|].
      apply Hfacts. simpl. auto.
    + destruct (Re.re_match Re.no_flags JS_FUNCTION_RE (Py.strip line)) as [fm|].
      * rewrite Hsn. cbn [bind]. eexists. split; [reflexivity|].
        intros l Hl. injection Hl as <-. eexists. split; [reflexivity|].
        apply Hfacts. simpl. auto.
      * eexists. split; [reflexivity|]. discriminate.
Qed.

Lemma brace_block_facts (path lang : string) (lines : list string) (i : nat)
    (line : string) :
  (1 <= i)%nat ->
  nth_error lines (i - 1) = Some line ->
  String.eqb lang "python" = false ->
  str_in lang JS_LANGUAGES = false ->
  str_in lang BRACE_LANGUAGES = true ->
  exists l,
    brace_block path lang lines i (Py.strip line) = Ok l /\
    (l = [] \/ exists e, l = [e] /\ entity_facts path lang lines i e).
Proof.
  intros H1 Hnth Hpy Hjs Hbr. unfold brace_block.
  destruct (get_code_snippet_shape lines i line H1 Hnth) as [more [Hsn Hmore]].
  destruct (get_js_docstring_total lines i H1) as [doc Hdoc].
  assert (Hk : kinds lang = ["class"; "method"])
    by (unfold kinds; rewrite Hpy, Hjs, Hbr; reflexivity).
  assert (Hnp : lang <> "python") by (apply String.eqb_neq; exact Hpy).
  assert (Hfacts : forall n ct d,
            In ct ["class"; "method"] ->
            entity_facts path lang lines i
              (mkClassInfo n path i ct lang false d [] []
                 (Some (Py.join nl (Py.rstrip line :: more))) 0%Z)).
  { intros n ct d Hct. facts_of_record. rewrite Hk.
    split; [exact Hct|]. split; [intros [H|H]; contradiction|].
    split; [intros H; contradiction|].
    exists line, more. repeat split; assumption. }
  destruct (Re.re_match Re.no_flags BRACE_CLASS_RE (Py.strip line)) as [cm|].
  - rewrite Hdoc, Hsn. cbn [bind]. eexists. split; [reflexivity|].
    right. eexists. split; [reflexivity|]. apply Hfacts. simpl. auto.
  - generalize func_patterns. intros patterns.
    induction patterns as [|p ps IH]; cbn [func_loop].
    + eexists. split; [reflexivity|]. left. reflexivity.
    + destruct (Re.re_match Re.no_flags p (Py.strip line)) as [fm|]; [|exact IH].
      rewrite Hsn. cbn [bind]. eexists. split; [reflexivity|].
      right. eexists. split; [reflexivity|]. apply Hfacts. simpl. auto.
Qed.

Lemma str_in_js_not_brace (lang : string) :
  str_in lang JS_LANGUAGES = true -> str_in lang BRACE_LANGUAGES = false.
Proof.
  unfold str_in, JS_LANGUAGES. cbn [existsb]. intros H.
  apply orb_true_iff in H. destruct H as [H|H].
  - apply String.eqb_eq in H. subst lang. reflexivity.
  - apply orb_true_iff in H. destruct H as [H|H]; [|discriminate].
    apply String.eqb_eq in H. subst lang. reflexivity.
Qed.

(** What one line of a file contributes, in any language. *)
Lemma parse_line_facts (path lang : string) (lines : list string) (i : nat)
    (line : string) :
  (1 <= i)%nat ->
  nth_error lines (i - 1) = Some line ->
  exists appended,
    parse_line path lang lines i line = Ok appended /\
    (appended = [] \/
     exists e, appended = [e] /\ entity_facts path lang lines i e).
Proof.
  intros H1 Hnth. unfold parse_line.
  match goal with |- context [if ?c then _ else _] => destruct c end.
  { exists []. split; [reflexivity | left; reflexivity]. }
  destruct (String.eqb lang "python") eqn:Hpy.
  - apply String.eqb_eq in Hpy. subst lang.
    destruct (python_block_facts path lines i line H1 Hnth) as [r [-> Hr]].
    cbn [bind]. destruct r as [l|].
    + exists l. split; [reflexivity|]. apply Hr. reflexivity.
    + exists []. split; [reflexivity | left; reflexivity].
  - cbn [bind]. fold JS_LANGUAGES. fold BRACE_LANGUAGES.
    destruct (str_in lang JS_LANGUAGES) eqn:Hjs.
    + destruct (js_block_facts path lang lines i line H1 Hnth Hpy Hjs)
        as [r [-> Hr]].
      cbn [bind]. destruct r as [l|].
      * exists l. split; [reflexivity|]. right. apply Hr. reflexivity.
      * rewrite (str_in_js_not_brace lang Hjs).
        exists []. split; [reflexivity | left; reflexivity].
    + cbn [bind]. destruct (str_in lang BRACE_LANGUAGES) eqn:Hbr.
      * apply brace_block_facts; assumption.
      * exists []. split; [reflexivity | left; reflexivity].
Qed.

Lemma parse_loop_facts (path lang : string) (lines todo : list string) :
  forall (i : nat) (classes : list ClassInfo),
    (1 <= i)%nat ->
    (forall k l, nth_error todo k = Some l -> nth_error lines (i - 1 + k) = Some l) ->
    exists out,
      parse_loop path lang lines i todo classes = Ok (classes ++ out) /\
      Forall (fun e => (i <= line_number e < i + List.length todo)%nat /\
                       entity_facts path lang lines (line_number e) e) out /\
      StronglySorted Nat.lt (map line_number out) /\
      (List.length out <= List.length todo)%nat.
Proof.
  induction todo as [|line more IH]; intros i classes H1 Hat.
  - exists []. cbn. rewrite app_nil_r. repeat split; constructor.
  - assert (Hline : nth_error lines (i - 1) = Some line).
    { rewrite <- (Nat.add_0_r (i - 1)). apply Hat. reflexivity. }
    destruct (parse_line_facts path lang lines i line H1 Hline)
      as [appended [Hrun Happ]].
    destruct (IH (S i) (classes ++ appended)) as [out [Hloop [Hall [Hsort Hlen]]]].
    { lia. }
    { intros k l Hk. replace (S i - 1 + k)%nat with (i - 1 + S k)%nat by lia.
      apply Hat. exact Hk. }
    cbn [parse_loop]. rewrite Hrun. cbn [bind]. rewrite Hloop.
    exists (appended ++ out). rewrite app_assoc.
    split; [reflexivity|].
    assert (Hall' : Forall (fun e =>
              (i <= line_number e < i + List.length (line :: more))%nat /\
              entity_facts path lang lines (line_number e) e) out).
    { apply Forall_impl with (2 := Hall). cbn [List.length].
      intros e [Hr Hf]. split; [lia | exact Hf]. }
    destruct Happ as [->|[e [-> He]]].
    + cbn [app]. split; [exact Hall'|]. split; [exact Hsort|].
      cbn [List.length]. lia.
    + assert (Hi : line_number e = i) by (destruct He as [Hn _]; exact Hn).
      cbn [app map List.length]. split; [|split].
      * constructor; [|exact Hall'].
        rewrite Hi. split; [lia | exact He].
      * constructor; [exact Hsort|].
        apply Forall_map. apply Forall_impl with (2 := Hall).
        intros x [Hr _]. rewrite Hi. unfold Nat.lt. lia.
      * lia.
Qed.

(** The facts of the whole file. *)
Lemma parse_code_file_facts (path : string) (lines : list string) (lang : string) :
  exists out,
    _parse_code_file path lines lang = Ok out /\
    Forall (fun e => (1 <= line_number e <= List.length lines)%nat /\
                     entity_facts path lang lines (line_number e) e) out /\
    StronglySorted Nat.lt (map line_number out) /\
    (List.length out <= List.length lines)%nat.
Proof.
  destruct (parse_loop_facts path lang lines lines 1 []) as
    [out [Hrun [Hall [Hsort Hlen]]]]; [lia | intros k l Hk; exact Hk|].
  exists out. split; [exact Hrun|]. split; [|split; assumption].
  apply Forall_impl with (2 := Hall). intros e [Hr Hf]. split; [lia | exact Hf].
Qed.

(** X12: for every language the extractor returns a list (it does not
    raise), with at most one entity per line: the line numbers are
    strictly increasing and lie between 1 and the number of lines. *)
Theorem parse_code_file_line_numbers :
  forall (path : string) (lines : list string) (lang : string),
  exists out,
    _parse_code_file path lines lang = Ok out /\
    StronglySorted Nat.lt (map line_number out) /\
    (forall e, In e out -> (1 <= line_number e <= List.length lines)%nat) /\
    (List.length out <= List.length lines)%nat.
Proof.
  intros path lines lang.
  destruct (parse_code_file_facts path lines lang) as [out [Hrun [Hall [Hs Hl]]]].
  exists out. split; [exact Hrun|]. split; [exact Hs|]. split; [|exact Hl].
  intros e He. rewrite Forall_forall in Hall. apply (Hall e He).
Qed.

(** X13: every entity carries the path and the language it was extracted
    for; the extractor never sets the test-file flag and never fills in
    the complexity: [is_test] is false and [complexity] is 0 throughout. *)
Theorem parse_code_file_fixed_fields :
  forall (path : string) (lines : list string) (lang : string),
  exists out,
    _parse_code_file path lines lang = Ok out /\
    forall e, In e out ->
      file_path e = path /\ language e = lang /\
      is_test e = false /\ complexity e = 0%Z.
Proof.
  intros path lines lang.
  destruct (parse_code_file_facts path lines lang) as [out [Hrun [Hall _]]].
  exists out. split; [exact Hrun|].
  intros e He. rewrite Forall_forall in Hall.
  destruct (Hall e He) as [_ [_ [Hp [Hl [Ht [Hc _]]]]]].
  repeat split; assumption.
Qed.

(** X14: the kind of every entity is one the language's block writes:
    class or function for Python, class, arrow_function or function for
    JavaScript and TypeScript, class or method for the brace-delimited
    languages; only Python class entities have methods or bases. *)
Theorem parse_code_file_kinds :
  forall (path : string) (lines : list string) (lang : string),
  exists out,
    _parse_code_file path lines lang = Ok out /\
    forall e, In e out ->
      In (class_type e) (kinds lang) /\
      (methods e <> [] \/ bases e <> [] ->
       lang = "python" /\ class_type e = "class").
Proof.
  intros path lines lang.
  destruct (parse_code_file_facts path lines lang) as [out [Hrun [Hall _]]].
  exists out. split; [exact Hrun|].
  intros e He. rewrite Forall_forall in Hall.
  destruct (Hall e He) as [_ [_ [_ [_ [_ [_ [Hk [Hm _]]]]]]]].
  split; assumption.
Qed.

(** X15: a language outside the three families (Python, the two web
    scripting languages, the seven brace-delimited ones) yields no entity,
    whatever the file holds. *)
Theorem parse_code_file_other_language :
  forall (path : string) (lines : list string) (lang : string),
    kinds lang = [] ->
    _parse_code_file path lines lang = Ok [].
Proof.
  intros path lines lang Hk.
  destruct (parse_code_file_facts path lines lang) as [out [Hrun [Hall _]]].
  destruct out as [|e out]; [exact Hrun|].
  inversion Hall as [|? ? [_ He] _]; subst.
  destruct He as [_ [_ [_ [_ [_ [Hin _]]]]]]. rewrite Hk in Hin. contradiction.
Qed.

Lemma parse_code_file_other_language_witness :
  kinds "ruby" = [] /\
  _parse_code_file "a.rb" [ln "class A"; ln "  def m"; ln "  end"; ln "end"] "ruby" =
    Ok [].
Proof.
  split; [reflexivity|].
  exact (parse_code_file_other_language "a.rb"
           [ln "class A"; ln "  def m"; ln "  end"; ln "end"] "ruby" eq_refl).
Defined.

(** X16: every entity carries a snippet: it starts with the entity's own
    line, trailing white space removed, and holds at most 19 further
    lines. *)
Theorem parse_code_file_snippets :
  forall (path : string) (lines : list string) (lang : string),
  exists out,
    _parse_code_file path lines lang = Ok out /\
    forall e, In e out ->
      exists l more,
        nth_error lines (line_number e - 1) = Some l /\
        code_snippet e = Some (Py.join nl (Py.rstrip l :: more)) /\
        (List.length more <= 19)%nat.
Proof.
  intros path lines lang.
  destruct (parse_code_file_facts path lines lang) as [out [Hrun [Hall _]]].
  exists out. split; [exact Hrun|].
  intros e He. rewrite Forall_forall in Hall.
  destruct (Hall e He) as [_ [_ [_ [_ [_ [_ [_ [_ [_ Hs]]]]]]]]].
  exact Hs.
Qed.

(** X17: no entity of a Python file has a docstring: [_get_docstring]
    looks at the declaration line itself, which starts with [class] or
    [def] and never with a triple quote. *)
Theorem python_entities_have_no_docstring :
  forall (path : string) (lines : list string),
  exists out,
    _parse_code_file path lines "python" = Ok out /\
    forall e, In e out -> docstring e = None.
Proof.
  intros path lines.
  destruct (parse_code_file_facts path lines "python") as [out [Hrun [Hall _]]].
  exists out. split; [exact Hrun|].
  intros e He. rewrite Forall_forall in Hall.
  destruct (Hall e He) as [_ [_ [_ [_ [_ [_ [_ [_ [Hd _]]]]]]]]].
  apply Hd. reflexivity.
Qed.

(** ** Commit-history miner: the whole run *)

Section HistoryRun.

Variable datetime : Type.
Variable fromisoformat : string -> option datetime.

Lemma records_origin (chunks : list string) (r : CommitInfo datetime) :
  In r (records datetime fromisoformat chunks) ->
  exists chunk,
    In chunk chunks /\ parse_chunk datetime fromisoformat chunk = Ok (Some r).
Proof.
  unfold records. intros H. apply in_flat_map in H.
  destruct H as [chunk [Hin Hr]]. exists chunk. split; [exact Hin|].
  unfold record_of in Hr.
  destruct (parse_chunk datetime fromisoformat chunk) as [[c|]|e];
    try contradiction.
  destruct Hr as [->|[]]. reflexivity.
Qed.

Lemma history_records (raw_log : string) :
  get_history datetime fromisoformat raw_log =
  Ok (records datetime fromisoformat (Py.split raw_log COMMIT_DELIMITER)).
Proof. unfold get_history. rewrite parse_chunks_records. reflexivity. Qed.

Lemma records_kept (chunks : list string) :
  exists outcomes,
    Forall2 (fun chunk r => parse_chunk datetime fromisoformat chunk = Ok r)
      chunks outcomes /\
    records datetime fromisoformat chunks = kept outcomes.
Proof.
  induction chunks as [|c cs [outcomes [Hall Heq]]].
  - exists []. split; [constructor | reflexivity].
  - destruct (parse_chunk_total datetime fromisoformat c) as [r Hr].
    exists (r :: outcomes). split; [constructor; assumption|].
    unfold records, kept in *. cbn [flat_map]. rewrite Heq.
    unfold record_of. rewrite Hr. destruct r; reflexivity.
Qed.

Lemma get_default_in {V : Type} (d : list (string * V)) (k : string) (v : V) :
  In (get_default d k v) (v :: map snd d).
Proof.
  unfold get_default. induction d as [|[k0 w] d IH]; simpl; [auto|].
  destruct (String.eqb k0 k); [auto|].
  destruct IH as [IH|IH]; auto.
Qed.

Lemma classify_category (commit_message : string) :
  In (fst (fst (fst (classify commit_message)))) CATEGORIES.
Proof.
  unfold classify, CATEGORIES.
  destruct (Re.re_match Re.no_flags CONVENTIONAL_RE commit_message) as [g|];
    [|left; reflexivity].
  cbn [fst]. destruct (Re.group 1 g); [apply get_default_in | left; reflexivity].
Qed.

Lemma record_category (chunk : string) (r : CommitInfo datetime) :
  parse_chunk datetime fromisoformat chunk = Ok (Some r) ->
  In (category r) CATEGORIES.
Proof.
  intros H.
  destruct (parse_chunk_record datetime fromisoformat chunk r H) as [_ [Hc _]].
  pose proof (classify_category (full_message r)) as Hin.
  rewrite Hc in Hin. exact Hin.
Qed.

Lemma numstat_step_files (acc acc' : Z * Z * Z) (stat_line : string) :
  numstat_step acc stat_line = Ok acc' ->
  snd acc' = (snd acc + (if is_stat_line stat_line then 1 else 0))%Z.
Proof.
  destruct acc as [[ins outs] files]. unfold numstat_step, is_stat_line.
  destruct (Py.contains tab stat_line); cbn [andb];
    [|intros H; injection H as <-; cbn; lia].
  destruct (3 <=? List.length (Py.split stat_line tab))%nat;
    [|intros H; injection H as <-; cbn; lia].
  destruct (getitem (Py.split stat_line tab) 0) as [p0|]; [|discriminate].
  cbn [bind]. destruct (stat_field p0);
    [|intros H; injection H as <-; reflexivity].
  destruct (getitem (Py.split stat_line tab) 1) as [p1|]; [|discriminate].
  cbn [bind]. destruct (stat_field p1); intros H; injection H as <-; reflexivity.
Qed.

Lemma numstat_loop_files (stat_lines : list string) :
  forall acc acc',
    numstat_loop stat_lines acc = Ok acc' ->
    snd acc' =
    (snd acc + Z.of_nat (List.length (filter is_stat_line stat_lines)))%Z.
Proof.
  induction stat_lines as [|l ls IH]; intros acc acc'; cbn [numstat_loop].
  - intros H. injection H as <-. cbn. lia.
  - destruct (numstat_step acc l) as [mid|] eqn:E; [|discriminate].
    cbn [bind]. intros H. apply IH in H. rewrite H.
    rewrite (numstat_step_files acc mid l E). cbn [filter].
    destruct (is_stat_line l); cbn [List.length]; lia.
Qed.

End HistoryRun.

(** X18: [get_history] does not raise on any log text: every chunk is
    processed on its own, giving a record or nothing, and the result is
    the records of the chunks that gave one, in the order of the chunks. *)
Theorem get_history_chunkwise :
  forall (datetime : Type) (fromisoformat : string -> option datetime)
         (raw_log : string),
  exists outcomes,
    Forall2 (fun chunk r => parse_chunk datetime fromisoformat chunk = Ok r)
      (Py.split raw_log COMMIT_DELIMITER) outcomes /\
    get_history datetime fromisoformat raw_log = Ok (kept outcomes).
Proof.
  intros datetime fromisoformat raw_log.
  destruct (records_kept datetime fromisoformat
              (Py.split raw_log COMMIT_DELIMITER)) as [outcomes [Hall Heq]].
  exists outcomes. split; [exact Hall|].
  rewrite history_records, Heq. reflexivity.
Qed.

(** X19: the category of every record of [get_history] is one of the
    closed list: [other] or a value of [CAT_MAP]. *)
Theorem get_history_categories :
  forall (datetime : Type) (fromisoformat : string -> option datetime)
         (raw_log : string),
  exists commits,
    get_history datetime fromisoformat raw_log = Ok commits /\
    forall r, In r commits -> In (category r) CATEGORIES.
Proof.
  intros datetime fromisoformat raw_log. eexists.
  split; [apply history_records|].
  intros r Hr. apply records_origin in Hr. destruct Hr as [chunk [_ Hrun]].
  exact (record_category datetime fromisoformat chunk r Hrun).
Qed.

(** X20: the files_changed of a record is the number of lines after the
    header that hold a tab and split into at least three parts, whether or
    not their numbers can be read. *)
Theorem files_changed_counts_stat_lines :
  forall (datetime : Type) (fromisoformat : string -> option datetime)
         (chunk : string) (r : CommitInfo datetime),
    parse_chunk datetime fromisoformat chunk = Ok (Some r) ->
    files_changed r =
    Z.of_nat (List.length
                (filter is_stat_line (skipn 1 (Py.split (Py.strip chunk) nl)))).
Proof.
  intros datetime fromisoformat chunk r H.
  destruct (parse_chunk_record datetime fromisoformat chunk r H) as [Hstat _].
  apply numstat_loop_files in Hstat. cbn [snd] in Hstat. rewrite Hstat. lia.
Qed.

Lemma files_changed_counts_stat_lines_witness :
  parse_chunk string git_iso chunk_odd_numbers = Ok (Some record_odd_numbers) /\
  files_changed record_odd_numbers =
  Z.of_nat (List.length
              (filter is_stat_line
                 (skipn 1 (Py.split (Py.strip chunk_odd_numbers) nl)))).
Proof.
  assert (H : parse_chunk string git_iso chunk_odd_numbers =
              Ok (Some record_odd_numbers)) by (vm_compute; reflexivity).
  split; [exact H|].
  exact (files_changed_counts_stat_lines string git_iso chunk_odd_numbers
           record_odd_numbers H).
Defined.

(** X21: a chunk whose header has at least four fields and whose third
    field parses as a date gives a record made of the first four fields:
    hash, author, date and subject; the e-mail is empty, the breaking
    description absent, and header fields after the fourth are dropped. *)
Theorem record_of_header_fields :
  forall (datetime : Type) (fromisoformat : string -> option datetime)
         (chunk h a d s : string) (more : list string) (t : datetime),
    header_fields chunk = h :: a :: d :: s :: more ->
    fromisoformat d = Some t ->
    exists r,
      parse_chunk datetime fromisoformat chunk = Ok (Some r) /\
      hash r = h /\ author_name r = a /\ date datetime r = t /\
      full_message r = s /\
      author_email datetime r = EmptyString /\
      breaking_description datetime r = None.
Proof.
  intros datetime fromisoformat chunk h a d s more t Hhead Hdate.
  unfold header_fields in Hhead.
  destruct (Py.split (Py.strip chunk) nl) as [|line0 rest] eqn:Hlines;
    [discriminate|].
  destruct (parse_chunk_fields datetime fromisoformat chunk line0 h a d s
              rest more t Hlines Hhead Hdate) as [ins [outs [files [_ Hrun]]]].
  eexists. split; [exact Hrun|]. repeat split.
Qed.

Lemma record_of_header_fields_witness :
  header_fields chunk_long_header =
    ["e5"; "Eve"; "2024-05-06T07:08:09+00:00"; "docs: explain "; " in the log"] /\
  git_iso "2024-05-06T07:08:09+00:00" = Some "2024-05-06T07:08:09+00:00" /\
  exists r,
    parse_chunk string git_iso chunk_long_header = Ok (Some r) /\
    hash r = "e5" /\ author_name r = "Eve" /\
    date string r = "2024-05-06T07:08:09+00:00" /\
    full_message r = "docs: explain " /\
    author_email string r = EmptyString /\
    breaking_description string r = None.
Proof.
  assert (H1 : header_fields chunk_long_header =
               ["e5"; "Eve"; "2024-05-06T07:08:09+00:00"; "docs: explain ";
                " in the log"]) by (vm_compute; reflexivity).
  assert (H2 : git_iso "2024-05-06T07:08:09+00:00" =
               Some "2024-05-06T07:08:09+00:00") by (vm_compute; reflexivity).
  split; [exact H1|]. split; [exact H2|].
  exact (record_of_header_fields string git_iso chunk_long_header
           "e5" "Eve" "2024-05-06T07:08:09+00:00" "docs: explain "
           [" in the log"] "2024-05-06T07:08:09+00:00" H1 H2).
Defined.

(** X22: a chunk whose header has at least four fields but whose third
    field does not parse as a date is dropped without raising. *)
Theorem unparsable_date_dropped :
  forall (datetime : Type) (fromisoformat : string -> option datetime)
         (chunk h a d s : string) (more : list string),
    header_fields chunk = h :: a :: d :: s :: more ->
    fromisoformat d = None ->
    parse_chunk datetime fromisoformat chunk = Ok None.
Proof.
  intros datetime fromisoformat chunk h a d s more Hhead Hdate.
  unfold header_fields in Hhead. unfold parse_chunk.
  destruct (negb (Py.truthy (Py.strip chunk))); [reflexivity|].
  destruct (Py.split (Py.strip chunk) nl) as [|line0 rest]; [discriminate|].
  cbn [List.length Nat.ltb Nat.leb getitem nth_error bind skipn].
  destruct (negb (Py.truthy (Py.strip line0))); [reflexivity|].
  rewrite Hhead. cbn [List.length Nat.ltb Nat.leb].
  destruct (numstat_loop_total rest (0, 0, 0)%Z) as [[[ins outs] files] ->].
  cbn [bind getitem nth_error].
  destruct (classify s) as [[[cat sc] br] msg].
  rewrite Hdate. reflexivity.
Qed.

Lemma unparsable_date_dropped_witness :
  header_fields chunk_bad_date = ["f6"; "Flo"; "yesterday"; "feat: z"] /\
  git_iso "yesterday" = None /\
  parse_chunk string git_iso chunk_bad_date = Ok None.
Proof.
  assert (H1 : header_fields chunk_bad_date =
               ["f6"; "Flo"; "yesterday"; "feat: z"]) by (vm_compute; reflexivity).
  assert (H2 : git_iso "yesterday" = None) by (vm_compute; reflexivity).
  split; [exact H1|]. split; [exact H2|].
  exact (unparsable_date_dropped string git_iso chunk_bad_date
           "f6" "Flo" "yesterday" "feat: z" [] H1 H2).
Defined.

(** The three counts of the scorer, for any commit list. *)
Lemma calculate_metrics_counts (datetime : Type)
    (commits : list (CommitInfo datetime))
    (code_metrics : option (list (string * Q))) :
  exists m,
    calculate_metrics datetime commits code_metrics = Ok m /\
    debt_commits m = count_in datetime DEBT_CATEGORIES commits /\
    feature_commits m = count_in datetime FEATURE_CATEGORIES commits /\
    maintenance_commits m = count_in datetime MAINTENANCE_CATEGORIES commits.
Proof.
  destruct commits as [|c cs].
  - exists (mkTechDebtMetrics 0 0 0 0 0 0 0 0 0 0). repeat split.
  - destruct (calculate_metrics_nonempty datetime (c :: cs) code_metrics)
      as [health [Hrun _]]; [discriminate|].
    eexists. split; [exact Hrun|]. repeat split.
Qed.

(** X23: fed with the commits of [get_history], the scorer counts as
    debt the commits of category chore, style or ci, as features those of
    category features or bugfixes and as maintenance those of category
    docs or test: the classifier assigns none of the categories
    [refactor], [feat] and [bugfix] that the scorer's lists also name. *)
Theorem scorer_counts_on_history :
  forall (datetime : Type) (fromisoformat : string -> option datetime)
         (raw_log : string) (code_metrics : option (list (string * Q))),
  exists commits m,
    get_history datetime fromisoformat raw_log = Ok commits /\
    calculate_metrics datetime commits code_metrics = Ok m /\
    debt_commits m = count_in datetime ["chore"; "style"; "ci"] commits /\
    feature_commits m = count_in datetime ["features"; "bugfixes"] commits /\
    maintenance_commits m = count_in datetime ["docs"; "test"] commits /\
    Forall (fun r => ~ In (category r) ["refactor"; "feat"; "bugfix"]) commits.
Proof.
  intros datetime fromisoformat raw_log code_metrics.
  set (commits := records datetime fromisoformat
                    (Py.split raw_log COMMIT_DELIMITER)).
  assert (Hcat : forall r, In r commits -> In (category r) CATEGORIES).
  { intros r Hr. apply records_origin in Hr. destruct Hr as [chunk [_ Hrun]].
    exact (record_category datetime fromisoformat chunk r Hrun). }
  assert (Hsame : forall (cats1 cats2 : list string),
            (forall cat, In cat CATEGORIES -> str_in cat cats1 = str_in cat cats2) ->
            count_in datetime cats1 commits = count_in datetime cats2 commits).
  { intros cats1 cats2 Heq. unfold count_in. f_equal. f_equal.
    clearbody commits. induction commits as [|c cs IH]; [reflexivity|].
    cbn [filter]. rewrite (Heq (category c)) by (apply Hcat; left; reflexivity).
    rewrite IH by (intros r Hr; apply Hcat; right; exact Hr). reflexivity. }
  assert (Hclosed : forall (P : string -> Prop),
            P "other" -> P "features" -> P "bugfixes" -> P "refactoring" ->
            P "docs" -> P "test" -> P "chore" -> P "ci" -> P "style" ->
            P "build" -> P "reverts" -> P "merges" ->
            forall cat, In cat CATEGORIES -> P cat).
  { intros P ? ? ? ? ? ? ? ? ? ? ? ? cat Hin. unfold CATEGORIES in Hin.
    cbn in Hin.
    repeat (destruct Hin as [<-|Hin]; [assumption|]). contradiction. }
  assert (Hd : count_in datetime DEBT_CATEGORIES commits =
               count_in datetime ["chore"; "style"; "ci"] commits)
    by (apply Hsame; apply Hclosed; reflexivity).
  assert (Hf : count_in datetime FEATURE_CATEGORIES commits =
               count_in datetime ["features"; "bugfixes"] commits)
    by (apply Hsame; apply Hclosed; reflexivity).
  assert (Hm : count_in datetime MAINTENANCE_CATEGORIES commits =
               count_in datetime ["docs"; "test"] commits)
    by (apply Hsame; apply Hclosed; reflexivity).
  assert (Hnone : Forall (fun r => ~ In (category r) ["refactor"; "feat"; "bugfix"])
                    commits).
  { apply Forall_forall. intros r Hr.
    refine (Hclosed (fun cat => ~ In cat ["refactor"; "feat"; "bugfix"])
              _ _ _ _ _ _ _ _ _ _ _ _ (category r) (Hcat r Hr));
      cbn; intros H;
      repeat (destruct H as [H|H]; [discriminate H|]); exact H. }
  destruct (calculate_metrics_counts datetime commits code_metrics)
    as [m [Hrun [H1 [H2 H3]]]].
  exists commits, m. split; [apply history_records|]. split; [exact Hrun|].
  rewrite H1, H2, H3. repeat split; assumption.
Qed.

Lemma one_group_at_most (cat : string) :
  ((if str_in cat DEBT_CATEGORIES then 1 else 0) +
   (if str_in cat FEATURE_CATEGORIES then 1 else 0) +
   (if str_in cat MAINTENANCE_CATEGORIES then 1 else 0) <= 1)%nat.
Proof.
  unfold str_in, DEBT_CATEGORIES, FEATURE_CATEGORIES, MAINTENANCE_CATEGORIES.
  cbn [existsb].
  repeat match goal with
         | |- context [String.eqb cat ?s] =>
             destruct (String.eqb_spec cat s) as [->|?]; [cbn; lia|]
         end.
  cbn. lia.
Qed.

Lemma three_counts_le (datetime : Type) (commits : list (CommitInfo datetime)) :
  (count_in datetime DEBT_CATEGORIES commits +
   count_in datetime FEATURE_CATEGORIES commits +
   count_in datetime MAINTENANCE_CATEGORIES commits <=
   Z.of_nat (List.length commits))%Z.
Proof.
  unfold count_in. induction commits as [|c cs IH]; [cbn; lia|].
  cbn [filter List.length].
  pose proof (one_group_at_most (category c)) as H.
  destruct (str_in (category c) DEBT_CATEGORIES);
    destruct (str_in (category c) FEATURE_CATEGORIES);
    destruct (str_in (category c) MAINTENANCE_CATEGORIES);
    cbn [List.length] in *; cbn iota in H; lia.
Qed.

Lemma share_value_le_100 (n total : Z) :
  (0 <= n <= total)%Z -> (0 < total)%Z ->
  (inject_Z n / inject_Z total * 100 <= 100)%Q.
Proof.
  intros Hn Ht.
  setoid_replace (100%Q) with (1 * 100)%Q at 2 by reflexivity.
  apply Qmult_le_compat_r; [|discriminate].
  apply Qle_shift_div_r.
  - unfold Qlt, inject_Z. simpl. lia.
  - rewrite Qmult_1_l. rewrite <- Zle_Qle. lia.
Qed.

(** X24: the scorer returns for every commit list; the three groups do
    not overlap, so the debt, feature and maintenance counts add up to at
    most the total, which is the length of the list; and each of the three
    percentages lies between 0 and 100. *)
Theorem tech_debt_counts_and_shares :
  forall (datetime : Type) (commits : list (CommitInfo datetime))
         (code_metrics : option (list (string * Q))),
  exists m,
    calculate_metrics datetime commits code_metrics = Ok m /\
    (0 <= debt_commits m)%Z /\ (0 <= feature_commits m)%Z /\
    (0 <= maintenance_commits m)%Z /\
    (debt_commits m + feature_commits m + maintenance_commits m
       <= total_commits m)%Z /\
    (0 <= debt_percentage m <= 100)%Q /\
    (0 <= feature_percentage m <= 100)%Q /\
    (0 <= maintenance_percentage m <= 100)%Q.
Proof.
  intros datetime commits code_metrics.
  pose proof (three_counts_le datetime commits) as Hsum.
  pose proof (count_in_nonneg datetime DEBT_CATEGORIES commits) as Hd.
  pose proof (count_in_nonneg datetime FEATURE_CATEGORIES commits) as Hf.
  pose proof (count_in_nonneg datetime MAINTENANCE_CATEGORIES commits) as Hm.
  destruct commits as [|c cs].
  - exists (mkTechDebtMetrics 0 0 0 0 0 0 0 0 0 0).
    split; [reflexivity|]. cbn. repeat split; try lia; discriminate.
  - destruct (calculate_metrics_nonempty datetime (c :: cs) code_metrics)
      as [health [Hrun _]]; [discriminate|].
    pose proof (total_pos datetime (c :: cs) ltac:(discriminate)) as Ht.
    eexists. split; [exact Hrun|].
    cbn [debt_commits feature_commits maintenance_commits total_commits
         debt_percentage feature_percentage maintenance_percentage].
    split; [exact Hd|]. split; [exact Hf|]. split; [exact Hm|].
    split; [exact Hsum|].
    repeat split;
      solve [ apply share_value_nonneg; [assumption | exact Ht]
            | apply share_value_le_100; [lia | exact Ht] ].
Qed.

(** ** Dependency analyzer *)

Lemma imports_from_no_patterns (path : string) (todo : list string) :
  forall i, imports_from path [] i todo = [].
Proof.
  induction todo as [|l ls IH]; intros i; cbn [imports_from]; [reflexivity|].
  rewrite IH. destruct (_ || _); reflexivity.
Qed.

(** X25: a language without an entry in [IMPORT_PATTERNS] yields no
    import, whatever the file holds. *)
Theorem extract_imports_unknown_language :
  forall (path : string) (lines : list string) (lang : string),
    dict_get IMPORT_PATTERNS lang = None ->
    extract_imports path lines lang = [].
Proof.
  intros path lines lang H. unfold extract_imports, get_default.
  rewrite H. apply imports_from_no_patterns.
Qed.

Lemma extract_imports_unknown_language_witness :
  dict_get IMPORT_PATTERNS "haskell" = None /\
  extract_imports "a.hs" [ln "import Data.List"] "haskell" = [].
Proof.
  split; [reflexivity|].
  exact (extract_imports_unknown_language "a.hs" [ln "import Data.List"]
           "haskell" eq_refl).
Defined.

Lemma imports_of_line_facts (path : string)
    (patterns : list (Re.regex * nat * string)) (i : nat) (line : string) :
  Forall (fun imp =>
            imp_line_number imp = i /\
            imp_is_test imp = is_test_path path /\
            exists pattern groups,
              In (pattern, groups, imp_type imp) patterns /\
              (imp_alias imp = None <-> (groups < 2)%nat))
    (imports_of_line path patterns i line).
Proof.
  unfold imports_of_line. apply Forall_forall. intros imp Hin.
  apply in_flat_map in Hin. destruct Hin as [[[pattern groups] ty] [Hp Hm]].
  apply in_map_iff in Hm. destruct Hm as [m [<- _]].
  cbn [imp_line_number imp_is_test imp_type imp_alias].
  split; [reflexivity|]. split; [reflexivity|].
  exists pattern, groups. split; [exact Hp|].
  destruct (2 <=? groups)%nat eqn:E.
  - apply Nat.leb_le in E. split; [discriminate | lia].
  - apply Nat.leb_gt in E. split; [intros _; exact E | reflexivity].
Qed.

Lemma imports_from_facts (path : string)
    (patterns : list (Re.regex * nat * string)) (lines todo : list string) :
  forall i,
    (1 <= i)%nat ->
    (forall k l, nth_error todo k = Some l -> nth_error lines (i - 1 + k) = Some l) ->
    Forall (fun imp =>
              (i <= imp_line_number imp < i + List.length todo)%nat /\
              import_facts path patterns lines imp)
      (imports_from path patterns i todo) /\
    StronglySorted Nat.le (map imp_line_number (imports_from path patterns i todo)).
Proof.
  induction todo as [|line more IH]; intros i H1 Hat.
  - split; constructor.
  - assert (Hline : nth_error lines (i - 1) = Some line).
    { rewrite <- (Nat.add_0_r (i - 1)). apply Hat. reflexivity. }
    destruct (IH (S i)) as [Hall Hsort]; [lia| |].
    { intros k l Hk. replace (S i - 1 + k)%nat with (i - 1 + S k)%nat by lia.
      apply Hat. exact Hk. }
    assert (Hall' : Forall (fun imp =>
              (i <= imp_line_number imp < i + List.length (line :: more))%nat /\
              import_facts path patterns lines imp)
              (imports_from path patterns (S i) more)).
    { apply Forall_impl with (2 := Hall). cbn [List.length].
      intros imp [Hr Hf]. split; [lia | exact Hf]. }
    cbn [imports_from]. fold (skipped_line line).
    destruct (skipped_line line) eqn:Esk; cbn [app]; [split; assumption|].
    pose proof (imports_of_line_facts path patterns i line) as Hhere.
    split.
    + apply Forall_app. split; [|exact Hall'].
      apply Forall_impl with (2 := Hhere).
      intros imp [Hn [Ht Hp]]. cbn [List.length]. split; [lia|].
      unfold import_facts. split; [exact Ht|]. split; [exact Hp|].
      exists line. rewrite Hn. split; assumption.
    + rewrite map_app.
      induction Hhere as [|imp here [Hn _] Hrest IHhere]; cbn [map app];
        [exact Hsort|].
      constructor; [exact IHhere|].
      apply Forall_app. split.
      * clear IHhere. apply Forall_map.
        apply Forall_impl with (2 := Hrest).
        intros x [Hx _]. rewrite Hn, Hx. apply Nat.le_refl.
      * apply Forall_map. apply Forall_impl with (2 := Hall).
        intros x [Hr _]. rewrite Hn. lia.
Qed.

(** X26: the imports of a file come in the order of its lines; each has
    a line number between 1 and the number of lines, of a line that is not
    blank and not a [#] or [//] comment; its kind is that of one of the
    language's patterns, with an alias exactly when that pattern has two
    groups; and its test flag is that of the file's path. *)
Theorem extract_imports_facts :
  forall (path : string) (lines : list string) (lang : string),
    StronglySorted Nat.le
      (map imp_line_number (extract_imports path lines lang)) /\
    Forall (fun imp =>
              (1 <= imp_line_number imp <= List.length lines)%nat /\
              imp_is_test imp = is_test_path path /\
              (exists pattern groups,
                 In (pattern, groups, imp_type imp)
                    (get_default IMPORT_PATTERNS lang []) /\
                 (imp_alias imp = None <-> (groups < 2)%nat)) /\
              exists line,
                nth_error lines (imp_line_number imp - 1) = Some line /\
                skipped_line line = false)
      (extract_imports path lines lang).
Proof.
  intros path lines lang. unfold extract_imports.
  destruct (imports_from_facts path (get_default IMPORT_PATTERNS lang [])
              lines lines 1) as [Hall Hsort];
    [lia | intros k l Hk; exact Hk|].
  split; [exact Hsort|].
  apply Forall_impl with (2 := Hall).
  intros imp [Hr [Ht [Hp Hl]]]. split; [lia|]. repeat split; assumption.
Qed.

Lemma set_all_keys (names : list string) :
  forall (modules : list (string * bool)),
    NoDup (dict_keys modules) ->
    NoDup (dict_keys (set_all modules names)) /\
    forall k, In k (dict_keys (set_all modules names)) <->
              In k (dict_keys modules) \/ In k names.
Proof.
  induction names as [|n ns IH]; intros modules Hnd.
  - cbn. split; [exact Hnd|]. intros k. tauto.
  - cbn [set_all fold_left]. fold (set_all (dict_set modules n true) ns).
    destruct (IH (dict_set modules n true)) as [Hnd' Hin];
      [apply dict_keys_set_nodup; exact Hnd|].
    split; [exact Hnd'|]. intros k. rewrite Hin, dict_keys_set.
    unfold dict_has. cbn [In].
    destruct (dict_get modules n) eqn:E.
    + assert (Hn : In n (dict_keys modules))
        by (apply dict_get_in_keys; congruence).
      split; [tauto|]. intros [H|[<-|H]]; auto.
    + rewrite in_app_iff. cbn [In]. tauto.
Qed.

Lemma add_imports_shape (path : string) (imports : list ImportInfo) :
  forall (es : list Edge) (ms : list (string * bool)),
    add_imports path imports (es, ms) =
    (es ++ map (fun imp => mkEdge path (imp_module imp) (imp_type imp)) imports,
     set_all ms (map imp_module imports)).
Proof.
  unfold add_imports.
  induction imports as [|imp imports IH]; intros es ms; cbn [fold_left map].
  - rewrite app_nil_r. reflexivity.
  - cbn [fst snd]. rewrite IH, <- app_assoc. reflexivity.
Qed.

Lemma set_all_app (ms : list (string * bool)) (a b : list string) :
  set_all ms (a ++ b) = set_all (set_all ms a) b.
Proof. unfold set_all. apply fold_left_app. Qed.

Lemma graph_fold (files : list (string * list string * string)) :
  forall (ns : list Node) (es : list Edge) (ms : list (string * bool)),
    fold_left
      (fun st file =>
         let '(path, lines, lang) := file in
         let imports := extract_imports path lines lang in
         (fst st ++ [mkNode path (basename path) lang
                       (Z.of_nat (List.length imports))],
          add_imports path imports (snd st)))
      files (ns, (es, ms)) =
    (ns ++ map node_of files,
     (es ++ flat_map edges_of files,
      set_all ms (map edge_to (flat_map edges_of files)))).
Proof.
  induction files as [|[[path lines] lang] files IH]; intros ns es ms.
  - cbn. rewrite !app_nil_r. reflexivity.
  - cbn [fold_left fst snd]. rewrite add_imports_shape, IH.
    cbn [map flat_map node_of edges_of].
    rewrite <- !app_assoc, map_app, set_all_app, map_map. reflexivity.
Qed.

Lemma graph_shape (files : list (string * list string * string)) :
  build_dependency_graph files =
  mkGraph (map node_of files) (flat_map edges_of files)
    (dict_keys (set_all [] (map edge_to (flat_map edges_of files)))).
Proof. unfold build_dependency_graph. rewrite graph_fold. reflexivity. Qed.

(** X27: the graph has one node per input file, in the order of the
    files, with the file's path as id and the part of the path after the
    last slash as label; the import counts of the nodes add up to the
    number of edges, and every edge starts at the path of an input file. *)
Theorem dependency_graph_nodes_and_edges :
  forall (files : list (string * list string * string)),
    map node_id (nodes (build_dependency_graph files)) = map path_of files /\
    Forall (fun n => node_label n = basename (node_id n))
      (nodes (build_dependency_graph files)) /\
    sumZ (map node_import_count (nodes (build_dependency_graph files))) =
      Z.of_nat (List.length (edges (build_dependency_graph files))) /\
    Forall (fun e => In (edge_from e) (map path_of files))
      (edges (build_dependency_graph files)).
Proof.
  intros files. rewrite graph_shape. cbn [nodes edges].
  split; [|split; [|split]].
  - rewrite map_map. apply map_ext. intros [[path lines] lang]. reflexivity.
  - apply Forall_map. apply Forall_forall.
    intros [[path lines] lang] _. reflexivity.
  - induction files as [|[[path lines] lang] files IH]; [reflexivity|].
    cbn [map flat_map sumZ fold_right node_of node_import_count edges_of].
    fold (sumZ (map node_import_count (map node_of files))).
    rewrite IH, length_app, length_map. lia.
  - apply Forall_forall. intros e He. apply in_flat_map in He.
    destruct He as [[[path lines] lang] [Hf He]].
    cbn [edges_of] in He. apply in_map_iff in He. destruct He as [imp [<- _]].
    cbn [edge_from]. apply in_map_iff.
    exists (path, lines, lang). split; [reflexivity | exact Hf].
Qed.

(** X28: the external modules are the targets of the edges, each listed
    once. *)
Theorem dependency_graph_external_modules :
  forall (files : list (string * list string * string)),
    NoDup (external_modules (build_dependency_graph files)) /\
    forall m,
      In m (external_modules (build_dependency_graph files)) <->
      In m (map edge_to (edges (build_dependency_graph files))).
Proof.
  intros files. rewrite graph_shape. cbn [external_modules edges].
  destruct (set_all_keys (map edge_to (flat_map edges_of files)) [])
    as [Hnd Hin]; [constructor|].
  split; [exact Hnd|]. intros m. rewrite Hin. cbn. tauto.
Qed.

Lemma prefix_slash (c : ascii) (s : string) :
  String.prefix "/" (String c s) = if ascii_dec "/" c then true else false.
Proof.
  cbn [String.prefix]. destruct (ascii_dec "/" c); [|reflexivity].
  destruct s; reflexivity.
Qed.

Lemma contains_slash_cons (c : ascii) (s : string) :
  Py.contains "/" (String c s) =
  (if ascii_dec "/" c then true else false) || Py.contains "/" s.
Proof. cbn [Py.contains]. rewrite prefix_slash. reflexivity. Qed.

Lemma contains_slash_snoc (cur : string) (c : ascii) :
  Py.contains "/" cur = false -> c <> "/"%char ->
  Py.contains "/" (cur ++ String c EmptyString) = false.
Proof.
  intros Hcur Hc. induction cur as [|a cur IH].
  - cbn [append]. rewrite contains_slash_cons.
    destruct (ascii_dec "/" c); [congruence | reflexivity].
  - cbn [append]. rewrite contains_slash_cons in *.
    apply orb_false_iff in Hcur. destruct Hcur as [Ha Hcur].
    rewrite Ha, (IH Hcur). reflexivity.
Qed.

Lemma last_cons_cons {A : Type} (a b : A) (l : list A) (d : A) :
  List.last (a :: b :: l) d = List.last (b :: l) d.
Proof. reflexivity. Qed.

Lemma append_cons_assoc (a b l : string) (c : ascii) :
  ((a ++ String c b) ++ l)%string = (a ++ String c (b ++ l))%string.
Proof. induction a as [|x a IH]; cbn [append]; [reflexivity | rewrite IH; reflexivity]. Qed.

Lemma split_slash_last (s : string) :
  forall cur,
    Py.contains "/" cur = false ->
    Py.contains "/" (List.last (Py.split_go "/" s 0 cur) EmptyString) = false /\
    exists dir,
      (cur ++ s)%string =
        (dir ++ List.last (Py.split_go "/" s 0 cur) EmptyString)%string /\
      (dir = EmptyString \/ exists d, dir = (d ++ "/")%string).
Proof.
  induction s as [|c s IH]; intros cur Hcur.
  - cbn [Py.split_go List.last]. split; [exact Hcur|].
    exists EmptyString. split; [apply append_empty_r | left; reflexivity].
  - cbn [Py.split_go]. rewrite prefix_slash.
    destruct (ascii_dec "/" c) as [<-|Hne].
    + cbn [String.length Nat.sub].
      destruct (IH EmptyString eq_refl) as [Hlab [dir [Heq Hdir]]].
      destruct (split_go_cons "/" s 0 EmptyString) as [x [l Hx]].
      rewrite Hx in *. rewrite last_cons_cons.
      set (label := List.last (x :: l) EmptyString) in *.
      split; [exact Hlab|]. cbn [append] in Heq.
      exists (cur ++ String "/" dir)%string. split.
      * rewrite append_cons_assoc, <- Heq. reflexivity.
      * right. destruct Hdir as [->|[d ->]].
        -- exists cur. reflexivity.
        -- exists (cur ++ String "/" d)%string.
           rewrite append_cons_assoc. reflexivity.
    + destruct (IH (cur ++ String c EmptyString)%string) as [Hlab [dir [Heq Hdir]]];
        [apply contains_slash_snoc; [exact Hcur | congruence]|].
      split; [exact Hlab|]. exists dir. split; [|exact Hdir].
      rewrite <- Heq, append_snoc. reflexivity.
Qed.

(** X29: the label of a node is the part of its path after the last
    slash: it holds no slash, and the path is the label after a prefix
    that is empty or ends with a slash. *)
Theorem basename_is_last_component :
  forall (path : string),
    Py.contains "/" (basename path) = false /\
    exists dir,
      path = (dir ++ basename path)%string /\
      (dir = EmptyString \/ exists d, dir = (d ++ "/")%string).
Proof.
  intros path. unfold basename, Py.split.
  destruct (split_slash_last path EmptyString eq_refl) as [Hlab [dir [Heq Hdir]]].
  split; [exact Hlab|]. exists dir. split; [exact Heq | exact Hdir].
Qed.
